(** * mcp-agents-go: the tool-augmented response orchestration loop

    A shallow embedding of the agent code of the repository
    ([ExecuteTool], [GenerateContent], [GenerateContentAsStreaming],
    [ExtractToolsFromAgent]) and the properties of the specification that
    are stated about it.

    Go values are modelled as follows.
    - [string]: a Go string is a sequence of bytes; [len] and indices count
      bytes, as in Go.
    - [int]: [Z].  The only arithmetic on [int] is [strings.Index(..)+2] and
      [len(..) > 1000], on values bounded by the length of a string, so no
      wrap-around can occur.
    - [error]: a value of type [error]; a result that may be nil is an
      [option error].
    - a panic is an outcome of its own, next to the normal return.
    - the LLM client, the MCP clients, encoding/json, sonic and genesis are
      collaborators: they are the fields of the class [Env]. *)

From Stdlib Require Import String Ascii List ZArith Lia Bool Arith.
Import ListNotations.

Set Warnings "-register-all".

Local Open Scope string_scope.
Local Open Scope list_scope.
Local Open Scope Z_scope.

(** Go's [+] on strings. *)
Infix "+++" := String.append (right associativity, at level 60).

(** ** Errors and panics *)

(** A Go [error].  [Err msg] is an error made by a collaborator
    ([errors.New(msg)]); [Errorf_w prefix cause] is
    [fmt.Errorf(prefix + "%w", cause)]. *)
Inductive error : Type :=
| Err (msg : string)
| Errorf_w (prefix : string) (cause : error).

(** [err.Error()], which is also what the verb [%v] prints. *)
Fixpoint Error (e : error) : string :=
  match e with
  | Err msg => msg
  | Errorf_w prefix cause => prefix +++ Error cause
  end.

(** Run-time panics of the Go runtime that the code can raise. *)
Inductive runtime_error : Type :=
| SliceBoundsOutOfRange
| IndexOutOfRange.

(** The value carried by a panic: [panic(err)] or a run-time error. *)
Inductive panic_value : Type :=
| PanicErr (e : error)
| PanicRuntime (r : runtime_error).

(** How a call ends: it returns, or it panics. *)
Inductive outcome (A : Type) : Type :=
| Normal (a : A)
| Panicked (p : panic_value).
Arguments Normal {A} a.
Arguments Panicked {A} p.

(** ** Go strings *)

Definition len (s : string) : Z := Z.of_nat (String.length s).

(** [strings.HasPrefix(s, prefix)]. *)
Fixpoint strings_HasPrefix (s prefix : string) {struct prefix} : bool :=
  match prefix, s with
  | EmptyString, _ => true
  | String a prefix', String b s' => Ascii.eqb a b && strings_HasPrefix s' prefix'
  | String _ _, EmptyString => false
  end.

(** Position of the first occurrence of [substr] in [s]. *)
Fixpoint index_nat (s substr : string) : option nat :=
  if strings_HasPrefix s substr then Some 0%nat
  else match s with
       | EmptyString => None
       | String _ s' => option_map S (index_nat s' substr)
       end.

(** [strings.Index(s, substr)]: the index of the first instance of
    [substr] in [s], or -1 if [substr] is not present in [s]. *)
Definition strings_Index (s substr : string) : Z :=
  match index_nat s substr with
  | Some i => Z.of_nat i
  | None => -1
  end.

(** [strings.HasSuffix(s, suffix)]. *)
Fixpoint strings_HasSuffix (s suffix : string) : bool :=
  if String.eqb s suffix then true
  else match s with
       | EmptyString => false
       | String _ s' => strings_HasSuffix s' suffix
       end.

(** The slice expression [s[:hi]]: panics unless [0 <= hi <= len(s)]. *)
Definition slice_to (s : string) (hi : Z) : outcome string :=
  if (0 <=? hi) && (hi <=? len s)
  then Normal (substring 0 (Z.to_nat hi) s)
  else Panicked (PanicRuntime SliceBoundsOutOfRange).

(** The slice expression [s[lo:]]: panics unless [0 <= lo <= len(s)]. *)
Definition slice_from (s : string) (lo : Z) : outcome string :=
  if (0 <=? lo) && (lo <=? len s)
  then Normal (substring (Z.to_nat lo) (String.length s - Z.to_nat lo) s)
  else Panicked (PanicRuntime SliceBoundsOutOfRange).

(** ** Name resolution (agent.go, lines 81-82)

<<
    serverName := toolName[:strings.Index(toolName, "__")]
    toolName = toolName[strings.Index(toolName, "__")+2:]
>>
    The first slice expression is evaluated first; a panic there ends the
    call. *)
Definition split_tool_name (toolName : string) : outcome (string * string) :=
  match slice_to toolName (strings_Index toolName "__") with
  | Panicked p => Panicked p
  | Normal serverName =>
      match slice_from toolName (strings_Index toolName "__" + 2) with
      | Panicked p => Panicked p
      | Normal toolName' => Normal (serverName, toolName')
      end
  end.

(** ** JSON values

  What [json.Unmarshal] produces when it decodes into an [interface{}]:
  objects become maps, arrays become slices.  The members of an object are
  kept in the order of the text; a later member overrides an earlier one
  with the same key, as in a Go map. *)
Module Json.

Inductive value : Type :=
| JNull
| JBool (b : bool)
| JNumber (literal : string)
| JString (s : string)
| JArray (elems : list value)
| JObject (members : list (string * value)).

(** [m[key]] on a decoded object: the last member with that key. *)
Fixpoint lookup (key : string) (members : list (string * value)) : option value :=
  match members with
  | [] => None
  | (k, v) :: rest =>
      match lookup key rest with
      | Some v' => Some v'
      | None => if String.eqb k key then Some v else None
      end
  end.

(** *** A reader for JSON texts (RFC 8259)

    encoding/json is not part of the repository; the development takes
    the decoder as a parameter.  This reader is the instance used to run
    the model on concrete texts.  Raw bytes of strings are kept as they
    are. *)

(** The double quote character. *)
Definition dquote : ascii := "034"%char.

(** Writes a JSON text with apostrophes in place of double quotes. *)
Fixpoint text (s : string) : string :=
  match s with
  | EmptyString => EmptyString
  | String c s' => String (if (c =? "'")%char then dquote else c) (text s')
  end.

Definition is_ws (c : ascii) : bool :=
  (c =? " ")%char || (c =? "009")%char || (c =? "010")%char || (c =? "013")%char.

Fixpoint skip_ws (s : string) : string :=
  match s with
  | String c s' => if is_ws c then skip_ws s' else s
  | EmptyString => s
  end.

Definition is_digit (c : ascii) : bool :=
  let n := nat_of_ascii c in (48 <=? n)%nat && (n <=? 57)%nat.

(** The longest prefix of digits, and what follows. *)
Fixpoint digits (s : string) : string * string :=
  match s with
  | String c s' =>
      if is_digit c then let (ds, r) := digits s' in (String c ds, r)
      else (EmptyString, s)
  | EmptyString => (EmptyString, s)
  end.

Definition nonempty (s : string) : bool :=
  match s with EmptyString => false | String _ _ => true end.

(** A number: an optional minus sign, an integer part without leading
    zeros, an optional fraction, an optional exponent. *)
Definition number (s : string) : option (string * string) :=
  let (sign, s1) :=
    match s with
    | String c r => if (c =? "-")%char then ("-", r) else (EmptyString, s)
    | EmptyString => (EmptyString, s)
    end in
  let int_part :=
    match s1 with
    | String c r =>
        if (c =? "0")%char then Some ("0", r)
        else if is_digit c then let (ds, r') := digits r in Some (String c ds, r')
        else None
    | EmptyString => None
    end in
  match int_part with
  | None => None
  | Some (i, s2) =>
      let frac_part :=
        match s2 with
        | String c r =>
            if (c =? ".")%char then
              let (ds, r') := digits r in
              if nonempty ds then Some ("." +++ ds, r') else None
            else Some (EmptyString, s2)
        | EmptyString => Some (EmptyString, s2)
        end in
      match frac_part with
      | None => None
      | Some (f, s3) =>
          let exp_part :=
            match s3 with
            | String c r =>
                if (c =? "e")%char || (c =? "E")%char then
                  let (sg, r1) :=
                    match r with
                    | String d r0 =>
                        if (d =? "+")%char || (d =? "-")%char
                        then (String d EmptyString, r0) else (EmptyString, r)
                    | EmptyString => (EmptyString, r)
                    end in
                  let (ds, r') := digits r1 in
                  if nonempty ds then Some (String c sg +++ ds, r') else None
                else Some (EmptyString, s3)
            | EmptyString => Some (EmptyString, s3)
            end in
          match exp_part with
          | None => None
          | Some (e, s4) => Some (sign +++ i +++ f +++ e, s4)
          end
      end
  end.

Definition hex_digit (c : ascii) : option N :=
  let n := N_of_ascii c in
  if (48 <=? n)%N && (n <=? 57)%N then Some (n - 48)%N
  else if (65 <=? n)%N && (n <=? 70)%N then Some (n - 55)%N
  else if (97 <=? n)%N && (n <=? 102)%N then Some (n - 87)%N
  else None.

(** Four hexadecimal digits, as a number. *)
Definition hex4 (s : string) : option (N * string) :=
  match s with
  | String a (String b (String c (String d r))) =>
      match hex_digit a, hex_digit b, hex_digit c, hex_digit d with
      | Some x, Some y, Some z, Some w =>
          Some (((x * 16 + y) * 16 + z) * 16 + w, r)%N
      | _, _, _, _ => None
      end
  | _ => None
  end.

Definition byte (n : N) : string := String (ascii_of_N n) EmptyString.

(** The UTF-8 encoding of a code point. *)
Definition utf8 (cp : N) : string :=
  (if cp <? 128 then byte cp
   else if cp <? 2048 then byte (192 + cp / 64) +++ byte (128 + cp mod 64)
   else if cp <? 65536 then
     byte (224 + cp / 4096) +++ byte (128 + (cp / 64) mod 64)
       +++ byte (128 + cp mod 64)
   else
     byte (240 + cp / 262144) +++ byte (128 + (cp / 4096) mod 64)
       +++ byte (128 + (cp / 64) mod 64) +++ byte (128 + cp mod 64))%N.

Definition is_high_surrogate (u : N) : bool := (55296 <=? u)%N && (u <? 56320)%N.
Definition is_low_surrogate (u : N) : bool := (56320 <=? u)%N && (u <? 57344)%N.

(** The characters of a string after the opening quote, up to the closing
    one, with the escapes decoded.  A surrogate that is not half of a
    pair becomes U+FFFD. *)
Fixpoint string_body (fuel : nat) (s : string) : option (string * string) :=
  match fuel with
  | O => None
  | S fuel =>
      match s with
      | EmptyString => None
      | String c r =>
          if (c =? dquote)%char then Some (EmptyString, r)
          else if (c =? "\")%char then
            match r with
            | EmptyString => None
            | String e r1 =>
                let simple (x : string) :=
                  match string_body fuel r1 with
                  | Some (t, r2) => Some (x +++ t, r2)
                  | None => None
                  end in
                if (e =? dquote)%char then simple (String dquote EmptyString)
                else if (e =? "\")%char then simple "\"
                else if (e =? "/")%char then simple "/"
                else if (e =? "b")%char then simple (byte 8)
                else if (e =? "f")%char then simple (byte 12)
                else if (e =? "n")%char then simple (byte 10)
                else if (e =? "r")%char then simple (byte 13)
                else if (e =? "t")%char then simple (byte 9)
                else if (e =? "u")%char then
                  match hex4 r1 with
                  | None => None
                  | Some (u, r2) =>
                      let pair :=
                        if is_high_surrogate u then
                          match r2 with
                          | String b1 (String b2 r3) =>
                              if (b1 =? "\")%char && (b2 =? "u")%char then
                                match hex4 r3 with
                                | Some (l, r4) =>
                                    if is_low_surrogate l
                                    then Some (65536 + (u - 55296) * 1024 + (l - 56320), r4)%N
                                    else None
                                | None => None
                                end
                              else None
                          | _ => None
                          end
                        else None in
                      let (cp, r5) :=
                        match pair with
                        | Some p => p
                        | None =>
                            if is_high_surrogate u || is_low_surrogate u
                            then (65533%N, r2) else (u, r2)
                        end in
                      match string_body fuel r5 with
                      | Some (t, r6) => Some (utf8 cp +++ t, r6)
                      | None => None
                      end
                  end
                else None
            end
          else if (N_of_ascii c <? 32)%N then None
          else
            match string_body fuel r with
            | Some (t, r1) => Some (String c t, r1)
            | None => None
            end
      end
  end.

Definition literal (lit : string) (v : value) (s : string) : option (value * string) :=
  if strings_HasPrefix s lit
  then Some (v, substring (String.length lit) (String.length s - String.length lit) s)
  else None.

Fixpoint parse_value (fuel : nat) (s : string) : option (value * string) :=
  match fuel with
  | O => None
  | S fuel =>
      match skip_ws s with
      | EmptyString => None
      | String c r as s0 =>
          if (c =? "n")%char then literal "null" JNull s0
          else if (c =? "t")%char then literal "true" (JBool true) s0
          else if (c =? "f")%char then literal "false" (JBool false) s0
          else if (c =? dquote)%char then
            match string_body (S (String.length r)) r with
            | Some (str, r') => Some (JString str, r')
            | None => None
            end
          else if (c =? "[")%char then
            match skip_ws r with
            | EmptyString => None
            | String d r' as r0 =>
                if (d =? "]")%char then Some (JArray [], r')
                else match parse_elements fuel r0 with
                     | Some (vs, r'') => Some (JArray vs, r'')
                     | None => None
                     end
            end
          else if (c =? "{")%char then
            match skip_ws r with
            | EmptyString => None
            | String d r' as r0 =>
                if (d =? "}")%char then Some (JObject [], r')
                else match parse_members fuel r0 with
                     | Some (ms, r'') => Some (JObject ms, r'')
                     | None => None
                     end
            end
          else
            match number s0 with
            | Some (lit, r') => Some (JNumber lit, r')
            | None => None
            end
      end
  end
with parse_elements (fuel : nat) (s : string) : option (list value * string) :=
  match fuel with
  | O => None
  | S fuel =>
      match parse_value fuel s with
      | None => None
      | Some (v, r) =>
          match skip_ws r with
          | EmptyString => None
          | String c r' =>
              if (c =? "]")%char then Some ([v], r')
              else if (c =? ",")%char then
                match parse_elements fuel r' with
                | Some (vs, r'') => Some (v :: vs, r'')
                | None => None
                end
              else None
          end
      end
  end
with parse_members (fuel : nat) (s : string) : option (list (string * value) * string) :=
  match fuel with
  | O => None
  | S fuel =>
      match skip_ws s with
      | EmptyString => None
      | String q r =>
          if (q =? dquote)%char then
            match string_body (S (String.length r)) r with
            | None => None
            | Some (key, r1) =>
                match skip_ws r1 with
                | EmptyString => None
                | String c r2 =>
                    if (c =? ":")%char then
                      match parse_value fuel r2 with
                      | None => None
                      | Some (v, r3) =>
                          match skip_ws r3 with
                          | EmptyString => None
                          | String d r4 =>
                              if (d =? "}")%char then Some ([(key, v)], r4)
                              else if (d =? ",")%char then
                                match parse_members fuel r4 with
                                | Some (ms, r5) => Some ((key, v) :: ms, r5)
                                | None => None
                                end
                              else None
                          end
                      end
                    else None
                end
            end
          else None
      end
  end.

(** A whole text: one value, with white space around it. *)
Definition parse (s : string) : option value :=
  match parse_value (2 * String.length s + 2) s with
  | Some (v, r) => if nonempty (skip_ws r) then None else Some v
  | None => None
  end.

(** [json.Unmarshal(data, &v)] for [v] of type [interface{}]. *)
Definition Unmarshal (data : string) : error + value :=
  match parse data with
  | Some v => inr v
  | None => inl (Err "invalid JSON text")
  end.

End Json.

(** ** Data model

    The declarations of langchaingo's [llms] package and of mcp-go's [mcp]
    package are not among the sources.  The types below have the fields
    that agent.go reads and writes, with the shape that sections 3 and 6 of
    the spec give them. *)

(** Modelled from the spec: [llms.FunctionCall], the function name and the
    arguments (a raw JSON string) of a tool call (section 6). *)
Record FunctionCall : Type := {
  FunctionCall_Name : string;
  FunctionCall_Arguments : string
}.

(** Modelled from the spec: [llms.ToolCall], a tool call exposes
    [{id, functionName, argumentsJSON}] (section 6). *)
Record ToolCall : Type := {
  ToolCall_ID : string;
  ToolCall_FunctionCall : FunctionCall
}.

(** Modelled from the spec: [llms.ToolCallResponse],
    [ToolCallResult{toolCallID, content}] (section 3). *)
Record ToolCallResponse : Type := {
  ToolCallID : string;
  Content : string
}.

(** Modelled from the spec: [llms.ContentPart], a Part is one of [Text],
    [ToolCallRequest], [ToolCallResult] (section 3). *)
Inductive ContentPart : Type :=
| TextContent (Text : string)
| ToolCallPart (call : ToolCall)
| ToolCallResponsePart (response : ToolCallResponse).

(** Modelled from the spec: [llms.MessageContent], a Message is a role and
    an ordered sequence of parts (section 3).  The role is a string type in
    Go; agent.go writes the roles "human", "ai" and "tool". *)
Record MessageContent : Type := {
  Role : string;
  Parts : list ContentPart
}.

(** Modelled from the spec: [llms.ContentChoice], a response exposes
    [choices[0].content] and [choices[0].toolCalls[]] (section 6). *)
Record ContentChoice : Type := {
  Choice_Content : string;
  ToolCalls : list ToolCall
}.

(** Modelled from the spec: [llms.ContentResponse], the choices of a
    response; the slice may be empty. *)
Record ContentResponse : Type := {
  Choices : list ContentChoice
}.

(** Modelled from the spec: [llms.FunctionDefinition], the
    [{namespacedName, description, parameterSchema}] of a ToolDefinition
    (section 3). *)
Record FunctionDefinition : Type := {
  FunctionDefinition_Name : string;
  FunctionDefinition_Description : string;
  Parameters : list (string * Json.value)
}.

(** Modelled from the spec: [llms.Tool], as agent.go builds it. *)
Record llms_Tool : Type := {
  llms_Tool_Type : string;
  Function : FunctionDefinition
}.

(** Modelled from the spec: [mcp.ToolInputSchema], the two fields agent.go
    reads. *)
Record ToolInputSchema : Type := {
  InputSchema_Type : string;
  Properties : Json.value
}.

(** Modelled from the spec: [mcp.Tool], a tool of a provider: name,
    description, schema (glossary of the spec). *)
Record mcp_Tool : Type := {
  mcp_Tool_Name : string;
  mcp_Tool_Description : string;
  InputSchema : ToolInputSchema
}.

(** Modelled from the spec: [mcp.CallToolRequest], with the fields agent.go
    sets.  [Arguments] has type [any]: [None] is [nil], [Some raw] is
    [json.RawMessage(raw)]. *)
Record CallToolRequest : Type := {
  Method : string;
  Params_Name : string;
  Params_Arguments : option string
}.

(** The line feed, written [\n] in Go. *)
Definition LF : string := String "010"%char EmptyString.

(** [resp.Choices[0]]: indexing an empty slice panics. *)
Definition index0 {A : Type} (l : list A) : outcome A :=
  match l with
  | [] => Panicked (PanicRuntime IndexOutOfRange)
  | x :: _ => Normal x
  end.

(** ** The collaborators

    [World] is the state of everything outside the agent: the LLM provider
    and the MCP servers behind the clients.  [llms.Model] and
    [mcpclient.MCPClient] are Go interfaces; a call of one of their methods
    reads and changes the world. *)
Class Env : Type := {
  World : Type;
  Model : Type;
  MCPClient : Type;
  CallToolResult : Type;
  (** [LLMModel.GenerateContent(ctx, msgs, llms.WithTools(tools), ...)]: the
      fragments handed one by one to the streaming function when one is
      given (the flag), and the result. *)
  llm_GenerateContent :
    World -> Model -> list MessageContent -> list llms_Tool -> bool ->
    World * list string * (error + ContentResponse);
  (** [Client.CallTool(ctx, request)]. *)
  client_CallTool :
    World -> MCPClient -> CallToolRequest -> World * (error + CallToolResult);
  (** [sonic.MarshalString(result)]. *)
  sonic_MarshalString : CallToolResult -> error + string;
  (** [json.Unmarshal] into an [interface{}]. *)
  json_Unmarshal : string -> error + Json.value;
  (** [slices.ErrNotFound] of life4/genesis. *)
  ErrNotFound : error
}.

(** ** The agent (agent.go) *)
Section Agent.

Context {env : Env}.

(** server.go, lines 15-22. *)
Record MCPServer : Type := {
  Name : string;
  Type_ : string;
  Command : list string;
  URL : string;
  Headers : list string;
  Client : MCPClient
}.

(** agent.go, lines 61-64. *)
Record MCPAgentServer : Type := {
  MCPAgentServer_Name : string;
  AllowedTools : list string
}.

(** agent.go, lines 16-23.  [MCPServerTools] is a Go map: its entries are
    given in the order in which a [range] statement visits them. *)
Record MCPAgent : Type := {
  MCPAgent_Name : string;
  MCPServerNames : list MCPAgentServer;
  MCPServerTools : list (string * list mcp_Tool);
  mcpServers : list MCPServer;
  Provider : string;
  LLMModel : Model
}.

(** *** Observable effects, in program order

    [EvGenerate], [EvCallTool] and [EvExecuteTool] record that the call has
    returned, with what it returned. *)
Inductive event : Type :=
| EvGenerate (msgs : list MessageContent) (tools : list llms_Tool)
    (streaming : bool) (res : error + ContentResponse)
| EvCallTool (srv : MCPServer) (req : CallToolRequest)
    (res : error + CallToolResult)
| EvExecuteTool (toolName argumentsInJSON : string)
    (res : string * option error)
| EvSend (fragment : string)
| EvSendMessage (msg : MessageContent)
| EvClose
| EvPrint (text : string).

(** A computation: from the state of the world to the new state, the
    effects performed, and the way the computation ends. *)
Definition M (A : Type) : Type := World -> World * list event * outcome A.

Definition ret {A : Type} (a : A) : M A := fun w => (w, [], Normal a).

Definition bind {A B : Type} (m : M A) (k : A -> M B) : M B :=
  fun w =>
    match m w with
    | (w1, t1, Normal a) =>
        match k a w1 with
        | (w2, t2, o) => (w2, t1 ++ t2, o)
        end
    | (w1, t1, Panicked p) => (w1, t1, Panicked p)
    end.

Definition panic {A : Type} (p : panic_value) : M A :=
  fun w => (w, [], Panicked p).

Definition emit (e : event) : M unit := fun w => (w, [e], Normal tt).

(** A pure step that may panic. *)
Definition lift {A : Type} (o : outcome A) : M A := fun w => (w, [], o).

Notation "x <- m ;; k" := (bind m (fun x => k))
  (at level 100, m at next level, right associativity).
Notation "m ;;; k" := (bind m (fun _ => k))
  (at level 100, right associativity).

(** The streaming function applied to each fragment in turn. *)
Fixpoint for_each {A : Type} (l : list A) (f : A -> M unit) : M unit :=
  match l with
  | [] => ret tt
  | x :: rest => f x ;;; for_each rest f
  end.

Definition is_some {A : Type} (o : option A) : bool :=
  match o with Some _ => true | None => false end.

(** A call of the LLM.  With a streaming function the provider hands it
    every fragment before the call returns. *)
Definition LLM_GenerateContent (model : Model) (msgs : list MessageContent)
    (tools : list llms_Tool) (streamingFunc : option (string -> M unit))
  : M (error + ContentResponse) :=
  fun w =>
    match llm_GenerateContent w model msgs tools (is_some streamingFunc) with
    | (w1, chunks, res) =>
        (match streamingFunc with
         | Some f => for_each chunks f
         | None => ret tt
         end ;;;
         emit (EvGenerate msgs tools (is_some streamingFunc) res) ;;;
         ret res) w1
    end.

Definition Client_CallTool (srv : MCPServer) (req : CallToolRequest)
  : M (error + CallToolResult) :=
  fun w =>
    match client_CallTool w (Client srv) req with
    | (w1, res) => (w1, [EvCallTool srv req res], Normal res)
    end.

(** [slices.Find] of life4/genesis: the first element that satisfies [f],
    or the error [ErrNotFound]. *)
Definition slices_Find {T : Type} (items : list T) (f : T -> bool) : error + T :=
  match List.find f items with
  | Some x => inr x
  | None => inl ErrNotFound
  end.

(** *** ExtractToolsFromAgent (agent.go, lines 173-196) *)
Definition ExtractToolsFromAgent (m : MCPAgent) : list llms_Tool :=
  flat_map
    (fun entry : string * list mcp_Tool =>
       let (serverName, agTs) := entry in
       map (fun agT =>
              let params :=
                [("type", Json.JString (InputSchema_Type (InputSchema agT)));
                 ("properties", Properties (InputSchema agT))] in
              {| llms_Tool_Type := "function";
                 Function :=
                   {| FunctionDefinition_Name :=
                        serverName +++ "__" +++ mcp_Tool_Name agT;
                      FunctionDefinition_Description := mcp_Tool_Description agT;
                      Parameters := params |} |})
           agTs)
    (MCPServerTools m).

(** *** ExecuteTool (agent.go, lines 67-117) *)

(** Lines 69-79: [inl] is the early return with the error, [inr] the value
    of [arguments]. *)
Definition validate_arguments (argumentsInJSON : string) : error + option string :=
  if String.eqb argumentsInJSON EmptyString || String.eqb argumentsInJSON "{}"
  then inr None
  else
    match json_Unmarshal argumentsInJSON with
    | inl err => inl (Errorf_w "invalid JSON arguments: " err)
    | inr _ => inr (Some argumentsInJSON)
    end.

Definition ExecuteTool_body (m : MCPAgent) (toolName argumentsInJSON : string)
  : M (string * option error) :=
  match validate_arguments argumentsInJSON with
  | inl err => ret (EmptyString, Some err)
  | inr arguments =>
      names <- lift (split_tool_name toolName) ;;
      let (serverName, toolName) := names : string * string in
      match slices_Find (mcpServers m)
              (fun srv => String.eqb (Name srv) serverName) with
      | inl err => ret (EmptyString, Some err)
      | inr toolServer =>
          res <- Client_CallTool toolServer
                   {| Method := "tools/call";
                      Params_Name := toolName;
                      Params_Arguments := arguments |} ;;
          match res with
          | inl err =>
              ret (EmptyString, Some (Errorf_w "failed to call mcp tool: " err))
          | inr result =>
              match sonic_MarshalString result with
              | inl err =>
                  ret (EmptyString,
                       Some (Errorf_w "failed to marshal mcp tool result: " err))
              | inr marshaledResult => ret (marshaledResult, None)
              end
          end
      end
  end.

(** The call, with its return recorded. *)
Definition ExecuteTool (m : MCPAgent) (toolName argumentsInJSON : string)
  : M (string * option error) :=
  res <- ExecuteTool_body m toolName argumentsInJSON ;;
  emit (EvExecuteTool toolName argumentsInJSON res) ;;;
  ret res.

(** *** The progress markers *)

(** [fmt.Sprintf("\n[tool_usage] %s\n", name)] *)
Definition tool_usage_marker (name : string) : string :=
  LF +++ "[tool_usage] " +++ name +++ LF.

(** <<
    msgToPrint := toolRes
    if len(msgToPrint) > 1000 { msgToPrint = msgToPrint[:1000] + "..." }
    >> *)
Definition msgToPrint (toolRes : string) : outcome string :=
  if 1000 <? len toolRes then
    match slice_to toolRes 1000 with
    | Normal s => Normal (s +++ "...")
    | Panicked p => Panicked p
    end
  else Normal toolRes.

(** [fmt.Sprintf("\n[tool_response] %s: %s]\n\n", name, msgToPrint)] *)
Definition tool_response_marker (name toolRes : string) : outcome string :=
  match msgToPrint toolRes with
  | Normal shown =>
      Normal (LF +++ "[tool_response] " +++ name +++ ": " +++ shown
                +++ "]" +++ LF +++ LF)
  | Panicked p => Panicked p
  end.

(** The two messages appended for one tool call. *)
Definition ai_message (suggestedTool : ToolCall) : MessageContent :=
  {| Role := "ai"; Parts := [ToolCallPart suggestedTool] |}.

Definition tool_message (suggestedTool : ToolCall) (toolRes : string) : MessageContent :=
  {| Role := "tool";
     Parts := [ToolCallResponsePart
                 {| ToolCallID := ToolCall_ID suggestedTool;
                    Content := toolRes |}] |}.

Definition human_message (prompt : string) : MessageContent :=
  {| Role := "human"; Parts := [TextContent prompt] |}.

Definition tool_name (suggestedTool : ToolCall) : string :=
  FunctionCall_Name (ToolCall_FunctionCall suggestedTool).

Definition tool_arguments (suggestedTool : ToolCall) : string :=
  FunctionCall_Arguments (ToolCall_FunctionCall suggestedTool).

(** *** GenerateContent (server.go, lines 350-412) *)

(** One iteration of the [for _, suggestedTool := range toolCalls] loop,
    lines 366-399, on the variables [msgs] and [response]. *)
Definition tool_step (m : MCPAgent) (addNotFinalResponses : bool)
    (suggestedTool : ToolCall) (msgs : list MessageContent) (response : string)
  : M (list MessageContent * string) :=
  let response :=
    if addNotFinalResponses
    then response +++ tool_usage_marker (tool_name suggestedTool)
    else response in
  res <- ExecuteTool m (tool_name suggestedTool) (tool_arguments suggestedTool) ;;
  match res with
  | (_, Some err) => panic (PanicErr err)
  | (toolRes, None) =>
      let msgs := msgs ++ [ai_message suggestedTool] in
      let msgs := msgs ++ [tool_message suggestedTool toolRes] in
      if addNotFinalResponses then
        marker <- lift (tool_response_marker (tool_name suggestedTool) toolRes) ;;
        ret (msgs, response +++ marker)
      else ret (msgs, response)
  end.

Fixpoint tool_loop (m : MCPAgent) (addNotFinalResponses : bool)
    (toolCalls : list ToolCall) (msgs : list MessageContent) (response : string)
  : M (list MessageContent * string) :=
  match toolCalls with
  | [] => ret (msgs, response)
  | suggestedTool :: rest =>
      st <- tool_step m addNotFinalResponses suggestedTool msgs response ;;
      tool_loop m addNotFinalResponses rest (fst st) (snd st)
  end.

Definition GenerateContent (m : MCPAgent) (prompt : string)
    (addNotFinalResponses : bool) : M string :=
  let msgs := [human_message prompt] in
  let tools := ExtractToolsFromAgent m in
  r <- LLM_GenerateContent (LLMModel m) msgs tools None ;;
  match r with
  | inl err => panic (PanicErr err)
  | inr resp =>
      choice0 <- lift (index0 (Choices resp)) ;;
      let toolCalls := ToolCalls choice0 in
      let response := EmptyString in
      if (0 <? Z.of_nat (length toolCalls)) then
        st <- tool_loop m addNotFinalResponses toolCalls msgs response ;;
        r2 <- LLM_GenerateContent (LLMModel m) (fst st) tools None ;;
        match r2 with
        | inl err => panic (PanicErr err)
        | inr resp2 =>
            choice <- lift (index0 (Choices resp2)) ;;
            ret (snd st +++ Choice_Content choice)
        end
      else
        choice <- lift (index0 (Choices resp)) ;;
        ret (response +++ Choice_Content choice)
  end.

(** *** GenerateContent (agent/agent.go, lines 119-171)

    The variant of agent/agent.go: no progress markers, the suggested
    tool is printed on the standard output. *)
Definition tool_step0 (m : MCPAgent) (suggestedTool : ToolCall)
    (msgs : list MessageContent) : M (list MessageContent) :=
  emit (EvPrint ("Suggested to use tool " +++ tool_name suggestedTool +++ LF)) ;;;
  res <- ExecuteTool m (tool_name suggestedTool) (tool_arguments suggestedTool) ;;
  match res with
  | (_, Some err) => panic (PanicErr err)
  | (toolRes, None) =>
      let msgs := msgs ++ [ai_message suggestedTool] in
      let msgs := msgs ++ [tool_message suggestedTool toolRes] in
      ret msgs
  end.

Fixpoint tool_loop0 (m : MCPAgent) (toolCalls : list ToolCall)
    (msgs : list MessageContent) : M (list MessageContent) :=
  match toolCalls with
  | [] => ret msgs
  | suggestedTool :: rest =>
      msgs' <- tool_step0 m suggestedTool msgs ;;
      tool_loop0 m rest msgs'
  end.

Definition GenerateContent0 (m : MCPAgent) (prompt : string) : M string :=
  let msgs := [human_message prompt] in
  let tools := ExtractToolsFromAgent m in
  r <- LLM_GenerateContent (LLMModel m) msgs tools None ;;
  match r with
  | inl err => panic (PanicErr err)
  | inr resp =>
      choice0 <- lift (index0 (Choices resp)) ;;
      let toolCalls := ToolCalls choice0 in
      if (0 <? Z.of_nat (length toolCalls)) then
        msgs' <- tool_loop0 m toolCalls msgs ;;
        r2 <- LLM_GenerateContent (LLMModel m) msgs' tools None ;;
        match r2 with
        | inl err => panic (PanicErr err)
        | inr resp2 =>
            choice <- lift (index0 (Choices resp2)) ;;
            ret (Choice_Content choice)
        end
      else
        choice <- lift (index0 (Choices resp)) ;;
        ret (Choice_Content choice)
  end.

(** *** The Response Classifier (server.go, lines 266-289) *)

(** [json.Unmarshal(chunk, &toolCallArray)] with
    [toolCallArray []interface{}]: an array is stored, [null] leaves the
    nil slice, any other text is an error ([None]). *)
Definition Unmarshal_slice (chunk : string) : option (list Json.value) :=
  match json_Unmarshal chunk with
  | inr (Json.JArray elems) => Some elems
  | inr Json.JNull => Some []
  | _ => None
  end.

(** [json.Unmarshal(chunk, &chunkData)] with
    [chunkData map[string]interface{}]: an object is stored, [null]
    leaves the nil map, any other text is an error ([None]). *)
Definition Unmarshal_map (chunk : string) : option (list (string * Json.value)) :=
  match json_Unmarshal chunk with
  | inr (Json.JObject members) => Some members
  | inr Json.JNull => Some []
  | _ => None
  end.

(** The type assertion [v.([]interface{})] on [m[key]]. *)
Definition assert_slice (v : option Json.value) : option (list Json.value) :=
  match v with
  | Some (Json.JArray elems) => Some elems
  | _ => None
  end.

(** The type assertion [v.(map[string]interface{})]. *)
Definition assert_map (v : Json.value) : option (list (string * Json.value)) :=
  match v with
  | Json.JObject members => Some members
  | _ => None
  end.

(** The streaming function of the first LLM call returns before the send
    ([true]) or reaches [streamingChan <- string(chunk)] ([false]). *)
Definition suppressed (chunk : string) : bool :=
  match Unmarshal_slice chunk with
  | Some (_ :: _) => true
  | _ =>
      match Unmarshal_map chunk with
      | Some chunkData =>
          match assert_slice (Json.lookup "choices" chunkData) with
          | Some (choice0 :: _) =>
              match assert_map choice0 with
              | Some choice =>
                  match assert_slice (Json.lookup "tool_calls" choice) with
                  | Some (_ :: _) => true
                  | _ => false
                  end
              | None => false
              end
          | _ => false
          end
      | None => false
      end
  end.

(** *** GenerateContentAsStreaming (server.go, lines 255-348) *)

(** The streaming function of the first call, lines 266-289. *)
Definition first_streamingFunc (chunk : string) : M unit :=
  if suppressed chunk then ret tt
  else emit (EvSend chunk).

(** The streaming function of the final call, lines 335-338. *)
Definition final_streamingFunc (chunk : string) : M unit :=
  emit (EvSend chunk).

(** One iteration of the loop of lines 297-332; [None] is the [return]
    that leaves the goroutine. *)
Definition streaming_tool_step (m : MCPAgent) (addNotFinalResponses : bool)
    (suggestedTool : ToolCall) (msgs : list MessageContent)
  : M (option (list MessageContent)) :=
  (if addNotFinalResponses
   then emit (EvSend (tool_usage_marker (tool_name suggestedTool)))
   else ret tt) ;;;
  res <- ExecuteTool m (tool_name suggestedTool) (tool_arguments suggestedTool) ;;
  match res with
  | (_, Some err) =>
      emit (EvSend ("Error executing tool: " +++ Error err)) ;;;
      ret None
  | (toolRes, None) =>
      let msgs := msgs ++ [ai_message suggestedTool] in
      let msgs := msgs ++ [tool_message suggestedTool toolRes] in
      (if addNotFinalResponses then
         marker <- lift (tool_response_marker (tool_name suggestedTool) toolRes) ;;
         emit (EvSend marker)
       else ret tt) ;;;
      ret (Some msgs)
  end.

Fixpoint streaming_tool_loop (m : MCPAgent) (addNotFinalResponses : bool)
    (toolCalls : list ToolCall) (msgs : list MessageContent)
  : M (option (list MessageContent)) :=
  match toolCalls with
  | [] => ret (Some msgs)
  | suggestedTool :: rest =>
      r <- streaming_tool_step m addNotFinalResponses suggestedTool msgs ;;
      match r with
      | None => ret None
      | Some msgs' => streaming_tool_loop m addNotFinalResponses rest msgs'
      end
  end.

(** [len(resp.Choices) > 0 && len(resp.Choices[0].ToolCalls) > 0] *)
Definition has_tool_calls (resp : ContentResponse) : bool :=
  match Choices resp with
  | [] => false
  | choice0 :: _ => 0 <? Z.of_nat (length (ToolCalls choice0))
  end.

(** The body of the goroutine, lines 266-344. *)
Definition streaming_body (m : MCPAgent) (prompt : string)
    (addNotFinalResponses : bool) : M unit :=
  let msgs := [human_message prompt] in
  let tools := ExtractToolsFromAgent m in
  r <- LLM_GenerateContent (LLMModel m) msgs tools (Some first_streamingFunc) ;;
  match r with
  | inl err => emit (EvSend ("Error generating content: " +++ Error err))
  | inr resp =>
      if has_tool_calls resp then
        choice0 <- lift (index0 (Choices resp)) ;;
        r1 <- streaming_tool_loop m addNotFinalResponses (ToolCalls choice0) msgs ;;
        match r1 with
        | None => ret tt
        | Some msgs' =>
            r2 <- LLM_GenerateContent (LLMModel m) msgs' tools
                    (Some final_streamingFunc) ;;
            match r2 with
            | inl err =>
                emit (EvSend ("Error generating final content: " +++ Error err))
            | inr _ => ret tt
            end
        end
      else ret tt
  end.

(** [defer close(streamingChan)]: the channel is closed when the body
    ends, also when it ends in a panic. *)
Definition deferred_close {A : Type} (body : M A) : M A :=
  fun w =>
    match body w with
    | (w1, t, o) => (w1, t ++ [EvClose], o)
    end.

(** What the goroutine started by [GenerateContentAsStreaming] does; the
    caller reads the fragments sent on the channel that is returned. *)
Definition GenerateContentAsStreaming (m : MCPAgent) (prompt : string)
    (addNotFinalResponses : bool) : M unit :=
  deferred_close (streaming_body m prompt addNotFinalResponses).

End Agent.

Notation "x <- m ;; k" := (bind m (fun x => k))
  (at level 100, m at next level, right associativity).
Notation "m ;;; k" := (bind m (fun _ => k))
  (at level 100, right associativity).

(** ** The caller-facing engine of the specification

    The sources hold [GenerateContent(ctx, prompt, ...) string] and
    [GenerateContentAsStreaming(ctx, prompt, ...) chan string]; the
    functions that examples/main.go calls, which take the conversation and
    return a second result, are not among them.  They are modelled here
    from sections 3, 4.4, 6 and 7 of the spec, on top of [ExecuteTool] and
    the classifier of the sources.

    A conversation is a Go slice of messages: a window on a backing array
    that other slices may share.  The memory is a list of backing arrays. *)
Section Engine.

Context {env : Env}.

(** How many spare elements [append] allocates when it has to grow an
    array of the given length; Go leaves the policy to the runtime. *)
Variable spare : nat -> nat.

Record slice : Type := {
  array : nat;
  slice_len : nat
}.

Definition heap : Type := list (list MessageContent).

Definition backing (h : heap) (s : slice) : list MessageContent :=
  nth (array s) h [].

(** The elements of the slice, [s[0] .. s[len(s)-1]]. *)
Definition elements (h : heap) (s : slice) : list MessageContent :=
  firstn (slice_len s) (backing h s).

(** [cap(s)] *)
Definition capacity (h : heap) (s : slice) : nat := length (backing h s).



Definition zero_message : MessageContent :=
  {| Role := EmptyString; Parts := [] |}.

(** [l[i] = x] *)
Fixpoint store {A : Type} (l : list A) (i : nat) (x : A) : list A :=
  match l, i with
  | [], _ => []
  | _ :: rest, O => x :: rest
  | y :: rest, S i' => y :: store rest i' x
  end.

(** [append(s, x)]: writes into the backing array when it has room, and
    copies the elements into a new array otherwise. *)
Definition go_append (h : heap) (s : slice) (x : MessageContent) : heap * slice :=
  if (slice_len s <? capacity h s)%nat then
    (store h (array s) (store (backing h s) (slice_len s) x),
     {| array := array s; slice_len := S (slice_len s) |})
  else
    (h ++ [elements h s ++ x :: repeat zero_message (spare (slice_len s))],
     {| array := length h; slice_len := S (slice_len s) |}).



(** Modelled from the spec: the tool phase of the streaming mode: the
    markers go to the text channel, every message appended to the
    conversation is emitted on the second channel ([EvSendMessage]), an
    error becomes a fragment of the text channel and ends the turn
    ([None]). *)
Fixpoint respondStreaming_tools (m : MCPAgent) (addNotFinalResponses : bool)
    (toolCalls : list ToolCall) (h : heap) (msgs : slice)
  : M (heap * slice * bool) :=
  match toolCalls with
  | [] => ret (h, msgs, true)
  | suggestedTool :: rest =>
      (if addNotFinalResponses
       then emit (EvSend (tool_usage_marker (tool_name suggestedTool)))
       else ret tt) ;;;
      res <- ExecuteTool m (tool_name suggestedTool) (tool_arguments suggestedTool) ;;
      match res with
      | (_, Some err) =>
          emit (EvSend ("Error executing tool: " +++ Error err)) ;;;
          ret (h, msgs, false)
      | (toolRes, None) =>
          let (h1, msgs1) := go_append h msgs (ai_message suggestedTool) in
          emit (EvSendMessage (ai_message suggestedTool)) ;;;
          let (h2, msgs2) := go_append h1 msgs1 (tool_message suggestedTool toolRes) in
          emit (EvSendMessage (tool_message suggestedTool toolRes)) ;;;
          (if addNotFinalResponses then
             marker <- lift (tool_response_marker (tool_name suggestedTool) toolRes) ;;
             emit (EvSend marker)
           else ret tt) ;;;
          respondStreaming_tools m addNotFinalResponses rest h2 msgs2
      end
  end.

(** Modelled from the spec: the streaming entry point
    [respondStreaming(conversation) -> (textChannel,
    updatedConversationChannel)] (section 6).  The fragments of both LLM
    calls pass through the classifier (section 4.4).  The result is the
    memory and the conversation as the turn leaves them. *)
Definition respondStreaming_body (m : MCPAgent) (addNotFinalResponses : bool)
    (h : heap) (conversation : slice) : M (heap * slice) :=
  let tools := ExtractToolsFromAgent m in
  r <- LLM_GenerateContent (LLMModel m) (elements h conversation) tools
         (Some first_streamingFunc) ;;
  match r with
  | inl err =>
      emit (EvSend ("Error generating content: " +++ Error err)) ;;;
      ret (h, conversation)
  | inr resp =>
      if has_tool_calls resp then
        choice0 <- lift (index0 (Choices resp)) ;;
        st <- respondStreaming_tools m addNotFinalResponses (ToolCalls choice0)
                h conversation ;;
        match st with
        | (h1, msgs, false) => ret (h1, msgs)
        | (h1, msgs, true) =>
            r2 <- LLM_GenerateContent (LLMModel m) (elements h1 msgs) tools
                    (Some first_streamingFunc) ;;
            match r2 with
            | inl err =>
                emit (EvSend ("Error generating final content: " +++ Error err)) ;;;
                ret (h1, msgs)
            | inr _ => ret (h1, msgs)
            end
        end
      else ret (h, conversation)
  end.

Definition respondStreaming (m : MCPAgent) (addNotFinalResponses : bool)
    (h : heap) (conversation : slice) : M (heap * slice) :=
  deferred_close (respondStreaming_body m addNotFinalResponses h conversation).

End Engine.

(** The parts of the result of a run. *)
Definition world_of {W E A : Type} (r : W * E * A) : W := fst (fst r).
Definition trace_of {W E A : Type} (r : W * E * A) : E := snd (fst r).
Definition outcome_of {W E A : Type} (r : W * E * A) : A := snd r.

(** ** Reading a trace *)
Section Traces.

Context {env : Env}.

(** The error an event reports, if any: a failed LLM call, or a call of
    [ExecuteTool] that returned an error. *)
Definition event_error (e : event) : option error :=
  match e with
  | EvGenerate _ _ _ (inl err) => Some err
  | EvExecuteTool _ _ (_, Some err) => Some err
  | _ => None
  end.

Definition is_generate (e : event) : bool :=
  match e with EvGenerate _ _ _ _ => true | _ => false end.

(** A call that has returned: of the LLM, of [ExecuteTool], of a provider. *)
Definition is_call (e : event) : bool :=
  match e with
  | EvGenerate _ _ _ _ | EvCallTool _ _ _ | EvExecuteTool _ _ _ => true
  | _ => false
  end.

(** The number of LLM calls. *)
Definition generate_count (t : list event) : nat :=
  length (filter is_generate t).

(** The tool calls that the first LLM response of the trace asks for. *)
Fixpoint requested (t : list event) : list ToolCall :=
  match t with
  | [] => []
  | EvGenerate _ _ _ res :: _ =>
      match res with
      | inr resp =>
          match Choices resp with
          | choice0 :: _ => ToolCalls choice0
          | [] => []
          end
      | inl _ => []
      end
  | _ :: rest => requested rest
  end.

(** The calls of [ExecuteTool], in order: name and arguments. *)
Fixpoint executed (t : list event) : list (string * string) :=
  match t with
  | [] => []
  | EvExecuteTool name args _ :: rest => (name, args) :: executed rest
  | _ :: rest => executed rest
  end.

(** The results of the calls of [ExecuteTool] that returned no error. *)
Fixpoint tool_results (t : list event) : list string :=
  match t with
  | [] => []
  | EvExecuteTool _ _ (toolRes, None) :: rest => toolRes :: tool_results rest
  | _ :: rest => tool_results rest
  end.

(** The provider calls, in order. *)
Fixpoint provider_calls (t : list event) : list (MCPServer * CallToolRequest) :=
  match t with
  | [] => []
  | EvCallTool srv req _ :: rest => (srv, req) :: provider_calls rest
  | _ :: rest => provider_calls rest
  end.

(** What was sent on the text channel, in order. *)
Fixpoint sent (t : list event) : list string :=
  match t with
  | [] => []
  | EvSend fragment :: rest => fragment :: sent rest
  | _ :: rest => sent rest
  end.

(** What was sent on the channel of messages, in order. *)
Fixpoint sent_messages (t : list event) : list MessageContent :=
  match t with
  | [] => []
  | EvSendMessage msg :: rest => msg :: sent_messages rest
  | _ :: rest => sent_messages rest
  end.

(** The request/result pairs of the tool calls, as they are appended. *)
Fixpoint pair_messages (toolCalls : list ToolCall) (results : list string)
  : list MessageContent :=
  match toolCalls, results with
  | suggestedTool :: calls, toolRes :: rest =>
      ai_message suggestedTool :: tool_message suggestedTool toolRes
        :: pair_messages calls rest
  | _, _ => []
  end.

(** The tool calls run one after the other, as long as each returns
    without an error: the final world, the effects, the results. *)
Fixpoint execute_all (m : MCPAgent) (toolCalls : list ToolCall) (w : World)
  : option (World * list event * list string) :=
  match toolCalls with
  | [] => Some (w, [], [])
  | suggestedTool :: rest =>
      match ExecuteTool m (tool_name suggestedTool) (tool_arguments suggestedTool) w with
      | (w1, t1, Normal (toolRes, None)) =>
          match execute_all m rest w1 with
          | Some (w2, t2, results) => Some (w2, t1 ++ t2, toolRes :: results)
          | None => None
          end
      | _ => None
      end
  end.

(** *** The state machine of a turn (section 4.4 of the spec) *)
Inductive phase : Type :=
| AWAIT_FIRST_RESPONSE
| EXECUTING_TOOLS
| DONE.

(** The phase after an event, [None] when the event has no place in the
    phase.  A returned LLM call ends the phase; tools run in
    [EXECUTING_TOOLS] only; sending, printing and closing change nothing. *)
Definition phase_step (p : phase) (e : event) : option phase :=
  match e with
  | EvGenerate _ _ _ _ =>
      match p with
      | AWAIT_FIRST_RESPONSE => Some EXECUTING_TOOLS
      | EXECUTING_TOOLS => Some DONE
      | DONE => None
      end
  | EvCallTool _ _ _ | EvExecuteTool _ _ _ =>
      match p with
      | EXECUTING_TOOLS => Some EXECUTING_TOOLS
      | _ => None
      end
  | _ => Some p
  end.

Fixpoint phase_run (p : phase) (t : list event) : option phase :=
  match t with
  | [] => Some p
  | e :: rest =>
      match phase_step p e with
      | Some q => phase_run q rest
      | None => None
      end
  end.

(** What [ExecuteTool] returns after the provider has answered (agent.go,
    lines 103-116). *)
Definition call_result (res : error + CallToolResult) : string * option error :=
  match res with
  | inl err => (EmptyString, Some (Errorf_w "failed to call mcp tool: " err))
  | inr result =>
      match sonic_MarshalString result with
      | inl err =>
          (EmptyString, Some (Errorf_w "failed to marshal mcp tool result: " err))
      | inr marshaledResult => (marshaledResult, None)
      end
  end.

(** No event of the trace reports an error. *)
Definition clean (t : list event) : Prop :=
  Forall (fun e => event_error e = None) t.

(** How a blocking turn may end: it returns and no error was reported; or
    the last event reports an error and the turn panics with it; or a
    run-time error occurs and no error was reported. *)
Inductive ends_well {A : Type} : list event -> outcome A -> Prop :=
| ends_normal (t : list event) (a : A) :
    clean t -> ends_well t (Normal a)
| ends_error (pre : list event) (e : event) (err : error) :
    clean pre -> event_error e = Some err ->
    ends_well (pre ++ [e]) (Panicked (PanicErr err))
| ends_runtime (t : list event) (r : runtime_error) :
    clean t -> ends_well t (Panicked (PanicRuntime r)).

Definition rank (p : phase) : nat :=
  match p with
  | AWAIT_FIRST_RESPONSE => 0
  | EXECUTING_TOOLS => 1
  | DONE => 2
  end.

(** The state machine accepts the trace of the run from phase [p]. *)
Definition accepts {A : Type} (p : phase) (r : World * list event * outcome A) : Prop :=
  exists q, phase_run p (trace_of r) = Some q.

(** At most one round of tool calls: no more than two LLM calls, and
    after the second one has returned no call of any kind. *)
Definition one_round (t : list event) : Prop :=
  (generate_count t <= 2)%nat /\
  forall pre post, t = pre ++ post -> generate_count pre = 2%nat ->
    Forall (fun e => is_call e = false) post.

(** An event that reports an error is the last one of the run, and the
    run ends in a panic with that error. *)
Definition aborts_on_first_error {A : Type}
    (r : World * list event * outcome A) : Prop :=
  forall pre ev post err,
    trace_of r = pre ++ ev :: post -> event_error ev = Some err ->
    post = [] /\ outcome_of r = Panicked (PanicErr err).

End Traces.

(** ** A scripted world, to run the model

    The LLM answers by a script, one entry per call; a provider answers by
    a table.  The world is the number of LLM calls made so far. *)
Record script : Type := {
  llm_script : list (list string * (error + ContentResponse));
  provider_table : string -> CallToolRequest -> error + string
}.

Definition scripted (sc : script) : Env := {|
  World := nat;
  Model := unit;
  MCPClient := string;
  CallToolResult := string;
  llm_GenerateContent := fun w _ _ _ _ =>
    let (chunks, res) :=
      nth w (llm_script sc) ([], inl (Err "no response left")) in
    (S w, chunks, res);
  client_CallTool := fun w client req => (w, provider_table sc client req);
  sonic_MarshalString := fun result => inr result;
  json_Unmarshal := Json.Unmarshal;
  ErrNotFound := Err "given element is not found"
|}.

Definition call (id name arguments : string) : ToolCall :=
  {| ToolCall_ID := id;
     ToolCall_FunctionCall :=
       {| FunctionCall_Name := name; FunctionCall_Arguments := arguments |} |}.

Definition response (content : string) (toolCalls : list ToolCall) : ContentResponse :=
  {| Choices := [{| Choice_Content := content; ToolCalls := toolCalls |}] |}.

(** The scenario of section 8 of the spec: the calculator. *)
Definition calc_script : script := {|
  llm_script :=
    [([], inr (response EmptyString
                 [call "call_1" "calc__add" (Json.text "{'a':2,'b':2}")]));
     (["The answer "; "is 4."], inr (response "The answer is 4." []))];
  provider_table := fun client req =>
    if String.eqb client "calc-client" && String.eqb (Params_Name req) "add"
    then inr "4" else inl (Err "unknown tool")
|}.

Definition calc_server (sc : script) : @MCPServer (scripted sc) :=
  @Build_MCPServer (scripted sc) "calc" "stdio" ["calc-server"] EmptyString []
    "calc-client".

Definition calc_agent (sc : script) : @MCPAgent (scripted sc) :=
  @Build_MCPAgent (scripted sc) "my-agent"
    [{| MCPAgentServer_Name := "calc"; AllowedTools := [] |}]
    [("calc",
      [{| mcp_Tool_Name := "add";
          mcp_Tool_Description := "adds two numbers";
          InputSchema := {| InputSchema_Type := "object";
                            Properties := Json.JObject [] |} |}])]
    [calc_server sc] "my-azure-provider" tt.

Definition calc_prompt : string := "What's 2+2 using the calculator tool?".



(** No tool is requested. *)
Definition plain_script : script := {|
  llm_script := [(["Hel"; "lo"], inr (response "Hello" []))];
  provider_table := fun _ _ => inl (Err "unknown tool")
|}.

(** Two tools are requested; the arguments of the first are no JSON text. *)
Definition bad_arguments_script : script := {|
  llm_script :=
    [([], inr (response EmptyString
                 [call "call_1" "calc__add" "a=2,b=2";
                  call "call_2" "calc__add" (Json.text "{'a':1,'b':1}")]));
     ([], inr (response "unreachable" []))];
  provider_table := provider_table calc_script
|}.

(** The LLM call fails. *)
Definition failing_llm_script : script := {|
  llm_script := [([], inl (Err "429 Too Many Requests"))];
  provider_table := provider_table calc_script
|}.

(** The final response asks for a tool again. *)
Definition second_round_script : script := {|
  llm_script :=
    [([], inr (response EmptyString
                 [call "call_1" "calc__add" (Json.text "{'a':2,'b':2}")]));
     ([], inr (response "One more"
                 [call "call_2" "calc__add" (Json.text "{'a':4,'b':4}")]));
     ([], inr (response "unreachable" []))];
  provider_table := provider_table calc_script
|}.

(** [n] copies of a byte. *)
Fixpoint bytes (n : nat) (c : ascii) : string :=
  match n with
  | O => EmptyString
  | S n' => String c (bytes n' c)
  end.

(** The tool answers with 1200 bytes. *)
Definition long_result_script : script := {|
  llm_script :=
    [([], inr (response EmptyString [call "call_1" "calc__add" "{}"]));
     ([], inr (response "Done." []))];
  provider_table := fun _ _ => inr (bytes 1200 "x")
|}.

(** ** Reading a turn further *)
Section Reading.

Context {env : Env}.

Definition is_print (e : event) : bool :=
  match e with EvPrint _ => true | _ => false end.

Definition is_send (e : event) : bool :=
  match e with EvSend _ => true | _ => false end.

Definition is_close (e : event) : bool :=
  match e with EvClose => true | _ => false end.

(** The text that [msgToPrint] holds when the marker is built: the result,
    or its first 1000 bytes and three dots. *)
Definition shown (toolRes : string) : string :=
  if 1000 <? len toolRes then substring 0 1000 toolRes +++ "..." else toolRes.

(** The progress markers of the executed tool calls, in the order in which
    they are added to the response or sent on the channel. *)
Fixpoint progress_fragments (toolCalls : list ToolCall) (results : list string)
  : list string :=
  match toolCalls, results with
  | suggestedTool :: calls, toolRes :: rest =>
      tool_usage_marker (tool_name suggestedTool)
        :: (LF +++ "[tool_response] " +++ tool_name suggestedTool +++ ": "
              +++ shown toolRes +++ "]" +++ LF +++ LF)
        :: progress_fragments calls rest
  | _, _ => []
  end.

(** The strings of a list, one after the other. *)
Fixpoint concat_all (l : list string) : string :=
  match l with
  | [] => EmptyString
  | s :: rest => s +++ concat_all rest
  end.

(** The fragment by which the goroutine of [GenerateContentAsStreaming]
    reports the error of the event [ev], which comes after the events
    [pre] (server.go, lines 291, 304 and 340). *)
Definition error_report (pre : list event) (ev : event) (err : error) : string :=
  match ev with
  | EvGenerate _ _ _ _ =>
      if (generate_count pre =? 0)%nat
      then "Error generating content: " +++ Error err
      else "Error generating final content: " +++ Error err
  | _ => "Error executing tool: " +++ Error err
  end.


End Reading.

(** ** Go maps with string keys

    A map is the list of its entries, one for each key, in the order in
    which the keys were set for the first time.  Go leaves the order in
    which a [range] statement visits a map unspecified: what is proved of a
    map that the code builds is about its entries, not about their
    order. *)

(** [v, ok := m[key]] *)
Fixpoint map_get {V : Type} (m : list (string * V)) (key : string) : option V :=
  match m with
  | [] => None
  | (k, v) :: rest => if String.eqb k key then Some v else map_get rest key
  end.

(** [m[key] = value] *)
Fixpoint map_set {V : Type} (m : list (string * V)) (key : string) (value : V)
  : list (string * V) :=
  match m with
  | [] => [(key, value)]
  | (k, v) :: rest =>
      if String.eqb k key then (k, value) :: rest
      else (k, v) :: map_set rest key value
  end.

(** ** More of Go's strings package *)

(** [strings.SplitN(s, sep, 2)] for a separator that is not empty: the
    text before the first instance of [sep] and the text after it, or [s]
    alone when [sep] is not present. *)
Definition strings_SplitN_2 (s sep : string) : list string :=
  match index_nat s sep with
  | Some i =>
      [substring 0 i s;
       substring (i + String.length sep)
         (String.length s - (i + String.length sep)) s]
  | None => [s]
  end.

(** [strings.Join(elems, sep)] *)
Definition strings_Join (elems : list string) (sep : string) : string :=
  String.concat sep elems.

(** ** Building servers and agents

    The collaborators of the code that builds them: the constructors and
    the methods of the clients of mcp-go, the constructor of the LLM
    client of langchaingo, [time.Sleep], [strings.TrimSpace] and the verb
    [%q] of fmt. *)

(** [mcp.InitializeRequest], with the fields that server.go sets (lines
    43-49); the capabilities are the zero value. *)
Record InitializeRequest : Type := {
  ProtocolVersion : string;
  ClientInfo_Name : string;
  ClientInfo_Version : string
}.

(** [transport.ClientOption]: server.go builds one kind of option,
    [transport.WithHeaders(headers)], from a map. *)
Inductive ClientOption : Type :=
| WithHeaders (headers : list (string * string)).

(** [openai.Option]: the options that config.go builds; the API type it
    passes is [openai.APITypeAzure]. *)
Inductive openai_Option : Type :=
| WithToken (token : string)
| WithBaseURL (baseURL : string)
| WithModel (model : string)
| WithAPIType_APITypeAzure
| WithAPIVersion (version : string).

Class SetupEnv (env : Env) : Type := {
  (** [mcpclient.NewStdioMCPClient(command, env, args...)] *)
  NewStdioMCPClient :
    World -> string -> list string -> list string -> World * (error + MCPClient);
  (** [client.NewSSEMCPClient(url, options...)] *)
  NewSSEMCPClient :
    World -> string -> list ClientOption -> World * (error + MCPClient);
  (** [sseClient.Start(ctx)] *)
  client_Start : World -> MCPClient -> World * option error;
  (** [Client.Initialize(ctx, initRequest)]; server.go drops the result. *)
  client_Initialize :
    World -> MCPClient -> InitializeRequest -> World * option error;
  (** [Client.ListTools(ctx, mcp.ListToolsRequest{})]: the tools of the
      result, [None] when the pointer to the result is nil, and the
      error. *)
  client_ListTools :
    World -> MCPClient -> World * (option (list mcp_Tool) * option error);
  (** [openai.New(options...)] *)
  openai_New : World -> list openai_Option -> World * (error + Model);
  (** [time.Sleep(d)], [d] in nanoseconds. *)
  time_Sleep : World -> Z -> World;
  (** [strings.TrimSpace] *)
  strings_TrimSpace : string -> string;
  (** What the verb [%q] prints for a string. *)
  fmt_q : string -> string;
  (** What the verb [%q] prints for a [[]agent.MCPAgentServer]. *)
  fmt_q_servers : list MCPAgentServer -> string;
  (** [mcp.LATEST_PROTOCOL_VERSION] *)
  LATEST_PROTOCOL_VERSION : string;
  (** The nil interface values, the zero values of the fields [Client]
      and [LLMModel]. *)
  nil_MCPClient : MCPClient;
  nil_Model : Model
}.

Section Setting_up.

Context {env : Env} {senv : SetupEnv env}.

(** What the code that builds servers and agents does, in program order;
    a call is recorded when it has returned, with what it returned. *)
Inductive setup_event : Type :=
| EvNewStdioMCPClient (command : string) (environ args : list string)
    (res : error + MCPClient)
| EvNewSSEMCPClient (url : string) (options : list ClientOption)
    (res : error + MCPClient)
| EvStart (cli : MCPClient) (res : option error)
| EvSleep (d : Z)
| EvInitialize (cli : MCPClient) (initRequest : InitializeRequest)
    (res : option error)
| EvListTools (srv : MCPServer) (res : option (list mcp_Tool) * option error)
| EvOpenAINew (options : list openai_Option) (res : error + Model)
| EvPrintf (text : string).

(** A computation of the set-up code: none of it panics. *)
Definition Init (A : Type) : Type := World -> World * list setup_event * A.

Definition setup_ret {A : Type} (a : A) : Init A := fun w => (w, [], a).

Definition setup_bind {A B : Type} (m : Init A) (k : A -> Init B) : Init B :=
  fun w =>
    match m w with
    | (w1, t1, a) =>
        match k a w1 with
        | (w2, t2, b) => (w2, t1 ++ t2, b)
        end
    end.

Notation "x <~ m ;; k" := (setup_bind m (fun x => k))
  (at level 100, m at next level, right associativity).
Notation "m ;;~ k" := (setup_bind m (fun _ => k))
  (at level 100, right associativity).

Definition New_StdioMCPClient (command : string) (environ args : list string)
  : Init (error + MCPClient) :=
  fun w =>
    match NewStdioMCPClient w command environ args with
    | (w1, res) => (w1, [EvNewStdioMCPClient command environ args res], res)
    end.

Definition New_SSEMCPClient (url : string) (options : list ClientOption)
  : Init (error + MCPClient) :=
  fun w =>
    match NewSSEMCPClient w url options with
    | (w1, res) => (w1, [EvNewSSEMCPClient url options res], res)
    end.

Definition Client_Start (cli : MCPClient) : Init (option error) :=
  fun w =>
    match client_Start w cli with
    | (w1, res) => (w1, [EvStart cli res], res)
    end.

Definition Client_Initialize (cli : MCPClient) (initRequest : InitializeRequest)
  : Init (option error) :=
  fun w =>
    match client_Initialize w cli initRequest with
    | (w1, res) => (w1, [EvInitialize cli initRequest res], res)
    end.

Definition Client_ListTools (srv : MCPServer)
  : Init (option (list mcp_Tool) * option error) :=
  fun w =>
    match client_ListTools w (Client srv) with
    | (w1, res) => (w1, [EvListTools srv res], res)
    end.

Definition OpenAI_New (options : list openai_Option) : Init (error + Model) :=
  fun w =>
    match openai_New w options with
    | (w1, res) => (w1, [EvOpenAINew options res], res)
    end.

Definition Sleep (d : Z) : Init unit :=
  fun w => (time_Sleep w d, [EvSleep d], tt).

(** [fmt.Printf]; the verbs [%v] and [%+v] print [err.Error()] for an
    error that has no [Format] method of its own. *)
Definition Printf (text : string) : Init unit :=
  fun w => (w, [EvPrintf text], tt).

(** *** GetTransportType (server.go, lines 60-69) *)
Definition GetTransportType (s : MCPServer) : string :=
  if String.eqb (Type_ s) "local" || String.eqb (Type_ s) "stdio" then "stdio"
  else if String.eqb (Type_ s) "sse" then "sse"
  else "stdio".

(** *** createMCPClient (server.go, lines 71-136) *)

(** Lines 78-87: [command] and [args], which start as the empty string
    and the nil slice. *)
Definition stdio_command (Command : list string) : string * list string :=
  if 0 <? Z.of_nat (length Command) then
    (nth 0 Command EmptyString,
     if 1 <? Z.of_nat (length Command) then skipn 1 Command else [])
  else (EmptyString, []).

(** One iteration of the loop of lines 108-115 on the map [headers]. *)
Definition add_header (headers : list (string * string)) (header : string)
  : list (string * string) :=
  match strings_SplitN_2 header ":" with
  | [part0; part1] =>
      let key := strings_TrimSpace part0 in
      let value := strings_TrimSpace part1 in
      map_set headers key value
  | _ => headers
  end.

(** Lines 103-119: the options of the SSE client. *)
Definition sse_options (Headers : list string) : list ClientOption :=
  if 0 <? Z.of_nat (length Headers) then
    let headers := fold_left add_header Headers [] in
    if 0 <? Z.of_nat (length headers) then [WithHeaders headers] else []
  else [].

Definition createMCPClient (m : MCPServer) : Init (error + MCPClient) :=
  let transportType := GetTransportType m in
  if String.eqb transportType "stdio" then
    let (command, args) := stdio_command (Command m) in
    r <~ New_StdioMCPClient command [] args ;;
    match r with
    | inl err =>
        setup_ret (inl (Err ("failed to create stdio client: " +++ Error err)))
    | inr stdioClient =>
        Sleep (100 * 1000000) ;;~
        setup_ret (inr stdioClient)
    end
  else if String.eqb transportType "sse" then
    r <~ New_SSEMCPClient (URL m) (sse_options (Headers m)) ;;
    match r with
    | inl err => setup_ret (inl err)
    | inr sseClient =>
        e <~ Client_Start sseClient ;;
        match e with
        | Some err =>
            setup_ret (inl (Err ("failed to start SSE client: " +++ Error err)))
        | None => setup_ret (inr sseClient)
        end
    end
  else
    setup_ret (inl (Err ("unsupported transport type '" +++ transportType
                           +++ "' for server " +++ Name m))).

(** *** NewMCPServer (server.go, lines 27-58) *)
Definition NewMCPServer (name serverType : string) (command : list string)
    (url : string) (headers : list string) : Init (error + MCPServer) :=
  let s := {| Name := name; Type_ := serverType; Command := command;
              URL := url; Headers := headers; Client := nil_MCPClient |} in
  r <~ createMCPClient s ;;
  match r with
  | inl err => setup_ret (inl err)
  | inr cli =>
      let s := {| Name := Name s; Type_ := Type_ s; Command := Command s;
                  URL := URL s; Headers := Headers s; Client := cli |} in
      let initRequest :=
        {| ProtocolVersion := LATEST_PROTOCOL_VERSION;
           ClientInfo_Name := "mcp-agents-go";
           ClientInfo_Version := "1.0.0" |} in
      e <~ Client_Initialize (Client s) initRequest ;;
      match e with
      | Some err =>
          Printf ("Failed to initialize MCP client for server " +++ name
                    +++ ": " +++ Error err +++ LF) ;;~
          setup_ret (inl (Err ("failed to initialize MCP client: " +++ Error err)))
      | None => setup_ret (inr s)
      end
  end.

(** *** NewMCPAgent (agent.go, lines 25-59) *)

(** [slices.Contains] of life4/genesis. *)
Definition slices_Contains (items : list string) (el : string) : bool :=
  existsb (fun item => String.eqb item el) items.

(** The filter of lines 43-45. *)
Definition allowed_tool (srv : MCPAgentServer) (tool : mcp_Tool) : bool :=
  (Z.of_nat (length (AllowedTools srv)) =? 0)
  || slices_Contains (AllowedTools srv) (mcp_Tool_Name tool).

(** [ag.mcpServers = append(ag.mcpServers, &mcpServer)] *)
Definition append_server (ag : MCPAgent) (mcpServer : MCPServer) : MCPAgent :=
  {| MCPAgent_Name := MCPAgent_Name ag;
     MCPServerNames := MCPServerNames ag;
     MCPServerTools := MCPServerTools ag;
     mcpServers := mcpServers ag ++ [mcpServer];
     Provider := Provider ag;
     LLMModel := LLMModel ag |}.

(** [ag.MCPServerTools[key] = tools] *)
Definition set_tools (ag : MCPAgent) (key : string) (tools : list mcp_Tool)
  : MCPAgent :=
  {| MCPAgent_Name := MCPAgent_Name ag;
     MCPServerNames := MCPServerNames ag;
     MCPServerTools := map_set (MCPServerTools ag) key tools;
     mcpServers := mcpServers ag;
     Provider := Provider ag;
     LLMModel := LLMModel ag |}.

(** [ag.MCPServerTools[key]], the nil slice when the key is absent. *)
Definition get_tools (ag : MCPAgent) (key : string) : list mcp_Tool :=
  match map_get (MCPServerTools ag) key with
  | Some tools => tools
  | None => []
  end.

(** One iteration of the loop of lines 35-56. *)
Definition NewMCPAgent_step (servers : list MCPServer) (ag : MCPAgent)
    (srv : MCPAgentServer) : Init MCPAgent :=
  match slices_Find servers
          (fun s => String.eqb (Name s) (MCPAgentServer_Name srv)) with
  | inl _ => setup_ret ag
  | inr mcpServer =>
      let ag := append_server ag mcpServer in
      r <~ Client_ListTools mcpServer ;;
      match r with
      | (Some Tools, None) =>
          let allowedTools := filter (allowed_tool srv) Tools in
          let ag :=
            match map_get (MCPServerTools ag) (MCPAgentServer_Name srv) with
            | Some _ => ag
            | None => set_tools ag (MCPAgentServer_Name srv) []
            end in
          let ag :=
            set_tools ag (MCPAgentServer_Name srv)
              (get_tools ag (MCPAgentServer_Name srv) ++ allowedTools) in
          let allowedToolNames := map mcp_Tool_Name allowedTools in
          Printf ("Agent " +++ MCPAgent_Name ag
                    +++ " is allowed to use tools: "
                    +++ strings_Join allowedToolNames ", "
                    +++ " on server " +++ MCPAgentServer_Name srv +++ LF) ;;~
          setup_ret ag
      | _ => setup_ret ag
      end
  end.

Fixpoint NewMCPAgent_loop (servers : list MCPServer) (ag : MCPAgent)
    (mcpServersForAgent : list MCPAgentServer) : Init MCPAgent :=
  match mcpServersForAgent with
  | [] => setup_ret ag
  | srv :: rest =>
      ag' <~ NewMCPAgent_step servers ag srv ;;
      NewMCPAgent_loop servers ag' rest
  end.

Definition NewMCPAgent (name : string) (mcpServersForAgent : list MCPAgentServer)
    (servers : list MCPServer) (provider : string) (llmModel : Model)
  : Init MCPAgent :=
  let ag := {| MCPAgent_Name := name;
               MCPServerNames := mcpServersForAgent;
               MCPServerTools := [];
               mcpServers := [];
               Provider := provider;
               LLMModel := llmModel |} in
  NewMCPAgent_loop servers ag mcpServersForAgent.

(** *** The configuration (package config) *)

(** [config.LLMProvider] *)
Record LLMProvider : Type := {
  LLMProvider_Name : string;
  LLMProvider_Type : string;
  Token : string;
  BaseURL : string;
  LLMProvider_Model : string;
  Version : string
}.

(** [config.MCPServer]: the description of a server to build. *)
Record config_MCPServer : Type := {
  config_MCPServer_Name : string;
  config_MCPServer_Type : string;
  config_MCPServer_Command : list string;
  config_MCPServer_URL : string;
  config_MCPServer_Headers : list string
}.

(** [config.MCPAgent]: the description of an agent to build. *)
Record config_MCPAgent : Type := {
  config_MCPAgent_Name : string;
  MCPAgentServers : list MCPAgentServer;
  config_MCPAgent_Provider : string
}.

(** [config.SystemConfig]; the variable [SysConfig] holds a pointer to
    one, which is the state of the package. *)
Record SystemConfig : Type := {
  LLMModels : list (string * Model);
  Servers : list (string * MCPServer);
  Agents : list (string * MCPAgent)
}.

(** One iteration of the loop of [initLLMProviders] (config.go, lines
    76-94) on the map [providersLLMs]; [inl] is the return with the
    error. *)
Definition initLLMProviders_step (providersLLMs : list (string * Model))
    (provider : LLMProvider) : Init (error + list (string * Model)) :=
  if String.eqb (LLMProvider_Type provider) "AZURE" then
    r <~ OpenAI_New [WithToken (Token provider);
                     WithBaseURL (BaseURL provider);
                     WithModel (LLMProvider_Model provider);
                     WithAPIType_APITypeAzure;
                     WithAPIVersion (Version provider)] ;;
    match r with
    | inl err =>
        Printf ("Error creating LLM model for provider "
                  +++ LLMProvider_Name provider +++ ": " +++ Error err) ;;~
        setup_ret (inl err)
    | inr llmModel =>
        let providersLLMs :=
          map_set providersLLMs (LLMProvider_Name provider) llmModel in
        Printf ("LLM model for provider " +++ fmt_q (LLMProvider_Name provider)
                  +++ " created successfully" +++ LF) ;;~
        setup_ret (inr providersLLMs)
    end
  else setup_ret (inr providersLLMs).

Fixpoint initLLMProviders_loop (providers : list LLMProvider)
    (providersLLMs : list (string * Model))
  : Init (error + list (string * Model)) :=
  match providers with
  | [] => setup_ret (inr providersLLMs)
  | provider :: rest =>
      r <~ initLLMProviders_step providersLLMs provider ;;
      match r with
      | inl err => setup_ret (inl err)
      | inr providersLLMs' => initLLMProviders_loop rest providersLLMs'
      end
  end.

(** *** initLLMProviders (config.go, lines 73-97) *)
Definition initLLMProviders (providers : list LLMProvider)
  : Init (error + list (string * Model)) :=
  initLLMProviders_loop providers [].

(** One iteration of the loop of [initMCPServers] (lines 102-110). *)
Definition initMCPServers_step (serversMap : list (string * MCPServer))
    (sv : config_MCPServer) : Init (error + list (string * MCPServer)) :=
  r <~ NewMCPServer (config_MCPServer_Name sv) (config_MCPServer_Type sv)
         (config_MCPServer_Command sv) (config_MCPServer_URL sv)
         (config_MCPServer_Headers sv) ;;
  match r with
  | inl err =>
      Printf ("Error creating MCP server " +++ config_MCPServer_Name sv
                +++ ": " +++ Error err +++ LF) ;;~
      setup_ret (inl err)
  | inr mcpServer =>
      let serversMap := map_set serversMap (config_MCPServer_Name sv) mcpServer in
      Printf ("MCP server " +++ fmt_q (config_MCPServer_Name sv)
                +++ " created successfully" +++ LF) ;;~
      setup_ret (inr serversMap)
  end.

Fixpoint initMCPServers_loop (servers : list config_MCPServer)
    (serversMap : list (string * MCPServer))
  : Init (error + list (string * MCPServer)) :=
  match servers with
  | [] => setup_ret (inr serversMap)
  | sv :: rest =>
      r <~ initMCPServers_step serversMap sv ;;
      match r with
      | inl err => setup_ret (inl err)
      | inr serversMap' => initMCPServers_loop rest serversMap'
      end
  end.

(** *** initMCPServers (config.go, lines 99-113) *)
Definition initMCPServers (servers : list config_MCPServer)
  : Init (error + list (string * MCPServer)) :=
  initMCPServers_loop servers [].

(** [slices.Map] of life4/genesis with a function that has effects: the
    function is applied to the elements in order. *)
Fixpoint slices_Map_effects {A B : Type} (items : list A) (f : A -> Init B)
  : Init (list B) :=
  match items with
  | [] => setup_ret []
  | x :: rest =>
      y <~ f x ;;
      ys <~ slices_Map_effects rest f ;;
      setup_ret (y :: ys)
  end.

(** [server.MCPServer{}] *)
Definition zero_MCPServer : MCPServer :=
  {| Name := EmptyString; Type_ := EmptyString; Command := [];
     URL := EmptyString; Headers := []; Client := nil_MCPClient |}.

(** The function of lines 126-133, which reads [SysConfig.Servers]. *)
Definition find_server (SysConfig : SystemConfig) (ag : config_MCPAgent)
    (srv : MCPAgentServer) : Init MCPServer :=
  match map_get (Servers SysConfig) (MCPAgentServer_Name srv) with
  | None =>
      Printf ("Error finding MCP server " +++ MCPAgentServer_Name srv
                +++ " for agent " +++ config_MCPAgent_Name ag +++ LF) ;;~
      setup_ret zero_MCPServer
  | Some mcpServer => setup_ret mcpServer
  end.

(** [SysConfig.LLMModels[provider]], nil when the key is absent. *)
Definition model_of (SysConfig : SystemConfig) (provider : string) : Model :=
  match map_get (LLMModels SysConfig) provider with
  | Some llmModel => llmModel
  | None => nil_Model
  end.

(** One iteration of the loop of [initAgents] (lines 118-151). *)
Definition initAgents_step (SysConfig : SystemConfig)
    (mapAgents : list (string * MCPAgent)) (ag : config_MCPAgent)
  : Init (list (string * MCPAgent)) :=
  let agentServers :=
    map (fun srv => {| MCPAgentServer_Name := MCPAgentServer_Name srv;
                       AllowedTools := AllowedTools srv |})
      (MCPAgentServers ag) in
  agentMCPServers <~ slices_Map_effects (MCPAgentServers ag)
                       (find_server SysConfig ag) ;;
  let agentMCPServers :=
    filter (fun srv => negb (String.eqb (Name srv) EmptyString)) agentMCPServers in
  mcpAgent <~ NewMCPAgent (config_MCPAgent_Name ag) agentServers agentMCPServers
                (config_MCPAgent_Provider ag)
                (model_of SysConfig (config_MCPAgent_Provider ag)) ;;
  let mapAgents := map_set mapAgents (config_MCPAgent_Name ag) mcpAgent in
  Printf ("MCP Agent " +++ fmt_q (config_MCPAgent_Name ag)
            +++ " created successfully with servers: "
            +++ fmt_q_servers (MCPAgentServers ag)
            +++ " using provider " +++ fmt_q (config_MCPAgent_Provider ag)
            +++ LF) ;;~
  setup_ret mapAgents.

Fixpoint initAgents_loop (SysConfig : SystemConfig) (agents : list config_MCPAgent)
    (mapAgents : list (string * MCPAgent)) : Init (list (string * MCPAgent)) :=
  match agents with
  | [] => setup_ret mapAgents
  | ag :: rest =>
      mapAgents' <~ initAgents_step SysConfig mapAgents ag ;;
      initAgents_loop SysConfig rest mapAgents'
  end.

(** *** initAgents (config.go, lines 115-154)

    The function reads the variable [SysConfig]; the error it returns is
    always nil. *)
Definition initAgents (SysConfig : SystemConfig) (agents : list config_MCPAgent)
  : Init (list (string * MCPAgent) * option error) :=
  mapAgents <~ initAgents_loop SysConfig agents [] ;;
  setup_ret (mapAgents, None).

(** *** Setup (config.go, lines 51-71)

    The function writes the fields of the variable [SysConfig] one after
    the other; the result is the state the variable is left in, and the
    error. *)
Definition Setup (providers : list LLMProvider) (servers : list config_MCPServer)
    (agents : list config_MCPAgent) (SysConfig : SystemConfig)
  : Init (SystemConfig * option error) :=
  r <~ initLLMProviders providers ;;
  match r with
  | inl err => setup_ret (SysConfig, Some err)
  | inr providersLLMs =>
      let SysConfig := {| LLMModels := providersLLMs;
                          Servers := Servers SysConfig;
                          Agents := Agents SysConfig |} in
      r <~ initMCPServers servers ;;
      match r with
      | inl err => setup_ret (SysConfig, Some err)
      | inr serversMap =>
          let SysConfig := {| LLMModels := LLMModels SysConfig;
                              Servers := serversMap;
                              Agents := Agents SysConfig |} in
          r <~ initAgents SysConfig agents ;;
          match r with
          | (_, Some err) => setup_ret (SysConfig, Some err)
          | (mapAgents, None) =>
              setup_ret ({| LLMModels := LLMModels SysConfig;
                            Servers := Servers SysConfig;
                            Agents := mapAgents |}, None)
          end
      end
  end.

(** *** Reading what the set-up did *)

(** The servers whose tools were listed, in order. *)
Fixpoint listed (t : list setup_event) : list MCPServer :=
  match t with
  | [] => []
  | EvListTools srv _ :: rest => srv :: listed rest
  | _ :: rest => listed rest
  end.

(** The calls of [Initialize], in order. *)
Fixpoint initialized (t : list setup_event)
  : list (MCPClient * InitializeRequest * option error) :=
  match t with
  | [] => []
  | EvInitialize cli initRequest res :: rest =>
      (cli, initRequest, res) :: initialized rest
  | _ :: rest => initialized rest
  end.

(** The calls of [openai.New], in order. *)
Fixpoint opened (t : list setup_event)
  : list (list openai_Option * (error + Model)) :=
  match t with
  | [] => []
  | EvOpenAINew options res :: rest => (options, res) :: opened rest
  | _ :: rest => opened rest
  end.

(** The server of [servers] that [NewMCPAgent] and [ExecuteTool] take for
    a name: the first of that name. *)
Definition server_named (servers : list MCPServer) (name : string)
  : option MCPServer :=
  List.find (fun s => String.eqb (Name s) name) servers.

(** The key that a header sets in the map of headers, if it sets one. *)
Definition header_key (header : string) : option string :=
  match strings_SplitN_2 header ":" with
  | [part0; _] => Some (strings_TrimSpace part0)
  | _ => None
  end.

(** The servers that [NewMCPAgent] finds for the names it is given. *)
Definition found_servers (servers : list MCPServer)
    (mcpServersForAgent : list MCPAgentServer) : list MCPServer :=
  flat_map
    (fun srv => match server_named servers (MCPAgentServer_Name srv) with
                | Some mcpServer => [mcpServer]
                | None => []
                end)
    mcpServersForAgent.

(** Every tool of the agent was listed, after the events [t], by the first
    server of the name that is its key, and passes the filter of an entry
    of [all] of that name. *)
Definition tools_listed (servers : list MCPServer) (all : list MCPAgentServer)
    (t : list setup_event) (ag : MCPAgent) : Prop :=
  forall key agTs agT,
    In (key, agTs) (MCPServerTools ag) -> In agT agTs ->
    exists srv mcpServer Tools,
      In srv all /\ MCPAgentServer_Name srv = key
      /\ server_named servers key = Some mcpServer
      /\ In (EvListTools mcpServer (Some Tools, None)) t
      /\ In agT Tools /\ allowed_tool srv agT = true.

(** The request that [NewMCPServer] initializes a client with. *)
Definition init_request : InitializeRequest :=
  {| ProtocolVersion := LATEST_PROTOCOL_VERSION;
     ClientInfo_Name := "mcp-agents-go";
     ClientInfo_Version := "1.0.0" |}.

(** The client was returned by one of the two constructors. *)
Definition constructed (cli : MCPClient) (e : setup_event) : Prop :=
  match e with
  | EvNewStdioMCPClient _ _ _ (inr c) => c = cli
  | EvNewSSEMCPClient _ _ (inr c) => c = cli
  | _ => False
  end.

(** The options that [initLLMProviders] passes for a provider. *)
Definition options_of (provider : LLMProvider) : list openai_Option :=
  [WithToken (Token provider);
   WithBaseURL (BaseURL provider);
   WithModel (LLMProvider_Model provider);
   WithAPIType_APITypeAzure;
   WithAPIVersion (Version provider)].

Definition is_AZURE (provider : LLMProvider) : bool :=
  String.eqb (LLMProvider_Type provider) "AZURE".

(** The agent [mcpAgent] is the one that [initAgents] builds from the
    description [ag]: its name, its list of names and its provider are
    those of the description, its model is the one that
    [SysConfig.LLMModels] holds for the provider, nil when it holds none,
    and each of its servers is held by [SysConfig.Servers] under a name
    of the description, and has a name that is not empty. *)
Definition agent_of (SysConfig : SystemConfig) (ag : config_MCPAgent)
    (mcpAgent : MCPAgent) : Prop :=
  MCPAgent_Name mcpAgent = config_MCPAgent_Name ag
  /\ MCPServerNames mcpAgent = MCPAgentServers ag
  /\ Provider mcpAgent = config_MCPAgent_Provider ag
  /\ LLMModel mcpAgent = model_of SysConfig (config_MCPAgent_Provider ag)
  /\ Forall (fun s =>
               Name s <> EmptyString
               /\ exists srv,
                    In srv (MCPAgentServers ag)
                    /\ map_get (Servers SysConfig) (MCPAgentServer_Name srv) = Some s)
       (mcpServers mcpAgent).

End Setting_up.

Notation "x <~ m ;; k" := (setup_bind m (fun x => k))
  (at level 100, m at next level, right associativity).
Notation "m ;;~ k" := (setup_bind m (fun _ => k))
  (at level 100, right associativity).

(** ** A scripted set-up, to run the model

    A client is the text that names it; the constructors and the methods
    of the clients answer by tables.  [strings.TrimSpace] removes spaces
    and tabs, which is what it does on a text of ASCII letters, spaces and
    tabs; [%q] puts a text of ASCII letters between double quotes. *)
Fixpoint trim_left (s : string) : string :=
  match s with
  | String c rest =>
      if Ascii.eqb c " " || Ascii.eqb c "009" then trim_left rest else s
  | EmptyString => EmptyString
  end.

Fixpoint reverse (s : string) : string :=
  match s with
  | EmptyString => EmptyString
  | String c rest => reverse rest +++ String c EmptyString
  end.

Definition trim_space (s : string) : string :=
  reverse (trim_left (reverse (trim_left s))).

Definition quoted (s : string) : string :=
  String Json.dquote (s +++ String Json.dquote EmptyString).

Record setup_script : Type := {
  stdio_table : string -> list string -> error + string;
  sse_table : string -> list ClientOption -> error + string;
  start_table : string -> option error;
  initialize_table : string -> option error;
  tools_table : string -> option (list mcp_Tool) * option error;
  openai_table : list openai_Option -> error + unit
}.

Definition scripted_setup (sc : script) (ss : setup_script)
  : SetupEnv (scripted sc) :=
  @Build_SetupEnv (scripted sc)
    (fun w command _ args => (w, stdio_table ss command args))
    (fun w url options => (w, sse_table ss url options))
    (fun w cli => (w, start_table ss cli))
    (fun w cli _ => (w, initialize_table ss cli))
    (fun w cli => (w, tools_table ss cli))
    (fun w options => (w, openai_table ss options))
    (fun w _ => w)
    trim_space
    quoted
    (fun servers =>
       "[" +++ String.concat " "
                 (map (fun srv =>
                         "{" +++ quoted (MCPAgentServer_Name srv) +++ " ["
                           +++ String.concat " " (map quoted (AllowedTools srv))
                           +++ "]}")
                    servers) +++ "]")
    "2025-03-26"
    EmptyString
    tt.

Definition tool (name description : string) : mcp_Tool :=
  {| mcp_Tool_Name := name;
     mcp_Tool_Description := description;
     InputSchema := {| InputSchema_Type := "object";
                       Properties := Json.JObject [] |} |}.

(** The calculator server lists two tools; every client can be created,
    started and initialized; the LLM client can be created unless it is
    given no token. *)
Definition calc_setup : setup_script := {|
  stdio_table := fun command _ => inr (command +++ "-client");
  sse_table := fun url _ => inr (url +++ "-client");
  start_table := fun _ => None;
  initialize_table := fun _ => None;
  tools_table := fun cli =>
    if String.eqb cli "calc-client"
    then (Some [tool "add" "adds two numbers";
                tool "mul" "multiplies two numbers"], None)
    else (None, Some (Err "connection refused"));
  openai_table := fun options =>
    match options with
    | WithToken EmptyString :: _ => inl (Err "missing the OpenAI API key")
    | _ => inr tt
    end
|}.

(** The provider answers for both tools. *)
Definition two_tools_script : script := {|
  llm_script := llm_script calc_script;
  provider_table := fun client req =>
    if String.eqb client "calc-client" then inr (Params_Name req) else
      inl (Err "unknown tool")
|}.

(** An agent that is allowed the tool [add] only. *)
Definition add_only : list (@MCPAgentServer) :=
  [{| MCPAgentServer_Name := "calc"; AllowedTools := ["add"] |}].

(** The client cannot be initialized. *)
Definition failing_init_setup : setup_script := {|
  stdio_table := stdio_table calc_setup;
  sse_table := sse_table calc_setup;
  start_table := start_table calc_setup;
  initialize_table := fun _ => Some (Err "connection refused");
  tools_table := tools_table calc_setup;
  openai_table := openai_table calc_setup
|}.

(** The LLM answers with no choice at all. *)
Definition no_choices_script : script := {|
  llm_script := [(["Hel"; "lo"], inr {| Choices := [] |})];
  provider_table := provider_table calc_script
|}.

(** The final LLM call fails. *)
Definition failing_final_script : script := {|
  llm_script :=
    [([], inr (response EmptyString
                 [call "call_1" "calc__add" (Json.text "{'a':2,'b':2}")]));
     (["The ans"], inl (Err "429 Too Many Requests"))];
  provider_table := provider_table calc_script
|}.

(** The configuration of the README: a provider, a server, an agent. *)
Definition azure_provider : LLMProvider :=
  {| LLMProvider_Name := "my-azure-provider"; LLMProvider_Type := "AZURE";
     Token := "token"; BaseURL := "https://example.openai.azure.com";
     LLMProvider_Model := "gpt-4o-mini"; Version := "2025-01-01-preview" |}.

Definition calc_config : config_MCPServer :=
  {| config_MCPServer_Name := "calc"; config_MCPServer_Type := "stdio";
     config_MCPServer_Command := ["calc"]; config_MCPServer_URL := EmptyString;
     config_MCPServer_Headers := [] |}.

Definition my_agent : config_MCPAgent :=
  {| config_MCPAgent_Name := "my-agent";
     MCPAgentServers := [{| MCPAgentServer_Name := "calc"; AllowedTools := [] |}];
     config_MCPAgent_Provider := "my-azure-provider" |}.

Definition empty_config (sc : script) : @SystemConfig (scripted sc) :=
  @Build_SystemConfig (scripted sc) [] [] [].

(** * Properties *)

(** ** Go strings *)

Example split_calc_add : split_tool_name "calc__add" = Normal ("calc", "add").
Proof. reflexivity. Qed.

Example split_first_occurrence :
  split_tool_name "fs__read__all" = Normal ("fs", "read__all").
Proof. reflexivity. Qed.

Example split_no_separator :
  split_tool_name "add" = Panicked (PanicRuntime SliceBoundsOutOfRange).
Proof. reflexivity. Qed.

Lemma append_assoc (a b c : string) : (a +++ b) +++ c = a +++ (b +++ c).
Proof. induction a as [|x a IH]; simpl; [reflexivity | now rewrite IH]. Qed.

Lemma length_append (a b : string) :
  String.length (a +++ b) = (String.length a + String.length b)%nat.
Proof. induction a as [|x a IH]; simpl; [reflexivity | now rewrite IH]. Qed.

Lemma substring_0_append (a b : string) :
  substring 0 (String.length a) (a +++ b) = a.
Proof.
  induction a as [|x a IH]; simpl.
  - destruct b; reflexivity.
  - now rewrite IH.
Qed.

Lemma substring_0_length (s : string) : substring 0 (String.length s) s = s.
Proof. induction s as [|x s IH]; simpl; [reflexivity | now rewrite IH]. Qed.

Lemma substring_skip_append (a b : string) :
  substring (String.length a) (String.length b) (a +++ b) = b.
Proof.
  induction a as [|x a IH]; simpl.
  - apply substring_0_length.
  - exact IH.
Qed.

(** The separator is found at the end of [P] when [P] neither contains it
    nor ends in an underscore. *)
Lemma index_nat_separator (P T : string) :
  index_nat P "__" = None ->
  strings_HasSuffix P "_" = false ->
  index_nat (P +++ "__" +++ T) "__" = Some (String.length P).
Proof.
  induction P as [|c P IH]; intros Hidx Hsuf.
  - reflexivity.
  - cbn [index_nat] in Hidx.
    destruct (strings_HasPrefix (String c P) "__") eqn:Hpre; [discriminate|].
    destruct (index_nat P "__") eqn:HP; [discriminate|].
    assert (HsufP : strings_HasSuffix P "_" = false).
    { cbn [strings_HasSuffix] in Hsuf.
      destruct (String.eqb (String c P) "_"); [discriminate | exact Hsuf]. }
    specialize (IH eq_refl HsufP).
    cbn [index_nat String.append]. cbn [String.append] in IH. rewrite IH.
    destruct (strings_HasPrefix (String c (P +++ String "_" (String "_" T))) "__")
      eqn:E; [exfalso | reflexivity].
    destruct P as [|d P];
      cbn [strings_HasPrefix String.append] in Hpre, E.
    + (* P is the single byte c, which is not an underscore *)
      destruct (Ascii.eqb "_" c) eqn:Hc; [|discriminate].
      apply Ascii.eqb_eq in Hc. subst c. vm_compute in Hsuf. discriminate.
    + destruct (Ascii.eqb "_" c); [|discriminate].
      destruct (Ascii.eqb "_" d); discriminate.
Qed.

Lemma strings_Index_absent (s substr : string) :
  strings_Index s substr = -1 -> index_nat s substr = None.
Proof.
  unfold strings_Index. destruct (index_nat s substr); [lia | reflexivity].
Qed.

(** Splitting a composed name gives back its two parts. *)
Lemma split_composed_name (P T : string) :
  strings_Index P "__" = -1 ->
  strings_HasSuffix P "_" = false ->
  split_tool_name (P +++ "__" +++ T) = Normal (P, T).
Proof.
  intros Hidx Hsuf. apply strings_Index_absent in Hidx.
  unfold split_tool_name, strings_Index.
  rewrite (index_nat_separator P T Hidx Hsuf).
  unfold slice_to, slice_from, len.
  rewrite !length_append. cbn [String.length].
  replace ((0 <=? Z.of_nat (String.length P))
           && (Z.of_nat (String.length P)
               <=? Z.of_nat (String.length P + (2 + String.length T)))) with true
    by (symmetry; apply andb_true_intro; split; apply Z.leb_le; lia).
  replace ((0 <=? Z.of_nat (String.length P) + 2)
           && (Z.of_nat (String.length P) + 2
               <=? Z.of_nat (String.length P + (2 + String.length T)))) with true
    by (symmetry; apply andb_true_intro; split; apply Z.leb_le; lia).
  rewrite Nat2Z.id, substring_0_append.
  replace (Z.to_nat (Z.of_nat (String.length P) + 2))
    with (String.length (P +++ "__")) by (rewrite length_append; simpl; lia).
  replace (String.length P + (2 + String.length T) - String.length (P +++ "__"))%nat
    with (String.length T) by (rewrite length_append; simpl; lia).
  rewrite <- (append_assoc P "__" T), substring_skip_append.
  reflexivity.
Qed.

(** A name without the separator cannot be split: the first slice
    expression panics. *)
Lemma split_without_separator (toolName : string) :
  strings_Index toolName "__" = -1 ->
  split_tool_name toolName = Panicked (PanicRuntime SliceBoundsOutOfRange).
Proof.
  intros H. unfold split_tool_name. rewrite H. reflexivity.
Qed.

(** The display cap: a slice of the first 1000 bytes of a longer string
    does not panic. *)
Lemma msgToPrint_long (toolRes : string) :
  1000 < len toolRes ->
  msgToPrint toolRes = Normal (substring 0 1000 toolRes +++ "...").
Proof.
  intros H. unfold msgToPrint, slice_to.
  apply Z.ltb_lt in H as Hb. rewrite Hb.
  replace ((0 <=? 1000) && (1000 <=? len toolRes)) with true
    by (symmetry; apply andb_true_intro; split; apply Z.leb_le; lia).
  reflexivity.
Qed.

Lemma msgToPrint_short (toolRes : string) :
  len toolRes <= 1000 -> msgToPrint toolRes = Normal toolRes.
Proof.
  intros H. unfold msgToPrint.
  replace (1000 <? len toolRes) with false
    by (symmetry; apply Z.ltb_ge; lia).
  reflexivity.
Qed.

Lemma msgToPrint_returns (toolRes : string) :
  exists shown, msgToPrint toolRes = Normal shown.
Proof.
  destruct (Z_lt_le_dec 1000 (len toolRes)) as [H|H].
  - eexists. apply msgToPrint_long. exact H.
  - eexists. apply msgToPrint_short. exact H.
Qed.

Lemma tool_response_marker_returns (name toolRes : string) :
  exists marker, tool_response_marker name toolRes = Normal marker.
Proof.
  unfold tool_response_marker.
  destruct (msgToPrint_returns toolRes) as [shown ->]. eexists. reflexivity.
Qed.

(** ** JSON texts *)

Example parse_calc_arguments :
  Json.parse (Json.text "{'a':2,'b':2}")
  = Some (Json.JObject [("a", Json.JNumber "2"); ("b", Json.JNumber "2")]).
Proof. vm_compute. reflexivity. Qed.

Example parse_nested :
  Json.parse (Json.text " [ 1.5e3 , 'x\nA' , { 'k' : [ true , null ] } ] ")
  = Some (Json.JArray
            [Json.JNumber "1.5e3";
             Json.JString ("x" +++ String (ascii_of_nat 10) "A");
             Json.JObject [("k", Json.JArray [Json.JBool true; Json.JNull])]]).
Proof. vm_compute. reflexivity. Qed.

Example parse_rejects_plain_text : Json.parse "Hello, world" = None.
Proof. vm_compute. reflexivity. Qed.

Example parse_rejects_open_object : Json.parse (Json.text "{'a':") = None.
Proof. vm_compute. reflexivity. Qed.

Example parse_rejects_trailing : Json.parse "{} x" = None.
Proof. vm_compute. reflexivity. Qed.

Example parse_rejects_empty : Json.parse EmptyString = None.
Proof. vm_compute. reflexivity. Qed.

Example lookup_last_member_wins :
  Json.lookup "k" [("k", Json.JNull); ("j", Json.JNull); ("k", Json.JBool true)]
  = Some (Json.JBool true).
Proof. reflexivity. Qed.

(** ** The classifier on the fragments of section 8 of the spec *)

Example suppressed_bare_array :
  suppressed (env := scripted calc_script) (Json.text "['tool_call_delta']") = true.
Proof. vm_compute. reflexivity. Qed.

Example suppressed_choices_tool_calls :
  suppressed (env := scripted calc_script)
    (Json.text "{'choices':[{'tool_calls':[{'id':'call_1'}]}]}") = true.
Proof. vm_compute. reflexivity. Qed.

Example emitted_content :
  suppressed (env := scripted calc_script)
    (Json.text "{'choices':[{'content':'Hi'}]}") = false.
Proof. vm_compute. reflexivity. Qed.

Example emitted_plain_text :
  suppressed (env := scripted calc_script) "Hello" = false.
Proof. vm_compute. reflexivity. Qed.

Example emitted_empty_array :
  suppressed (env := scripted calc_script) "[]" = false.
Proof. vm_compute. reflexivity. Qed.

Example emitted_empty_tool_calls :
  suppressed (env := scripted calc_script)
    (Json.text "{'choices':[{'tool_calls':[]}]}") = false.
Proof. vm_compute. reflexivity. Qed.

(** ** The scenario of section 8 of the spec, run *)

Example calculator_scenario :
  GenerateContent (calc_agent calc_script) calc_prompt false 0%nat
  = (2%nat,
     [EvGenerate [human_message calc_prompt]
        (ExtractToolsFromAgent (calc_agent calc_script)) false
        (inr (response EmptyString
                [call "call_1" "calc__add" (Json.text "{'a':2,'b':2}")]));
      EvCallTool (calc_server calc_script)
        {| Method := "tools/call"; Params_Name := "add";
           Params_Arguments := Some (Json.text "{'a':2,'b':2}") |}
        (inr "4");
      EvExecuteTool "calc__add" (Json.text "{'a':2,'b':2}") ("4", None);
      EvGenerate
        [human_message calc_prompt;
         ai_message (call "call_1" "calc__add" (Json.text "{'a':2,'b':2}"));
         tool_message (call "call_1" "calc__add" (Json.text "{'a':2,'b':2}")) "4"]
        (ExtractToolsFromAgent (calc_agent calc_script)) false
        (inr (response "The answer is 4." []))],
     Normal "The answer is 4.").
Proof. reflexivity. Qed.

Example calculator_scenario_streaming :
  sent (trace_of (GenerateContentAsStreaming (calc_agent calc_script)
                    calc_prompt true 0%nat))
  = [LF +++ "[tool_usage] calc__add" +++ LF;
     LF +++ "[tool_response] calc__add: 4]" +++ LF +++ LF;
     "The answer "; "is 4."].
Proof. vm_compute. reflexivity. Qed.

Example calculator_tools :
  map (fun t => FunctionDefinition_Name (Function t))
    (ExtractToolsFromAgent (calc_agent calc_script)) = ["calc__add"].
Proof. reflexivity. Qed.

(** ** Running computations *)
Section Runs.

Context {env : Env}.

Lemma bind_normal {A B : Type} (m : M A) (k : A -> M B) (w w1 : World)
    (t1 : list event) (a : A) :
  m w = (w1, t1, Normal a) ->
  bind m k w = (world_of (k a w1), t1 ++ trace_of (k a w1), outcome_of (k a w1)).
Proof.
  intros H. unfold bind. rewrite H.
  destruct (k a w1) as [[w2 t2] o]. reflexivity.
Qed.


Lemma bind_lift_normal {A B : Type} (a : A) (k : A -> M B) (w : World) :
  bind (lift (Normal a)) k w = k a w.
Proof. unfold bind, lift. destruct (k a w) as [[w2 t2] o]. reflexivity. Qed.


(** The streaming functions send and return; they change nothing else. *)
Lemma for_each_first_streamingFunc (chunks : list string) (w : World) :
  for_each chunks first_streamingFunc w
  = (w, map EvSend (filter (fun chunk => negb (suppressed chunk)) chunks), Normal tt).
Proof.
  induction chunks as [|chunk chunks IH]; [reflexivity|].
  cbn [for_each filter]. unfold bind at 1. unfold first_streamingFunc at 1.
  destruct (suppressed chunk); cbn [negb ret emit]; rewrite IH; reflexivity.
Qed.

Lemma for_each_final_streamingFunc (chunks : list string) (w : World) :
  for_each chunks final_streamingFunc w = (w, map EvSend chunks, Normal tt).
Proof.
  induction chunks as [|chunk chunks IH]; [reflexivity|].
  cbn [for_each]. unfold bind at 1, final_streamingFunc at 1, emit.
  rewrite IH. reflexivity.
Qed.

(** A call of the LLM without a streaming function. *)
Lemma LLM_GenerateContent_blocking (model : Model) (msgs : list MessageContent)
    (tools : list llms_Tool) (w w1 : World) (chunks : list string)
    (res : error + ContentResponse) :
  llm_GenerateContent w model msgs tools false = (w1, chunks, res) ->
  LLM_GenerateContent model msgs tools None w
  = (w1, [EvGenerate msgs tools false res], Normal res).
Proof.
  intros H. unfold LLM_GenerateContent. cbn [is_some]. rewrite H. reflexivity.
Qed.

Lemma LLM_GenerateContent_first (model : Model) (msgs : list MessageContent)
    (tools : list llms_Tool) (w w1 : World) (chunks : list string)
    (res : error + ContentResponse) :
  llm_GenerateContent w model msgs tools true = (w1, chunks, res) ->
  LLM_GenerateContent model msgs tools (Some first_streamingFunc) w
  = (w1,
     map EvSend (filter (fun chunk => negb (suppressed chunk)) chunks)
       ++ [EvGenerate msgs tools true res],
     Normal res).
Proof.
  intros H. unfold LLM_GenerateContent. cbn [is_some]. rewrite H.
  unfold bind at 1. rewrite for_each_first_streamingFunc. reflexivity.
Qed.

Lemma LLM_GenerateContent_final (model : Model) (msgs : list MessageContent)
    (tools : list llms_Tool) (w w1 : World) (chunks : list string)
    (res : error + ContentResponse) :
  llm_GenerateContent w model msgs tools true = (w1, chunks, res) ->
  LLM_GenerateContent model msgs tools (Some final_streamingFunc) w
  = (w1, map EvSend chunks ++ [EvGenerate msgs tools true res], Normal res).
Proof.
  intros H. unfold LLM_GenerateContent. cbn [is_some]. rewrite H.
  unfold bind at 1. rewrite for_each_final_streamingFunc. reflexivity.
Qed.

(** *** The four ways [ExecuteTool] ends *)

Lemma ExecuteTool_invalid_arguments (m : MCPAgent) (toolName args : string)
    (err : error) (w : World) :
  validate_arguments args = inl err ->
  ExecuteTool m toolName args w
  = (w, [EvExecuteTool toolName args (EmptyString, Some err)],
     Normal (EmptyString, Some err)).
Proof.
  intros H. unfold ExecuteTool, ExecuteTool_body. rewrite H. reflexivity.
Qed.

Lemma ExecuteTool_panics (m : MCPAgent) (toolName args : string)
    (arguments : option string) (p : panic_value) (w : World) :
  validate_arguments args = inr arguments ->
  split_tool_name toolName = Panicked p ->
  ExecuteTool m toolName args w = (w, [], Panicked p).
Proof.
  intros H Hs. unfold ExecuteTool, ExecuteTool_body. rewrite H.
  unfold bind, lift. rewrite Hs. reflexivity.
Qed.

Lemma ExecuteTool_unknown_provider (m : MCPAgent) (toolName args : string)
    (arguments : option string) (serverName localName : string) (err : error)
    (w : World) :
  validate_arguments args = inr arguments ->
  split_tool_name toolName = Normal (serverName, localName) ->
  slices_Find (mcpServers m) (fun srv => String.eqb (Name srv) serverName) = inl err ->
  ExecuteTool m toolName args w
  = (w, [EvExecuteTool toolName args (EmptyString, Some err)],
     Normal (EmptyString, Some err)).
Proof.
  intros H Hs Hf. unfold ExecuteTool, ExecuteTool_body. rewrite H.
  unfold bind, lift. rewrite Hs, Hf. reflexivity.
Qed.

Lemma ExecuteTool_calls_provider (m : MCPAgent) (toolName args : string)
    (arguments : option string) (serverName localName : string)
    (toolServer : MCPServer) (w w1 : World) (res : error + CallToolResult) :
  validate_arguments args = inr arguments ->
  split_tool_name toolName = Normal (serverName, localName) ->
  slices_Find (mcpServers m) (fun srv => String.eqb (Name srv) serverName)
    = inr toolServer ->
  client_CallTool w (Client toolServer)
    {| Method := "tools/call"; Params_Name := localName;
       Params_Arguments := arguments |} = (w1, res) ->
  ExecuteTool m toolName args w
  = (w1,
     [EvCallTool toolServer
        {| Method := "tools/call"; Params_Name := localName;
           Params_Arguments := arguments |} res;
      EvExecuteTool toolName args (call_result res)],
     Normal (call_result res)).
Proof.
  intros H Hs Hf Hc. unfold ExecuteTool, ExecuteTool_body. rewrite H.
  unfold bind, lift, Client_CallTool. rewrite Hs, Hf, Hc.
  unfold call_result.
  destruct res as [err|result]; [reflexivity|].
  destruct (sonic_MarshalString result); reflexivity.
Qed.

Lemma split_tool_name_panic (toolName : string) (p : panic_value) :
  split_tool_name toolName = Panicked p ->
  p = PanicRuntime SliceBoundsOutOfRange.
Proof.
  unfold split_tool_name, slice_to, slice_from.
  destruct ((0 <=? strings_Index toolName "__")
            && (strings_Index toolName "__" <=? len toolName));
    [|intros H; inversion H; reflexivity].
  destruct ((0 <=? strings_Index toolName "__" + 2)
            && (strings_Index toolName "__" + 2 <=? len toolName));
    intros H; inversion H; reflexivity.
Qed.

(** Every call of [ExecuteTool] either returns, after at most one provider
    call, and records its return; or panics in the name resolution, with
    no effect at all. *)
Lemma ExecuteTool_shape (m : MCPAgent) (toolName args : string) (w : World) :
  (exists w1 pre r,
      ExecuteTool m toolName args w
      = (w1, pre ++ [EvExecuteTool toolName args r], Normal r)
      /\ (pre = [] \/ exists srv req res, pre = [EvCallTool srv req res]))
  \/ ExecuteTool m toolName args w
     = (w, [], Panicked (PanicRuntime SliceBoundsOutOfRange)).
Proof.
  destruct (validate_arguments args) as [err|arguments] eqn:Hv.
  - left. exists w, [], (EmptyString, Some err). split; [|left; reflexivity].
    apply ExecuteTool_invalid_arguments. exact Hv.
  - destruct (split_tool_name toolName) as [[serverName localName]|p] eqn:Hs.
    + destruct (slices_Find (mcpServers m)
                  (fun srv => String.eqb (Name srv) serverName))
        as [err|toolServer] eqn:Hf.
      * left. exists w, [], (EmptyString, Some err). split; [|left; reflexivity].
        eapply ExecuteTool_unknown_provider; eassumption.
      * destruct (client_CallTool w (Client toolServer)
                    {| Method := "tools/call"; Params_Name := localName;
                       Params_Arguments := arguments |}) as [w1 res] eqn:Hc.
        left. eexists w1, [_], (call_result res). split.
        -- eapply ExecuteTool_calls_provider; eassumption.
        -- right. eexists _, _, _. reflexivity.
    + right. rewrite (split_tool_name_panic _ _ Hs) in Hs.
      eapply ExecuteTool_panics; eassumption.
Qed.

End Runs.

(** ** The Tool Invoker: arguments and names *)

Lemma validate_no_arguments {env : Env} (args : string) :
  args = EmptyString \/ args = "{}" -> validate_arguments args = inr None.
Proof. intros [-> | ->]; reflexivity. Qed.

Lemma validate_invalid {env : Env} (args : string) (err : error) :
  args <> EmptyString -> args <> "{}" -> json_Unmarshal args = inl err ->
  validate_arguments args = inl (Errorf_w "invalid JSON arguments: " err).
Proof.
  intros H1 H2 H. unfold validate_arguments.
  apply String.eqb_neq in H1, H2. rewrite H1, H2, H. reflexivity.
Qed.

(** The provider calls of a call of [ExecuteTool] whose arguments pass the
    validation: none, or one, made with the local name and with the
    validated arguments. *)
Lemma ExecuteTool_provider_calls {env : Env} (m : MCPAgent)
    (toolName args : string) (arguments : option string) (w : World) :
  validate_arguments args = inr arguments ->
  match split_tool_name toolName with
  | Normal (serverName, localName) =>
      match slices_Find (mcpServers m)
              (fun srv => String.eqb (Name srv) serverName) with
      | inr toolServer =>
          provider_calls (trace_of (ExecuteTool m toolName args w))
          = [(toolServer,
              {| Method := "tools/call"; Params_Name := localName;
                 Params_Arguments := arguments |})]
      | inl _ => provider_calls (trace_of (ExecuteTool m toolName args w)) = []
      end
  | Panicked _ => provider_calls (trace_of (ExecuteTool m toolName args w)) = []
  end.
Proof.
  intros Hv.
  destruct (split_tool_name toolName) as [[serverName localName]|p] eqn:Hs.
  - destruct (slices_Find (mcpServers m)
                (fun srv => String.eqb (Name srv) serverName))
      as [err|toolServer] eqn:Hf.
    + rewrite (ExecuteTool_unknown_provider m _ _ _ _ _ _ w Hv Hs Hf). reflexivity.
    + destruct (client_CallTool w (Client toolServer)
                  {| Method := "tools/call"; Params_Name := localName;
                     Params_Arguments := arguments |}) as [w1 res] eqn:Hc.
      rewrite (ExecuteTool_calls_provider m _ _ _ _ _ _ w w1 res Hv Hs Hf Hc).
      reflexivity.
  - rewrite (ExecuteTool_panics m _ _ _ _ w Hv Hs). reflexivity.
Qed.

(** C4.  For every call of ExecuteTool: when the arguments string is empty
    or exactly the text of the empty object, the arguments are nil, every
    provider call made is made with nil arguments, and the provider the
    name resolves to is called (once) with them; for any other arguments
    string that json.Unmarshal rejects, ExecuteTool returns the error
    "invalid JSON arguments: ..." and no provider is called. *)
Theorem C4_argument_validation {env : Env} (m : MCPAgent)
    (toolName args : string) (w : World) :
  (args = EmptyString \/ args = "{}" ->
   validate_arguments args = inr None
   /\ (forall srv req,
         In (srv, req) (provider_calls (trace_of (ExecuteTool m toolName args w))) ->
         Params_Arguments req = None)
   /\ (forall serverName localName toolServer,
         split_tool_name toolName = Normal (serverName, localName) ->
         slices_Find (mcpServers m) (fun srv => String.eqb (Name srv) serverName)
           = inr toolServer ->
         provider_calls (trace_of (ExecuteTool m toolName args w))
         = [(toolServer,
             {| Method := "tools/call"; Params_Name := localName;
                Params_Arguments := None |})]))
  /\ (args <> EmptyString -> args <> "{}" ->
      forall err, json_Unmarshal args = inl err ->
        ExecuteTool m toolName args w
        = (w,
           [EvExecuteTool toolName args
              (EmptyString, Some (Errorf_w "invalid JSON arguments: " err))],
           Normal (EmptyString, Some (Errorf_w "invalid JSON arguments: " err)))
        /\ provider_calls (trace_of (ExecuteTool m toolName args w)) = []).
Proof.
  split.
  - intros Hargs. pose proof (validate_no_arguments args Hargs) as Hv.
    pose proof (ExecuteTool_provider_calls m toolName args None w Hv) as Hp.
    split; [exact Hv|]. split.
    + intros srv req Hin.
      destruct (split_tool_name toolName) as [[serverName localName]|p].
      * destruct (slices_Find (mcpServers m)
                    (fun srv0 => String.eqb (Name srv0) serverName)).
        -- rewrite Hp in Hin. contradiction.
        -- rewrite Hp in Hin. destruct Hin as [Heq|[]].
           inversion Heq. reflexivity.
      * rewrite Hp in Hin. contradiction.
    + intros serverName localName toolServer Hs Hf.
      rewrite Hs, Hf in Hp. exact Hp.
  - intros H1 H2 err Hj.
    pose proof (validate_invalid args err H1 H2 Hj) as Hv.
    rewrite (ExecuteTool_invalid_arguments m toolName args _ w Hv).
    split; reflexivity.
Qed.

Lemma C4_empty_object_witness :
  provider_calls
    (trace_of (ExecuteTool (calc_agent calc_script) "calc__add" "{}" 0%nat))
  = [(calc_server calc_script,
      {| Method := "tools/call"; Params_Name := "add";
         Params_Arguments := None |})].
Proof.
  apply (proj2 (proj2 (proj1
           (C4_argument_validation (calc_agent calc_script) "calc__add" "{}" 0%nat)
           (or_intror eq_refl)))
         "calc" "add" (calc_server calc_script));
    reflexivity.
Defined.

Example C4_invalid_arguments_example :
  ExecuteTool (calc_agent calc_script) "calc__add" "a=2,b=2" 0%nat
  = (0%nat,
     [EvExecuteTool "calc__add" "a=2,b=2"
        (EmptyString,
         Some (Errorf_w "invalid JSON arguments: " (Err "invalid JSON text")))],
     Normal (EmptyString,
             Some (Errorf_w "invalid JSON arguments: " (Err "invalid JSON text")))).
Proof. reflexivity. Qed.

(** C10.  For every tool name that contains no separator, the name
    resolution of ExecuteTool panics with a slice-bounds run-time error:
    whenever the arguments pass the validation the call panics, with no
    effect; no provider is looked up or called; and the call returns
    normally only through the early return of the argument validation. *)
Theorem C10_missing_separator_panics {env : Env} (m : MCPAgent)
    (toolName args : string) (w : World) :
  strings_Index toolName "__" = -1 ->
  split_tool_name toolName = Panicked (PanicRuntime SliceBoundsOutOfRange)
  /\ (forall arguments, validate_arguments args = inr arguments ->
        ExecuteTool m toolName args w
        = (w, [], Panicked (PanicRuntime SliceBoundsOutOfRange)))
  /\ provider_calls (trace_of (ExecuteTool m toolName args w)) = []
  /\ (forall res, outcome_of (ExecuteTool m toolName args w) = Normal res ->
        exists err, validate_arguments args = inl err /\ res = (EmptyString, Some err)).
Proof.
  intros Hidx. pose proof (split_without_separator toolName Hidx) as Hs.
  split; [exact Hs|]. split; [|split].
  - intros arguments Hv. eapply ExecuteTool_panics; eassumption.
  - destruct (validate_arguments args) as [err|arguments] eqn:Hv.
    + rewrite (ExecuteTool_invalid_arguments m _ _ _ w Hv). reflexivity.
    + rewrite (ExecuteTool_panics m _ _ _ _ w Hv Hs). reflexivity.
  - intros res Hres.
    destruct (validate_arguments args) as [err|arguments] eqn:Hv.
    + rewrite (ExecuteTool_invalid_arguments m _ _ _ w Hv) in Hres.
      inversion Hres. exists err. split; reflexivity.
    + rewrite (ExecuteTool_panics m _ _ _ _ w Hv Hs) in Hres. discriminate.
Qed.

Lemma C10_witness :
  ExecuteTool (calc_agent calc_script) "add" (Json.text "{'a':2,'b':2}") 0%nat
  = (0%nat, [], Panicked (PanicRuntime SliceBoundsOutOfRange)).
Proof.
  apply (proj1 (proj2
           (C10_missing_separator_panics (calc_agent calc_script) "add"
              (Json.text "{'a':2,'b':2}") 0%nat eq_refl))
         (Some (Json.text "{'a':2,'b':2}"))).
  reflexivity.
Defined.

(** ** Namespacing *)

Lemma ExtractToolsFromAgent_names {env : Env} (m : MCPAgent)
    (serverName : string) (agTs : list mcp_Tool) (agT : mcp_Tool) :
  In (serverName, agTs) (MCPServerTools m) -> In agT agTs ->
  In (serverName +++ "__" +++ mcp_Tool_Name agT)
    (map (fun t => FunctionDefinition_Name (Function t)) (ExtractToolsFromAgent m)).
Proof.
  intros Hs Ht. unfold ExtractToolsFromAgent.
  apply in_map_iff.
  eexists. split; [|apply in_flat_map; exists (serverName, agTs); split;
                     [exact Hs | apply in_map; exact Ht]].
  reflexivity.
Qed.

(** C5, as amended.  For any provider name P that contains no separator
    and does not end in an underscore, and any local tool name T: the name
    P + "__" + T, which is the name ExtractToolsFromAgent gives the tool T
    of the provider P, is resolved by ExecuteTool to exactly (P, T), and T
    is the name passed to the provider. *)
Theorem C5_namespacing_round_trip {env : Env} (m : MCPAgent) (P T : string) :
  strings_Index P "__" = -1 ->
  strings_HasSuffix P "_" = false ->
  split_tool_name (P +++ "__" +++ T) = Normal (P, T)
  /\ (forall agTs agT,
        In (P, agTs) (MCPServerTools m) -> In agT agTs -> mcp_Tool_Name agT = T ->
        In (P +++ "__" +++ T)
          (map (fun t => FunctionDefinition_Name (Function t))
             (ExtractToolsFromAgent m)))
  /\ (forall args arguments toolServer w,
        validate_arguments args = inr arguments ->
        slices_Find (mcpServers m) (fun srv => String.eqb (Name srv) P)
          = inr toolServer ->
        provider_calls (trace_of (ExecuteTool m (P +++ "__" +++ T) args w))
        = [(toolServer,
            {| Method := "tools/call"; Params_Name := T;
               Params_Arguments := arguments |})]).
Proof.
  intros Hidx Hsuf. pose proof (split_composed_name P T Hidx Hsuf) as Hs.
  split; [exact Hs|]. split.
  - intros agTs agT Hin1 Hin2 <-. apply (ExtractToolsFromAgent_names m P agTs agT); assumption.
  - intros args arguments toolServer w Hv Hf.
    pose proof (ExecuteTool_provider_calls m (P +++ "__" +++ T) args arguments w Hv) as Hp.
    rewrite Hs, Hf in Hp. exact Hp.
Qed.

Lemma C5_witness :
  split_tool_name ("calc" +++ "__" +++ "add") = Normal ("calc", "add").
Proof.
  apply (proj1 (C5_namespacing_round_trip (calc_agent calc_script) "calc" "add"
                  eq_refl eq_refl)).
Defined.

(** C5 as stated fails: a provider name that contains the separator, or
    that ends in an underscore, is not given back, although the local
    name contains no separator. *)
Lemma C5_counterexample :
  strings_Index "tool" "__" = -1
  /\ split_tool_name ("a__b" +++ "__" +++ "tool") = Normal ("a", "b__tool")
  /\ split_tool_name ("a_" +++ "__" +++ "tool") = Normal ("a", "_tool").
Proof. repeat split; reflexivity. Qed.

(** ** The Response Classifier *)


Example C6_streaming_example :
  sent (trace_of
          (for_each (env := scripted calc_script)
             [Json.text "['tool_call_delta']"; "Hel";
              Json.text "{'choices':[{'tool_calls':[{'id':'call_1'}]}]}";
              Json.text "{'choices':[{'content':'Hi'}]}"; "lo"]
             first_streamingFunc 0%nat))
  = ["Hel"; Json.text "{'choices':[{'content':'Hi'}]}"; "lo"].
Proof. vm_compute. reflexivity. Qed.

(** ** The blocking loop without tool calls *)

(** C2.  For every first LLM response with zero tool calls, GenerateContent
    (both variants) performs exactly that one LLM call and nothing else,
    and returns the content of the response unchanged. *)
Theorem C2_no_tool_calls {env : Env} (m : MCPAgent) (prompt : string)
    (addNotFinalResponses : bool) (w w1 : World) (chunks : list string)
    (resp : ContentResponse) (choice0 : ContentChoice)
    (rest : list ContentChoice) :
  llm_GenerateContent w (LLMModel m) [human_message prompt]
    (ExtractToolsFromAgent m) false = (w1, chunks, inr resp) ->
  Choices resp = choice0 :: rest ->
  ToolCalls choice0 = [] ->
  GenerateContent m prompt addNotFinalResponses w
  = (w1,
     [EvGenerate [human_message prompt] (ExtractToolsFromAgent m) false (inr resp)],
     Normal (Choice_Content choice0))
  /\ GenerateContent0 m prompt w
     = (w1,
        [EvGenerate [human_message prompt] (ExtractToolsFromAgent m) false (inr resp)],
        Normal (Choice_Content choice0)).
Proof.
  intros Hllm Hc Ht. split.
  - unfold GenerateContent. unfold bind at 1.
    rewrite (LLM_GenerateContent_blocking _ _ _ _ _ _ _ Hllm).
    unfold bind, lift. rewrite Hc. cbn [index0]. rewrite Ht. reflexivity.
  - unfold GenerateContent0. unfold bind at 1.
    rewrite (LLM_GenerateContent_blocking _ _ _ _ _ _ _ Hllm).
    unfold bind, lift. rewrite Hc. cbn [index0]. rewrite Ht. reflexivity.
Qed.

Lemma C2_witness :
  GenerateContent (calc_agent plain_script) "Say hello" true 0%nat
  = (1%nat,
     [EvGenerate [human_message "Say hello"]
        (ExtractToolsFromAgent (calc_agent plain_script)) false
        (inr (response "Hello" []))],
     Normal "Hello").
Proof.
  apply (proj1 (C2_no_tool_calls (calc_agent plain_script) "Say hello" true
                  0%nat 1%nat ["Hel"; "lo"] (response "Hello" [])
                  {| Choice_Content := "Hello"; ToolCalls := [] |} []
                  eq_refl eq_refl eq_refl)).
Defined.

(** ** Traces and the state machine of a turn *)
Section Phases.

Context {env : Env}.

Lemma phase_run_app (p : phase) (a b : list event) :
  phase_run p (a ++ b)
  = match phase_run p a with
    | Some q => phase_run q b
    | None => None
    end.
Proof.
  revert p; induction a as [|e a IH]; intros p; [reflexivity|].
  cbn [phase_run app]. destruct (phase_step p e); [apply IH | reflexivity].
Qed.

Lemma phase_run_sends (p : phase) (l : list string) :
  phase_run p (map EvSend l) = Some p.
Proof. induction l as [|x l IH]; [reflexivity | exact IH]. Qed.

(** Each LLM call moves the turn one phase forward. *)
Lemma phase_run_rank (t : list event) (p q : phase) :
  phase_run p t = Some q -> rank q = (rank p + generate_count t)%nat.
Proof.
  revert p; induction t as [|e t IH]; intros p H.
  - inversion H. unfold generate_count. simpl. lia.
  - cbn [phase_run] in H.
    destruct (phase_step p e) as [p'|] eqn:Hs; [|discriminate].
    specialize (IH p' H). rewrite IH. unfold generate_count.
    destruct e, p; cbn in Hs; inversion Hs; subst; cbn; lia.
Qed.

(** Once the turn is done, nothing is called. *)
Lemma phase_run_done (t : list event) (q : phase) :
  phase_run DONE t = Some q -> Forall (fun e => is_call e = false) t.
Proof.
  revert q; induction t as [|e t IH]; intros q H; [constructor|].
  cbn [phase_run] in H.
  destruct e; cbn in H; try discriminate;
    (constructor; [reflexivity | eapply IH; exact H]).
Qed.

(** A trace that the state machine accepts holds one round at most. *)
Lemma accepted_one_round (t : list event) (q : phase) :
  phase_run AWAIT_FIRST_RESPONSE t = Some q -> one_round t.
Proof.
  intros H. split.
  - pose proof (phase_run_rank t _ _ H) as Hr. cbn [rank] in Hr.
    destruct q; cbn in Hr; lia.
  - intros pre post -> Hcount. rewrite phase_run_app in H.
    destruct (phase_run AWAIT_FIRST_RESPONSE pre) as [p|] eqn:Hp; [|discriminate].
    pose proof (phase_run_rank pre _ _ Hp) as Hr. cbn [rank] in Hr.
    rewrite Hcount in Hr.
    destruct p; cbn in Hr; try lia.
    eapply phase_run_done. exact H.
Qed.

Lemma clean_app (a b : list event) : clean a -> clean b -> clean (a ++ b).
Proof. intros Ha Hb. apply Forall_app. split; assumption. Qed.

Lemma ends_well_prepend {A : Type} (t1 t2 : list event) (o : outcome A) :
  clean t1 -> ends_well t2 o -> ends_well (t1 ++ t2) o.
Proof.
  intros H1 H2. destruct H2 as [t a Hc|pre e err Hc He|t r Hc].
  - apply ends_normal. apply clean_app; assumption.
  - rewrite app_assoc. apply ends_error; [apply clean_app; assumption | exact He].
  - apply ends_runtime. apply clean_app; assumption.
Qed.

Lemma last_event_split (pre0 pre post : list event) (e ev : event) :
  pre0 ++ [e] = pre ++ ev :: post ->
  (post = [] /\ e = ev) \/ In ev pre0.
Proof.
  revert pre; induction pre0 as [|x pre0 IH]; intros pre H.
  - destruct pre as [|y pre]; cbn in H.
    + inversion H. left. split; reflexivity.
    + inversion H. destruct pre; discriminate.
  - destruct pre as [|y pre]; cbn in H.
    + inversion H. right. left. reflexivity.
    + inversion H. destruct (IH pre H2) as [Hl|Hr]; [left; exact Hl | right; right; exact Hr].
Qed.

Lemma clean_no_error (t pre post : list event) (ev : event) (err : error) :
  clean t -> t = pre ++ ev :: post -> event_error ev = Some err -> False.
Proof.
  intros Hc -> He. apply Forall_app in Hc. destruct Hc as [_ Hc].
  inversion Hc as [|x l Hx Hl]. congruence.
Qed.

(** A turn that ends well aborts on the first error. *)
Lemma ends_well_aborts {A : Type} (r : World * list event * outcome A) :
  ends_well (trace_of r) (outcome_of r) -> aborts_on_first_error r.
Proof.
  intros H pre ev post err Ht He.
  inversion H as [t a Hc Heq1 Heq2|pre0 e err0 Hc He0 Heq1 Heq2|t r0 Hc Heq1 Heq2].
  - exfalso. eapply clean_no_error; [exact Hc | | exact He].
    rewrite Heq1. exact Ht.
  - rewrite Ht in Heq1.
    destruct (last_event_split _ _ _ _ _ Heq1) as [[Hpost Hev]|Hin].
    + subst. split; [reflexivity|]. congruence.
    + exfalso. unfold clean in Hc. rewrite Forall_forall in Hc.
      specialize (Hc ev Hin). congruence.
  - exfalso. eapply clean_no_error; [exact Hc | | exact He].
    rewrite Heq1. exact Ht.
Qed.

(** *** The effects of a call of [ExecuteTool] *)

Lemma ExecuteTool_effects (m : MCPAgent) (toolName args : string) (w : World) :
  phase_run EXECUTING_TOOLS (trace_of (ExecuteTool m toolName args w))
  = Some EXECUTING_TOOLS
  /\ generate_count (trace_of (ExecuteTool m toolName args w)) = 0%nat
  /\ sent (trace_of (ExecuteTool m toolName args w)) = []
  /\ sent_messages (trace_of (ExecuteTool m toolName args w)) = []
  /\ match outcome_of (ExecuteTool m toolName args w) with
     | Normal (toolRes, None) =>
         clean (trace_of (ExecuteTool m toolName args w))
         /\ executed (trace_of (ExecuteTool m toolName args w)) = [(toolName, args)]
         /\ tool_results (trace_of (ExecuteTool m toolName args w)) = [toolRes]
     | Normal (_, Some err) =>
         exists pre e,
           trace_of (ExecuteTool m toolName args w) = pre ++ [e]
           /\ clean pre /\ event_error e = Some err
     | Panicked p =>
         trace_of (ExecuteTool m toolName args w) = []
         /\ p = PanicRuntime SliceBoundsOutOfRange
     end.
Proof.
  destruct (ExecuteTool_shape m toolName args w)
    as [(w1 & pre & r & Hrun & Hpre)|Hrun]; rewrite Hrun;
    cbn [trace_of outcome_of fst snd].
  - destruct r as [toolRes [err|]];
      destruct Hpre as [->|(srv & req & res & ->)]; cbn;
      repeat split; try reflexivity;
      try (repeat constructor; fail).
    + exists [], (EvExecuteTool toolName args (toolRes, Some err)).
      repeat split; constructor.
    + exists [EvCallTool srv req res],
        (EvExecuteTool toolName args (toolRes, Some err)).
      repeat split; repeat constructor.
  - repeat split; reflexivity.
Qed.

End Phases.

(** ** The tool loops *)
Section Loops.

Context {env : Env}.

Lemma accepts_bind {A B : Type} (p q : phase) (m : M A) (k : A -> M B) (w : World) :
  phase_run p (trace_of (m w)) = Some q ->
  (forall a w1, accepts q (k a w1)) ->
  accepts p (bind m k w).
Proof.
  intros Hm Hk. unfold bind, accepts.
  destruct (m w) as [[w1 t1] [a|pv]]; cbn [trace_of fst snd] in *.
  - destruct (Hk a w1) as [q' Hq'].
    destruct (k a w1) as [[w2 t2] o2]; cbn [trace_of fst snd] in *.
    exists q'. rewrite phase_run_app, Hm. exact Hq'.
  - exists q. exact Hm.
Qed.

Lemma stays_bind {A B : Type} (p : phase) (m : M A) (k : A -> M B) (w : World) :
  phase_run p (trace_of (m w)) = Some p ->
  (forall a w1, phase_run p (trace_of (k a w1)) = Some p) ->
  phase_run p (trace_of (bind m k w)) = Some p.
Proof.
  intros Hm Hk. unfold bind.
  destruct (m w) as [[w1 t1] [a|pv]]; cbn [trace_of fst snd] in *.
  - specialize (Hk a w1).
    destruct (k a w1) as [[w2 t2] o2]; cbn [trace_of fst snd] in *.
    rewrite phase_run_app, Hm. exact Hk.
  - exact Hm.
Qed.

Lemma ends_well_bind {A B : Type} (m : M A) (k : A -> M B) (w : World) :
  ends_well (trace_of (m w)) (outcome_of (m w)) ->
  (forall a w1, ends_well (trace_of (k a w1)) (outcome_of (k a w1))) ->
  ends_well (trace_of (bind m k w)) (outcome_of (bind m k w)).
Proof.
  intros Hm Hk. unfold bind.
  destruct (m w) as [[w1 t1] [a|pv]]; cbn [trace_of outcome_of fst snd] in *.
  - specialize (Hk a w1).
    destruct (k a w1) as [[w2 t2] o2]; cbn [trace_of outcome_of fst snd] in *.
    apply ends_well_prepend; [|exact Hk].
    inversion Hm. assumption.
  - inversion Hm; subst; [apply ends_error | apply ends_runtime]; assumption.
Qed.

(** A call of the LLM without streaming function has one effect. *)
Lemma LLM_GenerateContent_blocking_run (model : Model)
    (msgs : list MessageContent) (tools : list llms_Tool) (w : World) :
  exists w1 res,
    LLM_GenerateContent model msgs tools None w
    = (w1, [EvGenerate msgs tools false res], Normal res).
Proof.
  destruct (llm_GenerateContent w model msgs tools false) as [[w1 chunks] res] eqn:H.
  exists w1, res. eapply LLM_GenerateContent_blocking. exact H.
Qed.

(** *** One iteration *)

Lemma tool_step_returns (m : MCPAgent) (flag : bool) (tc : ToolCall)
    (msgs : list MessageContent) (response : string) (w w1 : World)
    (t : list event) (toolRes : string) :
  ExecuteTool m (tool_name tc) (tool_arguments tc) w = (w1, t, Normal (toolRes, None)) ->
  exists marker,
    tool_response_marker (tool_name tc) toolRes = Normal marker
    /\ tool_step m flag tc msgs response w
       = (w1, t,
          Normal (msgs ++ [ai_message tc; tool_message tc toolRes],
                  if flag
                  then (response +++ tool_usage_marker (tool_name tc)) +++ marker
                  else response)).
Proof.
  intros H.
  destruct (tool_response_marker_returns (tool_name tc) toolRes) as [marker Hm].
  exists marker. split; [exact Hm|].
  unfold tool_step, bind, lift, ret. rewrite H.
  destruct flag; [rewrite Hm|]; cbn [fst snd];
    rewrite ?app_nil_r, <- app_assoc; reflexivity.
Qed.

Lemma tool_step_error (m : MCPAgent) (flag : bool) (tc : ToolCall)
    (msgs : list MessageContent) (response : string) (w w1 : World)
    (t : list event) (s : string) (err : error) :
  ExecuteTool m (tool_name tc) (tool_arguments tc) w = (w1, t, Normal (s, Some err)) ->
  tool_step m flag tc msgs response w = (w1, t, Panicked (PanicErr err)).
Proof.
  intros H. unfold tool_step, bind, panic. rewrite H.
  rewrite app_nil_r. reflexivity.
Qed.

Lemma tool_step_panics (m : MCPAgent) (flag : bool) (tc : ToolCall)
    (msgs : list MessageContent) (response : string) (w w1 : World)
    (t : list event) (p : panic_value) :
  ExecuteTool m (tool_name tc) (tool_arguments tc) w = (w1, t, Panicked p) ->
  tool_step m flag tc msgs response w = (w1, t, Panicked p).
Proof. intros H. unfold tool_step, bind. rewrite H. reflexivity. Qed.

Lemma tool_step_sound (m : MCPAgent) (flag : bool) (tc : ToolCall)
    (msgs : list MessageContent) (response : string) (w : World) :
  phase_run EXECUTING_TOOLS (trace_of (tool_step m flag tc msgs response w))
  = Some EXECUTING_TOOLS
  /\ ends_well (trace_of (tool_step m flag tc msgs response w))
       (outcome_of (tool_step m flag tc msgs response w)).
Proof.
  pose proof (ExecuteTool_effects m (tool_name tc) (tool_arguments tc) w)
    as (Hph & _ & _ & _ & Hout).
  destruct (ExecuteTool m (tool_name tc) (tool_arguments tc) w)
    as [[w1 t] [[toolRes [err|]]|p]] eqn:Hex; cbn [trace_of outcome_of fst snd] in *.
  - rewrite (tool_step_error m flag tc msgs response w w1 t toolRes err Hex).
    cbn [trace_of outcome_of fst snd]. split; [exact Hph|].
    destruct Hout as (pre & e & -> & Hc & He). apply ends_error; assumption.
  - destruct (tool_step_returns m flag tc msgs response w w1 t toolRes Hex)
      as (marker & _ & ->).
    cbn [trace_of outcome_of fst snd]. split; [exact Hph|].
    apply ends_normal. apply Hout.
  - rewrite (tool_step_panics m flag tc msgs response w w1 t p Hex).
    cbn [trace_of outcome_of fst snd]. split; [exact Hph|].
    destruct Hout as [-> ->]. apply ends_runtime. constructor.
Qed.

Lemma tool_loop_sound (m : MCPAgent) (flag : bool) (tcs : list ToolCall)
    (msgs : list MessageContent) (response : string) (w : World) :
  phase_run EXECUTING_TOOLS (trace_of (tool_loop m flag tcs msgs response w))
  = Some EXECUTING_TOOLS
  /\ ends_well (trace_of (tool_loop m flag tcs msgs response w))
       (outcome_of (tool_loop m flag tcs msgs response w)).
Proof.
  revert msgs response w; induction tcs as [|tc tcs IH]; intros msgs response w.
  - split; [reflexivity | apply ends_normal; constructor].
  - cbn [tool_loop]. split.
    + apply stays_bind; [apply tool_step_sound | intros st w1; apply IH].
    + apply ends_well_bind; [apply tool_step_sound | intros st w1; apply IH].
Qed.

(** *** The loop when every tool returns *)

Lemma execute_all_facts (m : MCPAgent) (tcs : list ToolCall) (w w2 : World)
    (t : list event) (results : list string) :
  execute_all m tcs w = Some (w2, t, results) ->
  executed t = map (fun tc => (tool_name tc, tool_arguments tc)) tcs
  /\ tool_results t = results
  /\ length results = length tcs
  /\ generate_count t = 0%nat
  /\ clean t.
Proof.
  revert w w2 t results; induction tcs as [|tc tcs IH]; intros w w2 t results H.
  - inversion H. repeat split; constructor.
  - cbn [execute_all] in H.
    pose proof (ExecuteTool_effects m (tool_name tc) (tool_arguments tc) w)
      as (_ & Hg & _ & _ & Hout).
    destruct (ExecuteTool m (tool_name tc) (tool_arguments tc) w)
      as [[w1 t1] [[toolRes [err|]]|p]]; try discriminate.
    cbn [trace_of outcome_of fst snd] in *.
    destruct (execute_all m tcs w1) as [[[w3 t3] rs]|] eqn:Hrest; [|discriminate].
    inversion H; subst. destruct (IH _ _ _ _ Hrest) as (He & Hr & Hl & Hg3 & Hc3).
    destruct Hout as (Hc1 & He1 & Hr1).
    assert (Happ_e : forall a b, executed (a ++ b) = executed a ++ executed b).
    { induction a as [|x a IHa]; intros b; [reflexivity|].
      destruct x; cbn; rewrite ?IHa; reflexivity. }
    assert (Happ_r : forall a b, tool_results (a ++ b) = tool_results a ++ tool_results b).
    { induction a as [|x a IHa]; intros b; [reflexivity|].
      destruct x as [| |? ? [? [?|]]| | | |]; cbn; rewrite ?IHa; reflexivity. }
    rewrite Happ_e, Happ_r, He1, Hr1, He, Hr. cbn.
    repeat split.
    + rewrite Hl. reflexivity.
    + unfold generate_count in *. rewrite filter_app, length_app. lia.
    + apply clean_app; assumption.
Qed.

Lemma tool_loop_execute_all (m : MCPAgent) (flag : bool) (tcs : list ToolCall)
    (msgs : list MessageContent) (response : string) (w w2 : World)
    (t : list event) (results : list string) :
  execute_all m tcs w = Some (w2, t, results) ->
  exists response',
    tool_loop m flag tcs msgs response w
    = (w2, t, Normal (msgs ++ pair_messages tcs results, response')).
Proof.
  revert msgs response w w2 t results;
    induction tcs as [|tc tcs IH]; intros msgs response w w2 t results H.
  - inversion H. exists response. cbn. rewrite app_nil_r. reflexivity.
  - cbn [execute_all] in H.
    destruct (ExecuteTool m (tool_name tc) (tool_arguments tc) w)
      as [[w1 t1] [[toolRes [err|]]|p]] eqn:Hex; try discriminate.
    destruct (execute_all m tcs w1) as [[[w3 t3] rs]|] eqn:Hrest; [|discriminate].
    inversion H; subst.
    destruct (tool_step_returns m flag tc msgs response w w1 t1 toolRes Hex)
      as (marker & _ & Hstep).
    destruct (IH (msgs ++ [ai_message tc; tool_message tc toolRes])
                (if flag
                 then (response +++ tool_usage_marker (tool_name tc)) +++ marker
                 else response) w1 w2 t3 rs Hrest) as (response' & Hloop).
    exists response'. cbn [tool_loop].
    rewrite (bind_normal _ _ _ _ _ _ Hstep). cbn [fst snd].
    rewrite Hloop. cbn [world_of trace_of outcome_of fst snd pair_messages].
    rewrite <- app_assoc. reflexivity.
Qed.

(** *** The loop of agent/agent.go *)

Lemma tool_step0_sound (m : MCPAgent) (tc : ToolCall)
    (msgs : list MessageContent) (w : World) :
  phase_run EXECUTING_TOOLS (trace_of (tool_step0 m tc msgs w))
  = Some EXECUTING_TOOLS
  /\ ends_well (trace_of (tool_step0 m tc msgs w))
       (outcome_of (tool_step0 m tc msgs w)).
Proof.
  pose proof (ExecuteTool_effects m (tool_name tc) (tool_arguments tc) w)
    as (Hph & _ & _ & _ & Hout).
  unfold tool_step0, bind, emit, panic, ret.
  destruct (ExecuteTool m (tool_name tc) (tool_arguments tc) w)
    as [[w1 t] [[toolRes [err|]]|p]]; cbn [trace_of outcome_of fst snd app] in *.
  - rewrite app_nil_r. split; [exact Hph|].
    destruct Hout as (pre & e & -> & Hc & He).
    apply (ends_error (EvPrint _ :: pre)); [constructor; [reflexivity | exact Hc] | exact He].
  - rewrite app_nil_r. split; [exact Hph|].
    apply ends_normal. constructor; [reflexivity | apply Hout].
  - split; [exact Hph|]. destruct Hout as [-> ->].
    apply ends_runtime. repeat constructor.
Qed.

Lemma tool_loop0_sound (m : MCPAgent) (tcs : list ToolCall)
    (msgs : list MessageContent) (w : World) :
  phase_run EXECUTING_TOOLS (trace_of (tool_loop0 m tcs msgs w))
  = Some EXECUTING_TOOLS
  /\ ends_well (trace_of (tool_loop0 m tcs msgs w))
       (outcome_of (tool_loop0 m tcs msgs w)).
Proof.
  revert msgs w; induction tcs as [|tc tcs IH]; intros msgs w.
  - split; [reflexivity | apply ends_normal; constructor].
  - cbn [tool_loop0]. split.
    + apply stays_bind; [apply tool_step0_sound | intros st w1; apply IH].
    + apply ends_well_bind; [apply tool_step0_sound | intros st w1; apply IH].
Qed.

(** *** The loop of the streaming mode *)

Lemma streaming_tool_step_returns (m : MCPAgent) (flag : bool) (tc : ToolCall)
    (msgs : list MessageContent) (w w1 : World) (t : list event)
    (toolRes : string) :
  ExecuteTool m (tool_name tc) (tool_arguments tc) w = (w1, t, Normal (toolRes, None)) ->
  exists marker,
    tool_response_marker (tool_name tc) toolRes = Normal marker
    /\ streaming_tool_step m flag tc msgs w
       = (w1,
          (if flag then [EvSend (tool_usage_marker (tool_name tc))] else [])
            ++ t ++ (if flag then [EvSend marker] else []),
          Normal (Some (msgs ++ [ai_message tc; tool_message tc toolRes]))).
Proof.
  intros H.
  destruct (tool_response_marker_returns (tool_name tc) toolRes) as [marker Hm].
  exists marker. split; [exact Hm|].
  unfold streaming_tool_step, bind, lift, ret, emit.
  destruct flag; rewrite H; [rewrite Hm|]; cbn [fst snd app];
    rewrite ?app_nil_r, <- ?app_assoc; reflexivity.
Qed.

Lemma streaming_tool_step_phase (m : MCPAgent) (flag : bool) (tc : ToolCall)
    (msgs : list MessageContent) (w : World) :
  phase_run EXECUTING_TOOLS (trace_of (streaming_tool_step m flag tc msgs w))
  = Some EXECUTING_TOOLS.
Proof.
  unfold streaming_tool_step.
  apply stays_bind; [destruct flag; reflexivity|]. intros _ w1.
  apply stays_bind; [apply ExecuteTool_effects|]. intros [toolRes [err|]] w2.
  - reflexivity.
  - destruct flag; [|reflexivity].
    unfold bind, lift, emit, ret.
    destruct (tool_response_marker (tool_name tc) toolRes); reflexivity.
Qed.

Lemma streaming_tool_loop_phase (m : MCPAgent) (flag : bool)
    (tcs : list ToolCall) (msgs : list MessageContent) (w : World) :
  phase_run EXECUTING_TOOLS (trace_of (streaming_tool_loop m flag tcs msgs w))
  = Some EXECUTING_TOOLS.
Proof.
  revert msgs w; induction tcs as [|tc tcs IH]; intros msgs w; [reflexivity|].
  cbn [streaming_tool_loop].
  apply stays_bind; [apply streaming_tool_step_phase|].
  intros [msgs'|] w1; [apply IH | reflexivity].
Qed.

End Loops.

(** ** A whole turn *)
Section Turn.

Context {env : Env}.

Lemma index0_ends_well {A : Type} (l : list A) (w : World) :
  ends_well (trace_of (lift (index0 l) w)) (outcome_of (lift (index0 l) w)).
Proof.
  destruct l; [apply ends_runtime | apply ends_normal]; constructor.
Qed.

(** The pattern [resp, err := LLM.GenerateContent(...); if err != nil
    { panic(err) }; ...]. *)
Lemma ends_well_llm {B : Type} (model : Model) (msgs : list MessageContent)
    (tools : list llms_Tool) (k : ContentResponse -> M B) (w : World) :
  (forall resp w1, ends_well (trace_of (k resp w1)) (outcome_of (k resp w1))) ->
  ends_well
    (trace_of (bind (LLM_GenerateContent model msgs tools None)
                 (fun r => match r with
                           | inl err => panic (PanicErr err)
                           | inr resp => k resp
                           end) w))
    (outcome_of (bind (LLM_GenerateContent model msgs tools None)
                   (fun r => match r with
                             | inl err => panic (PanicErr err)
                             | inr resp => k resp
                             end) w)).
Proof.
  intros Hk.
  destruct (LLM_GenerateContent_blocking_run model msgs tools w) as (w1 & res & H).
  rewrite (bind_normal _ _ _ _ _ _ H). cbn [trace_of outcome_of fst snd].
  destruct res as [err|resp].
  - cbn. apply (ends_error [] _ err); [constructor | reflexivity].
  - apply (ends_well_prepend [_]); [|apply Hk].
    constructor; [reflexivity | constructor].
Qed.

Lemma GenerateContent_ends_well (m : MCPAgent) (prompt : string) (flag : bool)
    (w : World) :
  ends_well (trace_of (GenerateContent m prompt flag w))
    (outcome_of (GenerateContent m prompt flag w)).
Proof.
  unfold GenerateContent. apply ends_well_llm. intros resp w1.
  apply ends_well_bind; [apply index0_ends_well|]. intros choice0 w2.
  destruct (0 <? Z.of_nat (length (ToolCalls choice0))).
  - apply ends_well_bind; [apply tool_loop_sound|]. intros st w3.
    apply ends_well_llm. intros resp2 w4.
    apply ends_well_bind; [apply index0_ends_well|]. intros choice w5.
    apply ends_normal. constructor.
  - apply ends_well_bind; [apply index0_ends_well|]. intros choice w3.
    apply ends_normal. constructor.
Qed.

Lemma GenerateContent0_ends_well (m : MCPAgent) (prompt : string) (w : World) :
  ends_well (trace_of (GenerateContent0 m prompt w))
    (outcome_of (GenerateContent0 m prompt w)).
Proof.
  unfold GenerateContent0. apply ends_well_llm. intros resp w1.
  apply ends_well_bind; [apply index0_ends_well|]. intros choice0 w2.
  destruct (0 <? Z.of_nat (length (ToolCalls choice0))).
  - apply ends_well_bind; [apply tool_loop0_sound|]. intros st w3.
    apply ends_well_llm. intros resp2 w4.
    apply ends_well_bind; [apply index0_ends_well|]. intros choice w5.
    apply ends_normal. constructor.
  - apply ends_well_bind; [apply index0_ends_well|]. intros choice w3.
    apply ends_normal. constructor.
Qed.

(** *** The turn follows the state machine *)

Lemma accepts_ret {A : Type} (p : phase) (a : A) (w : World) : accepts p (ret a w).
Proof. exists p. reflexivity. Qed.

Lemma accepts_panic {A : Type} (p : phase) (pv : panic_value) (w : World) :
  accepts p (panic (A := A) pv w).
Proof. exists p. reflexivity. Qed.

Lemma accepts_lift_then {A B : Type} (p : phase) (o : outcome A) (k : A -> M B)
    (w : World) :
  (forall a w1, accepts p (k a w1)) -> accepts p (bind (lift o) k w).
Proof. intros H. eapply accepts_bind; [reflexivity | exact H]. Qed.

(** A blocking LLM call moves the turn to the next phase. *)
Lemma accepts_llm {B : Type} (p q : phase) (model : Model)
    (msgs : list MessageContent) (tools : list llms_Tool)
    (k : error + ContentResponse -> M B) (w : World) :
  (forall res, phase_step p (EvGenerate msgs tools false res) = Some q) ->
  (forall r w1, accepts q (k r w1)) ->
  accepts p (bind (LLM_GenerateContent model msgs tools None) k w).
Proof.
  intros Hstep Hk.
  destruct (LLM_GenerateContent_blocking_run model msgs tools w) as (w1 & res & H).
  eapply accepts_bind; [|exact Hk].
  rewrite H. cbn [trace_of fst snd phase_run]. rewrite Hstep. reflexivity.
Qed.

(** A streaming LLM call does the same; its fragments change nothing. *)
Lemma accepts_llm_streaming {B : Type} (p q : phase) (model : Model)
    (msgs : list MessageContent) (tools : list llms_Tool)
    (f : string -> M unit) (k : error + ContentResponse -> M B) (w : World) :
  f = first_streamingFunc \/ f = final_streamingFunc ->
  (forall res, phase_step p (EvGenerate msgs tools true res) = Some q) ->
  (forall r w1, accepts q (k r w1)) ->
  accepts p (bind (LLM_GenerateContent model msgs tools (Some f)) k w).
Proof.
  intros Hf Hstep Hk.
  destruct (llm_GenerateContent w model msgs tools true) as [[w1 chunks] res] eqn:H.
  eapply accepts_bind; [|exact Hk].
  destruct Hf as [-> | ->].
  - rewrite (LLM_GenerateContent_first _ _ _ _ _ _ _ H).
    cbn [trace_of fst snd]. rewrite phase_run_app, phase_run_sends.
    cbn [phase_run]. rewrite Hstep. reflexivity.
  - rewrite (LLM_GenerateContent_final _ _ _ _ _ _ _ H).
    cbn [trace_of fst snd]. rewrite phase_run_app, phase_run_sends.
    cbn [phase_run]. rewrite Hstep. reflexivity.
Qed.

Lemma GenerateContent_accepted (m : MCPAgent) (prompt : string) (flag : bool)
    (w : World) :
  accepts AWAIT_FIRST_RESPONSE (GenerateContent m prompt flag w).
Proof.
  unfold GenerateContent.
  apply (accepts_llm AWAIT_FIRST_RESPONSE EXECUTING_TOOLS); [reflexivity|].
  intros [err|resp] w1; [apply accepts_panic|].
  apply accepts_lift_then. intros choice0 w2.
  destruct (0 <? Z.of_nat (length (ToolCalls choice0))).
  - eapply accepts_bind; [apply tool_loop_sound|]. intros st w3.
    apply (accepts_llm EXECUTING_TOOLS DONE); [reflexivity|].
    intros [err|resp2] w4; [apply accepts_panic|].
    apply accepts_lift_then. intros choice w5. apply accepts_ret.
  - apply accepts_lift_then. intros choice w3. apply accepts_ret.
Qed.

Lemma GenerateContent0_accepted (m : MCPAgent) (prompt : string) (w : World) :
  accepts AWAIT_FIRST_RESPONSE (GenerateContent0 m prompt w).
Proof.
  unfold GenerateContent0.
  apply (accepts_llm AWAIT_FIRST_RESPONSE EXECUTING_TOOLS); [reflexivity|].
  intros [err|resp] w1; [apply accepts_panic|].
  apply accepts_lift_then. intros choice0 w2.
  destruct (0 <? Z.of_nat (length (ToolCalls choice0))).
  - eapply accepts_bind; [apply tool_loop0_sound|]. intros st w3.
    apply (accepts_llm EXECUTING_TOOLS DONE); [reflexivity|].
    intros [err|resp2] w4; [apply accepts_panic|].
    apply accepts_lift_then. intros choice w5. apply accepts_ret.
  - apply accepts_lift_then. intros choice w3. apply accepts_ret.
Qed.

Lemma accepts_emit (p : phase) (fragment : string) (w : World) :
  accepts p (emit (EvSend fragment) w).
Proof. exists p. reflexivity. Qed.

Lemma GenerateContentAsStreaming_accepted (m : MCPAgent) (prompt : string)
    (flag : bool) (w : World) :
  accepts AWAIT_FIRST_RESPONSE (GenerateContentAsStreaming m prompt flag w).
Proof.
  assert (H : accepts AWAIT_FIRST_RESPONSE (streaming_body m prompt flag w)).
  { unfold streaming_body.
    apply (accepts_llm_streaming AWAIT_FIRST_RESPONSE EXECUTING_TOOLS);
      [left; reflexivity | reflexivity |].
    intros [err|resp] w1; [apply accepts_emit|].
    destruct (has_tool_calls resp); [|apply accepts_ret].
    apply accepts_lift_then. intros choice0 w2.
    eapply accepts_bind; [apply streaming_tool_loop_phase|].
    intros [msgs'|] w3; [|apply accepts_ret].
    apply (accepts_llm_streaming EXECUTING_TOOLS DONE);
      [right; reflexivity | reflexivity |].
    intros [err|resp2] w4; [apply accepts_emit | apply accepts_ret]. }
  destruct H as [q Hq]. exists q.
  unfold GenerateContentAsStreaming, deferred_close.
  destruct (streaming_body m prompt flag w) as [[w1 t] o].
  cbn [trace_of fst snd] in *. rewrite phase_run_app, Hq. reflexivity.
Qed.

End Turn.

(** C3.  In every turn, blocking (both variants) or streaming, at most one
    round of tool calls is performed: there are at most two LLM calls, and
    once the second LLM call has returned, whatever its response asks
    for, no tool is executed, no provider is called and no further LLM
    call is made. *)
Theorem C3_at_most_one_round {env : Env} (m : MCPAgent) (prompt : string)
    (addNotFinalResponses : bool) (w : World) :
  one_round (trace_of (GenerateContent m prompt addNotFinalResponses w))
  /\ one_round (trace_of (GenerateContent0 m prompt w))
  /\ one_round (trace_of (GenerateContentAsStreaming m prompt addNotFinalResponses w)).
Proof.
  split; [|split].
  - destruct (GenerateContent_accepted m prompt addNotFinalResponses w) as [q H].
    eapply accepted_one_round. exact H.
  - destruct (GenerateContent0_accepted m prompt w) as [q H].
    eapply accepted_one_round. exact H.
  - destruct (GenerateContentAsStreaming_accepted m prompt addNotFinalResponses w)
      as [q H].
    eapply accepted_one_round. exact H.
Qed.

(** The final response asks for a second tool: it is not executed. *)
Example C3_second_round_example :
  executed (trace_of (GenerateContent (calc_agent second_round_script)
                        calc_prompt false 0%nat))
  = [("calc__add", Json.text "{'a':2,'b':2}")]
  /\ generate_count (trace_of (GenerateContent (calc_agent second_round_script)
                                 calc_prompt false 0%nat)) = 2%nat
  /\ outcome_of (GenerateContent (calc_agent second_round_script)
                   calc_prompt false 0%nat) = Normal "One more"
  /\ executed (trace_of (GenerateContentAsStreaming (calc_agent second_round_script)
                           calc_prompt false 0%nat))
     = [("calc__add", Json.text "{'a':2,'b':2}")].
Proof. repeat split; vm_compute; reflexivity. Qed.

(** C7, as amended.  In blocking mode (both variants), an LLM call that
    fails or a call of ExecuteTool that returns an error is the last event
    of the turn, and the turn ends in a panic that carries that error:
    nothing is returned to the caller. *)
Theorem C7_first_error_panics {env : Env} (m : MCPAgent) (prompt : string)
    (addNotFinalResponses : bool) (w : World) :
  aborts_on_first_error (GenerateContent m prompt addNotFinalResponses w)
  /\ aborts_on_first_error (GenerateContent0 m prompt w).
Proof.
  split; apply ends_well_aborts;
    [apply GenerateContent_ends_well | apply GenerateContent0_ends_well].
Qed.

Lemma C7_witness :
  outcome_of (GenerateContent (calc_agent bad_arguments_script) calc_prompt false 0%nat)
  = Panicked (PanicErr (Errorf_w "invalid JSON arguments: " (Err "invalid JSON text"))).
Proof.
  apply (proj1 (C7_first_error_panics (calc_agent bad_arguments_script)
                  calc_prompt false 0%nat)
           [EvGenerate [human_message calc_prompt]
              (ExtractToolsFromAgent (calc_agent bad_arguments_script)) false
              (inr (response EmptyString
                      [call "call_1" "calc__add" "a=2,b=2";
                       call "call_2" "calc__add" (Json.text "{'a':1,'b':1}")]))]
           (EvExecuteTool "calc__add" "a=2,b=2"
              (EmptyString,
               Some (Errorf_w "invalid JSON arguments: " (Err "invalid JSON text"))))
           []);
    reflexivity.
Defined.

(** C7 as stated fails: the failure of the LLM call is not returned to the
    caller, the call panics (and so does a failing tool). *)
Lemma C7_counterexample :
  GenerateContent (calc_agent failing_llm_script) calc_prompt false 0%nat
  = (1%nat,
     [EvGenerate [human_message calc_prompt]
        (ExtractToolsFromAgent (calc_agent failing_llm_script)) false
        (inl (Err "429 Too Many Requests"))],
     Panicked (PanicErr (Err "429 Too Many Requests")))
  /\ outcome_of (GenerateContent0 (calc_agent bad_arguments_script) calc_prompt 0%nat)
     = Panicked (PanicErr (Errorf_w "invalid JSON arguments: "
                             (Err "invalid JSON text"))).
Proof. split; reflexivity. Qed.

(** ** The blocking loop with tool calls *)

Lemma pair_messages_length (tcs : list ToolCall) (results : list string) :
  length results = length tcs ->
  length (pair_messages tcs results) = (2 * length tcs)%nat.
Proof.
  revert results; induction tcs as [|tc tcs IH]; intros [|r results] H;
    try discriminate; [reflexivity|].
  cbn [pair_messages length]. rewrite IH by (cbn in H; lia). lia.
Qed.

(** C1, as amended.  For every first LLM response with N >= 1 tool calls,
    provided each of the N calls of ExecuteTool returns without an error:
    GenerateContent executes exactly those N tool calls, in the order of
    the response, then makes exactly one more LLM call, and nothing else;
    that call receives the conversation extended by the N request/result
    pairs, 2N messages, each pair an AI message then a Tool message. *)
Theorem C1_tool_round {env : Env} (m : MCPAgent) (prompt : string)
    (addNotFinalResponses : bool) (w w1 w2 : World) (chunks : list string)
    (resp : ContentResponse) (choice0 : ContentChoice)
    (rest : list ContentChoice) (t : list event) (results : list string) :
  llm_GenerateContent w (LLMModel m) [human_message prompt]
    (ExtractToolsFromAgent m) false = (w1, chunks, inr resp) ->
  Choices resp = choice0 :: rest ->
  ToolCalls choice0 <> [] ->
  execute_all m (ToolCalls choice0) w1 = Some (w2, t, results) ->
  executed t = map (fun tc => (tool_name tc, tool_arguments tc)) (ToolCalls choice0)
  /\ generate_count t = 0%nat
  /\ tool_results t = results
  /\ length (pair_messages (ToolCalls choice0) results)
     = (2 * length (ToolCalls choice0))%nat
  /\ exists w3 chunks2 res2,
       llm_GenerateContent w2 (LLMModel m)
         ([human_message prompt] ++ pair_messages (ToolCalls choice0) results)
         (ExtractToolsFromAgent m) false = (w3, chunks2, res2)
       /\ world_of (GenerateContent m prompt addNotFinalResponses w) = w3
       /\ trace_of (GenerateContent m prompt addNotFinalResponses w)
          = EvGenerate [human_message prompt] (ExtractToolsFromAgent m) false
              (inr resp)
            :: t
            ++ [EvGenerate
                  ([human_message prompt]
                     ++ pair_messages (ToolCalls choice0) results)
                  (ExtractToolsFromAgent m) false res2].
Proof.
  intros Hllm Hc Hne Hall.
  destruct (execute_all_facts m _ _ _ _ _ Hall) as (He & Hr & Hl & Hg & _).
  split; [exact He|]. split; [exact Hg|]. split; [exact Hr|].
  split; [apply pair_messages_length; exact Hl|].
  destruct (llm_GenerateContent w2 (LLMModel m)
              ([human_message prompt] ++ pair_messages (ToolCalls choice0) results)
              (ExtractToolsFromAgent m) false) as [[w3 chunks2] res2] eqn:Hllm2.
  exists w3, chunks2, res2. split; [reflexivity|].
  destruct (tool_loop_execute_all m addNotFinalResponses (ToolCalls choice0)
              [human_message prompt] EmptyString w1 w2 t results Hall)
    as (response' & Hloop).
  unfold GenerateContent.
  rewrite (bind_normal _ _ _ _ _ _ (LLM_GenerateContent_blocking _ _ _ _ _ _ _ Hllm)).
  rewrite Hc. cbn [index0].
  rewrite (bind_normal (lift (Normal choice0)) _ w1 w1 [] choice0 eq_refl).
  replace (0 <? Z.of_nat (length (ToolCalls choice0))) with true
    by (symmetry; apply Z.ltb_lt; destruct (ToolCalls choice0);
        [contradiction | cbn [length]; lia]).
  rewrite (bind_normal _ _ _ _ _ _ Hloop). cbn [fst snd].
  rewrite (bind_normal _ _ _ _ _ _ (LLM_GenerateContent_blocking _ _ _ _ _ _ _ Hllm2)).
  destruct res2 as [err|resp2]; [|unfold bind, lift; destruct (Choices resp2)];
    cbn; rewrite ?app_nil_r; split; reflexivity.
Qed.

Lemma C1_witness :
  trace_of (GenerateContent (calc_agent calc_script) calc_prompt true 0%nat)
  = [EvGenerate [human_message calc_prompt]
       (ExtractToolsFromAgent (calc_agent calc_script)) false
       (inr (response EmptyString
               [call "call_1" "calc__add" (Json.text "{'a':2,'b':2}")]));
     EvCallTool (calc_server calc_script)
       {| Method := "tools/call"; Params_Name := "add";
          Params_Arguments := Some (Json.text "{'a':2,'b':2}") |}
       (inr "4");
     EvExecuteTool "calc__add" (Json.text "{'a':2,'b':2}") ("4", None);
     EvGenerate
       [human_message calc_prompt;
        ai_message (call "call_1" "calc__add" (Json.text "{'a':2,'b':2}"));
        tool_message (call "call_1" "calc__add" (Json.text "{'a':2,'b':2}")) "4"]
       (ExtractToolsFromAgent (calc_agent calc_script)) false
       (inr (response "The answer is 4." []))].
Proof.
  destruct (C1_tool_round (calc_agent calc_script) calc_prompt true
              0%nat 1%nat 1%nat []
              (response EmptyString
                 [call "call_1" "calc__add" (Json.text "{'a':2,'b':2}")])
              {| Choice_Content := EmptyString;
                 ToolCalls :=
                   [call "call_1" "calc__add" (Json.text "{'a':2,'b':2}")] |}
              []
              [EvCallTool (calc_server calc_script)
                 {| Method := "tools/call"; Params_Name := "add";
                    Params_Arguments := Some (Json.text "{'a':2,'b':2}") |}
                 (inr "4");
               EvExecuteTool "calc__add" (Json.text "{'a':2,'b':2}") ("4", None)]
              ["4"] eq_refl eq_refl
              (fun H => @eq_ind (list ToolCall)
                          [call "call_1" "calc__add" (Json.text "{'a':2,'b':2}")]
                          (fun l => match l with [] => False | _ :: _ => True end)
                          I [] H)
              eq_refl)
    as (_ & _ & _ & _ & w3 & chunks2 & res2 & Hllm & _ & Htrace).
  rewrite Htrace. inversion Hllm. reflexivity.
Defined.

(** C1 as stated fails: the first response asks for two tools, the
    arguments of the first are no JSON text; ExecuteTool is called once,
    not twice, and no further LLM call is made. *)
Lemma C1_counterexample :
  length (ToolCalls
            {| Choice_Content := EmptyString;
               ToolCalls := [call "call_1" "calc__add" "a=2,b=2";
                             call "call_2" "calc__add" (Json.text "{'a':1,'b':1}")] |})
  = 2%nat
  /\ GenerateContent (calc_agent bad_arguments_script) calc_prompt false 0%nat
     = (1%nat,
        [EvGenerate [human_message calc_prompt]
           (ExtractToolsFromAgent (calc_agent bad_arguments_script)) false
           (inr (response EmptyString
                   [call "call_1" "calc__add" "a=2,b=2";
                    call "call_2" "calc__add" (Json.text "{'a':1,'b':1}")]));
         EvExecuteTool "calc__add" "a=2,b=2"
           (EmptyString,
            Some (Errorf_w "invalid JSON arguments: " (Err "invalid JSON text")))],
        Panicked (PanicErr (Errorf_w "invalid JSON arguments: "
                              (Err "invalid JSON text"))))
  /\ executed (trace_of (GenerateContent (calc_agent bad_arguments_script)
                           calc_prompt false 0%nat))
     = [("calc__add", "a=2,b=2")]
  /\ generate_count (trace_of (GenerateContent (calc_agent bad_arguments_script)
                                 calc_prompt false 0%nat)) = 1%nat.
Proof. repeat split; reflexivity. Qed.

(** ** The display cap *)

(** C8.  For every executed tool call (a call of ExecuteTool that returns
    without an error), in the blocking and in the streaming loop: the Tool
    message appended to the conversation carries the result in full,
    whatever its length; and when the result is longer than 1000 bytes,
    the progress marker shows its first 1000 bytes followed by an
    ellipsis. *)
Theorem C8_truncation {env : Env} (m : MCPAgent) (tc : ToolCall)
    (msgs : list MessageContent) (response : string) (w w1 : World)
    (t : list event) (toolRes : string) :
  ExecuteTool m (tool_name tc) (tool_arguments tc) w = (w1, t, Normal (toolRes, None)) ->
  Parts (tool_message tc toolRes)
  = [ToolCallResponsePart {| ToolCallID := ToolCall_ID tc; Content := toolRes |}]
  /\ (forall flag, exists response',
        tool_step m flag tc msgs response w
        = (w1, t, Normal (msgs ++ [ai_message tc; tool_message tc toolRes], response')))
  /\ (forall flag,
        outcome_of (streaming_tool_step m flag tc msgs w)
        = Normal (Some (msgs ++ [ai_message tc; tool_message tc toolRes])))
  /\ (1000 < len toolRes ->
      tool_step m true tc msgs response w
      = (w1, t,
         Normal (msgs ++ [ai_message tc; tool_message tc toolRes],
                 (response +++ tool_usage_marker (tool_name tc))
                   +++ (LF +++ "[tool_response] " +++ tool_name tc +++ ": "
                          +++ (substring 0 1000 toolRes +++ "...")
                          +++ "]" +++ LF +++ LF)))
      /\ sent (trace_of (streaming_tool_step m true tc msgs w))
         = [tool_usage_marker (tool_name tc);
            LF +++ "[tool_response] " +++ tool_name tc +++ ": "
               +++ (substring 0 1000 toolRes +++ "...")
               +++ "]" +++ LF +++ LF]
      /\ String.length (substring 0 1000 toolRes) = 1000%nat).
Proof.
  intros Hex. split; [reflexivity|]. split; [|split].
  - intros flag.
    destruct (tool_step_returns m flag tc msgs response w w1 t toolRes Hex)
      as (marker & _ & H).
    eexists. exact H.
  - intros flag.
    destruct (streaming_tool_step_returns m flag tc msgs w w1 t toolRes Hex)
      as (marker & _ & H).
    rewrite H. reflexivity.
  - intros Hlen.
    assert (Hmarker :
      tool_response_marker (tool_name tc) toolRes
      = Normal (LF +++ "[tool_response] " +++ tool_name tc +++ ": "
                  +++ (substring 0 1000 toolRes +++ "...")
                  +++ "]" +++ LF +++ LF)).
    { unfold tool_response_marker. rewrite (msgToPrint_long toolRes Hlen).
      reflexivity. }
    split; [|split].
    + destruct (tool_step_returns m true tc msgs response w w1 t toolRes Hex)
        as (marker & Hm & H).
      rewrite Hmarker in Hm. inversion Hm; subst. exact H.
    + destruct (streaming_tool_step_returns m true tc msgs w w1 t toolRes Hex)
        as (marker & Hm & H).
      rewrite Hmarker in Hm. inversion Hm; subst. rewrite H.
      cbn [trace_of fst snd app sent].
      pose proof (ExecuteTool_effects m (tool_name tc) (tool_arguments tc) w)
        as (_ & _ & Hsent & _).
      rewrite Hex in Hsent. cbn [trace_of fst snd] in Hsent.
      assert (Happ : forall a b, sent (a ++ b) = sent a ++ sent b).
      { induction a as [|x a IHa]; intros b; [reflexivity|].
        destruct x; cbn; rewrite ?IHa; reflexivity. }
      rewrite Happ, Hsent. reflexivity.
    + unfold len in Hlen.
      assert (Hn : (1000 <= String.length toolRes)%nat) by lia.
      clear - Hn. revert Hn. generalize 1000%nat as n. intros n.
      revert toolRes; induction n as [|n IH]; intros s Hn.
      * destruct s; reflexivity.
      * destruct s as [|c s]; cbn in Hn; [lia|].
        cbn [substring String.length]. rewrite IH by lia. reflexivity.
Qed.

Lemma C8_witness :
  sent (trace_of (streaming_tool_step (calc_agent long_result_script) true
                    (call "call_1" "calc__add" "{}")
                    [human_message calc_prompt] 0%nat))
  = [LF +++ "[tool_usage] calc__add" +++ LF;
     LF +++ "[tool_response] calc__add: " +++ bytes 1000 "x" +++ "...]" +++ LF +++ LF]
  /\ outcome_of (streaming_tool_step (calc_agent long_result_script) true
                   (call "call_1" "calc__add" "{}")
                   [human_message calc_prompt] 0%nat)
     = Normal (Some [human_message calc_prompt;
                     ai_message (call "call_1" "calc__add" "{}");
                     tool_message (call "call_1" "calc__add" "{}") (bytes 1200 "x")]).
Proof.
  destruct (C8_truncation (calc_agent long_result_script)
              (call "call_1" "calc__add" "{}") [human_message calc_prompt]
              EmptyString 0%nat 0%nat
              [EvCallTool (calc_server long_result_script)
                 {| Method := "tools/call"; Params_Name := "add";
                    Params_Arguments := None |} (inr (bytes 1200 "x"));
               EvExecuteTool "calc__add" "{}" (bytes 1200 "x", None)]
              (bytes 1200 "x") eq_refl)
    as (_ & _ & Hmsgs & Hlong).
  destruct (Hlong eq_refl) as (_ & Hsent & _).
  split; [rewrite Hsent; vm_compute; reflexivity | rewrite (Hmsgs true); reflexivity].
Defined.

(** ** The caller-facing engine: the conversation *)






Section Conversation.

Context {env : Env}.
Variable spare : nat -> nat.



Lemma tool_results_app (a b : list event) :
  tool_results (a ++ b) = tool_results a ++ tool_results b.
Proof.
  induction a as [|x a IH]; [reflexivity|].
  destruct x as [| |? ? [? [?|]]| | | |]; cbn; rewrite ?IH; reflexivity.
Qed.



End Conversation.

Section Streaming_conversation.

Context {env : Env}.
Variable spare : nat -> nat.






Lemma requested_sends (l : list string) (t : list event) :
  requested (map EvSend l ++ t) = requested t.
Proof. induction l; [reflexivity | exact IHl]. Qed.



End Streaming_conversation.

Section Engine_conversation.

Context {env : Env}.
Variable spare : nat -> nat.



End Engine_conversation.



Example C9_streaming_example :
  sent_messages
    (trace_of (respondStreaming (fun n => n) (calc_agent calc_script) false
                 [[human_message calc_prompt]] {| array := 0; slice_len := 1 |}
                 0%nat))
  = [ai_message (call "call_1" "calc__add" (Json.text "{'a':2,'b':2}"));
     tool_message (call "call_1" "calc__add" (Json.text "{'a':2,'b':2}")) "4"]
  /\ outcome_of
       (respondStreaming (fun n => n) (calc_agent calc_script) false
          [[human_message calc_prompt]] {| array := 0; slice_len := 1 |} 0%nat)
     = Normal
         ([[human_message calc_prompt];
           [human_message calc_prompt;
            ai_message (call "call_1" "calc__add" (Json.text "{'a':2,'b':2}"));
            tool_message (call "call_1" "calc__add" (Json.text "{'a':2,'b':2}")) "4"]],
          {| array := 1; slice_len := 3 |}).
Proof. split; reflexivity. Qed.

(** * Further properties of the code *)

(** ** Name resolution, from the name to its parts *)

(** Where the separator is found, the name is made of the text before it,
    the separator and the text after it; the text before it neither
    contains the separator nor ends in an underscore. *)
Lemma index_nat_found (s : string) (i : nat) :
  index_nat s "__" = Some i ->
  exists P T,
    s = P +++ "__" +++ T /\ String.length P = i
    /\ index_nat P "__" = None /\ strings_HasSuffix P "_" = false.
Proof.
  revert i; induction s as [|c s IH]; intros i H.
  - discriminate.
  - cbn [index_nat] in H.
    destruct (strings_HasPrefix (String c s) "__") eqn:Hpre.
    + inversion H; subst i. cbn [strings_HasPrefix] in Hpre.
      destruct (Ascii.eqb "_" c) eqn:Hc; [|discriminate].
      apply Ascii.eqb_eq in Hc. subst c.
      destruct s as [|d s]; [discriminate|].
      cbn [andb strings_HasPrefix] in Hpre.
      destruct (Ascii.eqb "_" d) eqn:Hd; [|discriminate].
      apply Ascii.eqb_eq in Hd. subst d.
      exists EmptyString, s. repeat split; reflexivity.
    + destruct (index_nat s "__") as [i'|] eqn:Hi; [|discriminate].
      inversion H; subst i.
      destruct (IH i' eq_refl) as (P & T & Hs & Hl & Hn & Hsuf).
      exists (String c P), T. subst s. split; [reflexivity|].
      split; [cbn; rewrite Hl; reflexivity|].
      assert (HpreP : strings_HasPrefix (String c P) "__" = false).
      { destruct P as [|d P]; cbn [strings_HasPrefix String.append] in *.
        - destruct (Ascii.eqb "_" c); reflexivity.
        - exact Hpre. }
      split.
      * cbn [index_nat]. rewrite HpreP, Hn. reflexivity.
      * cbn [strings_HasSuffix].
        destruct (String.eqb (String c P) "_") eqn:He; [|exact Hsuf].
        apply String.eqb_eq in He. inversion He; subst.
        cbn in Hpre. discriminate.
Qed.

Lemma strings_Index_present (s substr : string) :
  strings_Index s substr <> -1 -> exists i, index_nat s substr = Some i.
Proof.
  unfold strings_Index. destruct (index_nat s substr) as [i|].
  - intros _. exists i. reflexivity.
  - intros H. contradiction H. reflexivity.
Qed.

Lemma strings_Index_None (s substr : string) :
  index_nat s substr = None -> strings_Index s substr = -1.
Proof. unfold strings_Index. intros ->. reflexivity. Qed.

(** A name that holds the separator is split, into parts that make it up
    again. *)
Lemma split_tool_name_present (toolName : string) :
  strings_Index toolName "__" <> -1 ->
  exists serverName localName,
    split_tool_name toolName = Normal (serverName, localName)
    /\ serverName +++ "__" +++ localName = toolName
    /\ strings_Index serverName "__" = -1
    /\ strings_HasSuffix serverName "_" = false.
Proof.
  intros H. destruct (strings_Index_present _ _ H) as [i Hi].
  destruct (index_nat_found _ _ Hi) as (P & T & Hs & _ & Hn & Hsuf).
  exists P, T. apply strings_Index_None in Hn. subst toolName.
  repeat split; try assumption.
  apply split_composed_name; assumption.
Qed.

(** A split that returns has found the separator. *)
Lemma split_tool_name_returns (toolName serverName localName : string) :
  split_tool_name toolName = Normal (serverName, localName) ->
  serverName +++ "__" +++ localName = toolName
  /\ strings_Index serverName "__" = -1
  /\ strings_HasSuffix serverName "_" = false.
Proof.
  intros H.
  destruct (Z.eq_dec (strings_Index toolName "__") (-1)) as [Habs|Hpres].
  - rewrite (split_without_separator _ Habs) in H. discriminate.
  - destruct (split_tool_name_present _ Hpres) as (P & T & Hs & Hc & Hn & Hsuf).
    rewrite Hs in H. inversion H; subst. repeat split; assumption.
Qed.

(** X1.  The name resolution of ExecuteTool, from the name to its parts:
    for every tool name in which the separator occurs, the two slice
    expressions return a server name and a local name that, put together
    again around the separator, are the tool name; the server name
    neither contains the separator nor ends in an underscore, so that
    composing and splitting again gives the same two parts. *)
Theorem X1_split_then_compose (toolName : string) :
  0 <= strings_Index toolName "__" ->
  exists serverName localName,
    split_tool_name toolName = Normal (serverName, localName)
    /\ serverName +++ "__" +++ localName = toolName
    /\ strings_Index serverName "__" = -1
    /\ strings_HasSuffix serverName "_" = false
    /\ split_tool_name (serverName +++ "__" +++ localName)
       = Normal (serverName, localName).
Proof.
  intros H.
  assert (Hp : strings_Index toolName "__" <> -1) by lia.
  destruct (split_tool_name_present _ Hp) as (P & T & Hs & Hc & Hn & Hsuf).
  exists P, T. repeat split; try assumption.
  rewrite Hc. exact Hs.
Qed.

Lemma X1_witness :
  exists serverName localName,
    split_tool_name "fs___read__all_" = Normal (serverName, localName)
    /\ serverName +++ "__" +++ localName = "fs___read__all_"
    /\ strings_Index serverName "__" = -1
    /\ strings_HasSuffix serverName "_" = false
    /\ split_tool_name (serverName +++ "__" +++ localName)
       = Normal (serverName, localName).
Proof.
  apply (X1_split_then_compose "fs___read__all_"). vm_compute. discriminate.
Defined.

(** ** ExecuteTool: panics, provider calls, errors *)
Section Invoker.

Context {env : Env}.

Lemma slices_Find_found {T : Type} (items : list T) (f : T -> bool) (x : T) :
  slices_Find items f = inr x -> In x items /\ f x = true.
Proof.
  unfold slices_Find. destruct (find f items) as [y|] eqn:H; [|discriminate].
  intros Heq. inversion Heq; subst. apply (find_some _ _ H).
Qed.

Lemma slices_Find_missing {T : Type} (items : list T) (f : T -> bool) (err : error) :
  slices_Find items f = inl err -> err = ErrNotFound /\ find f items = None.
Proof.
  unfold slices_Find. destruct (find f items) as [y|]; [discriminate|].
  intros Heq. inversion Heq. split; reflexivity.
Qed.

Lemma validate_arguments_error (args : string) (err : error) :
  validate_arguments args = inl err ->
  exists cause,
    err = Errorf_w "invalid JSON arguments: " cause
    /\ json_Unmarshal args = inl cause.
Proof.
  unfold validate_arguments.
  destruct (String.eqb args EmptyString || String.eqb args "{}"); [discriminate|].
  destruct (json_Unmarshal args) as [cause|v]; [|discriminate].
  intros H. inversion H. exists cause. split; reflexivity.
Qed.

End Invoker.

(** X2.  ExecuteTool panics in one way only: whenever a call panics, the
    tool name holds no separator, the panic is the slice-bounds run-time
    error of the first slice expression, and nothing has been done: no
    provider call, no change of the world. *)
Theorem X2_panic_without_separator_only {env : Env} (m : MCPAgent)
    (toolName args : string) (w : World) (p : panic_value) :
  outcome_of (ExecuteTool m toolName args w) = Panicked p ->
  strings_Index toolName "__" = -1
  /\ p = PanicRuntime SliceBoundsOutOfRange
  /\ ExecuteTool m toolName args w = (w, [], Panicked p).
Proof.
  intros H.
  destruct (validate_arguments args) as [err|arguments] eqn:Hv.
  - rewrite (ExecuteTool_invalid_arguments m _ _ _ w Hv) in H. discriminate.
  - destruct (split_tool_name toolName) as [[serverName localName]|p'] eqn:Hs.
    + exfalso.
      destruct (slices_Find (mcpServers m)
                  (fun srv => String.eqb (Name srv) serverName))
        as [err|toolServer] eqn:Hf.
      * rewrite (ExecuteTool_unknown_provider m _ _ _ _ _ _ w Hv Hs Hf) in H.
        discriminate.
      * destruct (client_CallTool w (Client toolServer)
                    {| Method := "tools/call"; Params_Name := localName;
                       Params_Arguments := arguments |}) as [w1 res] eqn:Hc.
        rewrite (ExecuteTool_calls_provider m _ _ _ _ _ _ w w1 res Hv Hs Hf Hc) in H.
        discriminate.
    + rewrite (ExecuteTool_panics m _ _ _ _ w Hv Hs) in H |- *.
      cbn [outcome_of snd] in H. inversion H; subst p'.
      pose proof (split_tool_name_panic _ _ Hs) as ->.
      repeat split.
      destruct (Z.eq_dec (strings_Index toolName "__") (-1)) as [Habs|Hpres];
        [exact Habs|].
      destruct (split_tool_name_present _ Hpres) as (P & T & Hs' & _).
      rewrite Hs' in Hs. discriminate.
Qed.

Lemma X2_witness :
  strings_Index "add" "__" = -1
  /\ PanicRuntime SliceBoundsOutOfRange = PanicRuntime SliceBoundsOutOfRange
  /\ ExecuteTool (calc_agent calc_script) "add" "{}" 0%nat
     = (0%nat, [], Panicked (PanicRuntime SliceBoundsOutOfRange)).
Proof.
  apply (X2_panic_without_separator_only (calc_agent calc_script) "add" "{}" 0%nat).
  reflexivity.
Defined.

(** X3.  The provider calls of ExecuteTool: a call of ExecuteTool calls a
    provider once at most; the provider called is a server of the agent,
    its name and the name of the tool in the request make up the tool name
    around the separator, the method is tools/call, and the arguments of
    the request are those that the validation of the arguments string
    gave. *)
Theorem X3_provider_call_of_ExecuteTool {env : Env} (m : MCPAgent)
    (toolName args : string) (w : World) :
  (length (provider_calls (trace_of (ExecuteTool m toolName args w))) <= 1)%nat
  /\ Forall (fun c : MCPServer * CallToolRequest =>
               In (fst c) (mcpServers m)
               /\ Name (fst c) +++ "__" +++ Params_Name (snd c) = toolName
               /\ Method (snd c) = "tools/call"
               /\ validate_arguments args = inr (Params_Arguments (snd c)))
       (provider_calls (trace_of (ExecuteTool m toolName args w))).
Proof.
  destruct (validate_arguments args) as [err|arguments] eqn:Hv.
  - rewrite (ExecuteTool_invalid_arguments m _ _ _ w Hv). cbn.
    split; [lia | constructor].
  - pose proof (ExecuteTool_provider_calls m toolName args arguments w Hv) as Hp.
    destruct (split_tool_name toolName) as [[serverName localName]|p'] eqn:Hs.
    + destruct (slices_Find (mcpServers m)
                  (fun srv => String.eqb (Name srv) serverName))
        as [err|toolServer] eqn:Hf; rewrite Hp; cbn [length].
      * split; [lia | constructor].
      * split; [lia|]. constructor; [|constructor]. cbn [fst snd Params_Name Method
                                                            Params_Arguments].
        destruct (slices_Find_found _ _ _ Hf) as [Hin Hname].
        apply String.eqb_eq in Hname.
        destruct (split_tool_name_returns _ _ _ Hs) as (Hc & _).
        rewrite Hname. repeat split; assumption.
    + rewrite Hp. cbn. split; [lia | constructor].
Qed.

(** X4.  The errors of ExecuteTool: whenever ExecuteTool returns an error,
    the text it returns is empty, and the error is one of four: the error
    of json.Unmarshal wrapped as invalid JSON arguments, no provider
    having been called; the error of slices.Find as it is, not wrapped,
    no provider having been called; the error of the provider wrapped as
    failed to call mcp tool; the error of sonic wrapped as failed to
    marshal mcp tool result, the provider having returned a result. *)
Theorem X4_errors_of_ExecuteTool {env : Env} (m : MCPAgent)
    (toolName args : string) (w : World) (text : string) (err : error) :
  outcome_of (ExecuteTool m toolName args w) = Normal (text, Some err) ->
  text = EmptyString
  /\ ((exists cause,
         err = Errorf_w "invalid JSON arguments: " cause
         /\ json_Unmarshal args = inl cause
         /\ provider_calls (trace_of (ExecuteTool m toolName args w)) = [])
      \/ (err = ErrNotFound
          /\ provider_calls (trace_of (ExecuteTool m toolName args w)) = []
          /\ exists serverName localName,
               split_tool_name toolName = Normal (serverName, localName)
               /\ Forall (fun srv => Name srv <> serverName) (mcpServers m))
      \/ (exists srv req cause,
            err = Errorf_w "failed to call mcp tool: " cause
            /\ In (EvCallTool srv req (inl cause))
                 (trace_of (ExecuteTool m toolName args w)))
      \/ (exists srv req result cause,
            err = Errorf_w "failed to marshal mcp tool result: " cause
            /\ In (EvCallTool srv req (inr result))
                 (trace_of (ExecuteTool m toolName args w))
            /\ sonic_MarshalString result = inl cause)).
Proof.
  intros H.
  destruct (validate_arguments args) as [e|arguments] eqn:Hv.
  - rewrite (ExecuteTool_invalid_arguments m _ _ _ w Hv) in H |- *.
    cbn [outcome_of snd] in H. inversion H; subst.
    split; [reflexivity|]. left.
    destruct (validate_arguments_error _ _ Hv) as (cause & -> & Hj).
    exists cause. repeat split. exact Hj.
  - destruct (split_tool_name toolName) as [[serverName localName]|p'] eqn:Hs.
    + destruct (slices_Find (mcpServers m)
                  (fun srv => String.eqb (Name srv) serverName))
        as [e|toolServer] eqn:Hf.
      * rewrite (ExecuteTool_unknown_provider m _ _ _ _ _ _ w Hv Hs Hf) in H |- *.
        cbn [outcome_of snd] in H. inversion H; subst.
        split; [reflexivity|]. right; left.
        destruct (slices_Find_missing _ _ _ Hf) as [-> Hnone].
        repeat split. exists serverName, localName. split; [reflexivity|].
        apply Forall_forall. intros srv Hin Hname.
        pose proof (find_none _ _ Hnone srv Hin) as Hfalse. cbn in Hfalse.
        apply String.eqb_neq in Hfalse. contradiction.
      * destruct (client_CallTool w (Client toolServer)
                    {| Method := "tools/call"; Params_Name := localName;
                       Params_Arguments := arguments |}) as [w1 res] eqn:Hc.
        rewrite (ExecuteTool_calls_provider m _ _ _ _ _ _ w w1 res Hv Hs Hf Hc)
          in H |- *.
        cbn [outcome_of trace_of fst snd] in *. unfold call_result in H.
        destruct res as [cause|result].
        -- inversion H; subst. split; [reflexivity|]. right; right; left.
           eexists _, _, cause. split; [reflexivity | left; reflexivity].
        -- destruct (sonic_MarshalString result) as [cause|s] eqn:Hm;
             inversion H; subst.
           split; [reflexivity|]. right; right; right.
           eexists _, _, result, cause.
           split; [reflexivity|]. split; [left; reflexivity | exact Hm].
    + rewrite (ExecuteTool_panics m _ _ _ _ w Hv Hs) in H. discriminate.
Qed.

Lemma X4_witness :
  EmptyString = EmptyString
  /\ ((exists cause,
         Errorf_w "invalid JSON arguments: " (Err "invalid JSON text")
         = Errorf_w "invalid JSON arguments: " cause
         /\ @json_Unmarshal (scripted calc_script) "a=2,b=2" = inl cause
         /\ provider_calls
              (trace_of (ExecuteTool (calc_agent calc_script) "calc__add"
                           "a=2,b=2" 0%nat)) = [])
      \/ (Errorf_w "invalid JSON arguments: " (Err "invalid JSON text")
          = @ErrNotFound (scripted calc_script)
          /\ provider_calls
               (trace_of (ExecuteTool (calc_agent calc_script) "calc__add"
                            "a=2,b=2" 0%nat)) = []
          /\ exists serverName localName,
               split_tool_name "calc__add" = Normal (serverName, localName)
               /\ Forall (fun srv => Name srv <> serverName)
                    (mcpServers (calc_agent calc_script)))
      \/ (exists srv req cause,
            Errorf_w "invalid JSON arguments: " (Err "invalid JSON text")
            = Errorf_w "failed to call mcp tool: " cause
            /\ In (EvCallTool srv req (inl cause))
                 (trace_of (ExecuteTool (calc_agent calc_script) "calc__add"
                              "a=2,b=2" 0%nat)))
      \/ (exists srv req result cause,
            Errorf_w "invalid JSON arguments: " (Err "invalid JSON text")
            = Errorf_w "failed to marshal mcp tool result: " cause
            /\ In (EvCallTool srv req (inr result))
                 (trace_of (ExecuteTool (calc_agent calc_script) "calc__add"
                              "a=2,b=2" 0%nat))
            /\ @sonic_MarshalString (scripted calc_script) result = inl cause)).
Proof.
  apply (X4_errors_of_ExecuteTool (calc_agent calc_script) "calc__add" "a=2,b=2"
           0%nat EmptyString
           (Errorf_w "invalid JSON arguments: " (Err "invalid JSON text"))).
  reflexivity.
Defined.

(** ** The blocking turn: the two variants, the text, the flag *)
Section Blocking_turn.

Context {env : Env}.

Lemma append_nil_r (s : string) : s +++ EmptyString = s.
Proof. induction s as [|c s IH]; [reflexivity | cbn; rewrite IH; reflexivity]. Qed.

Lemma msgToPrint_shown (toolRes : string) :
  msgToPrint toolRes = Normal (shown toolRes).
Proof.
  unfold shown. destruct (1000 <? len toolRes) eqn:H.
  - apply msgToPrint_long. apply Z.ltb_lt. exact H.
  - apply msgToPrint_short. apply Z.ltb_ge. exact H.
Qed.

Lemma tool_response_marker_shown (name toolRes : string) :
  tool_response_marker name toolRes
  = Normal (LF +++ "[tool_response] " +++ name +++ ": " +++ shown toolRes
              +++ "]" +++ LF +++ LF).
Proof. unfold tool_response_marker. rewrite msgToPrint_shown. reflexivity. Qed.

(** [ExecuteTool] prints nothing. *)
Lemma ExecuteTool_prints_nothing (m : MCPAgent) (toolName args : string) (w : World) :
  filter (fun e => negb (is_print e)) (trace_of (ExecuteTool m toolName args w))
  = trace_of (ExecuteTool m toolName args w).
Proof.
  destruct (ExecuteTool_shape m toolName args w)
    as [(w1 & pre & r & Hrun & Hpre)|Hrun]; rewrite Hrun; [|reflexivity].
  destruct Hpre as [->|(srv & req & res & ->)]; reflexivity.
Qed.

(** One iteration of each of the two loops, by the way the call of
    [ExecuteTool] ends. *)
Lemma tool_step_run (m : MCPAgent) (flag : bool) (tc : ToolCall)
    (msgs : list MessageContent) (response : string) (w : World) :
  tool_step m flag tc msgs response w
  = match ExecuteTool m (tool_name tc) (tool_arguments tc) w with
    | (w1, t1, Normal (_, Some err)) => (w1, t1, Panicked (PanicErr err))
    | (w1, t1, Normal (toolRes, None)) =>
        (w1, t1,
         Normal (msgs ++ [ai_message tc; tool_message tc toolRes],
                 if flag
                 then (response +++ tool_usage_marker (tool_name tc))
                        +++ (LF +++ "[tool_response] " +++ tool_name tc +++ ": "
                               +++ shown toolRes +++ "]" +++ LF +++ LF)
                 else response))
    | (w1, t1, Panicked p) => (w1, t1, Panicked p)
    end.
Proof.
  destruct (ExecuteTool m (tool_name tc) (tool_arguments tc) w)
    as [[w1 t1] [[toolRes [err|]]|p]] eqn:Hex.
  - eapply tool_step_error. exact Hex.
  - destruct (tool_step_returns m flag tc msgs response w w1 t1 toolRes Hex)
      as (marker & Hm & ->).
    rewrite tool_response_marker_shown in Hm. inversion Hm. reflexivity.
  - eapply tool_step_panics. exact Hex.
Qed.

Lemma tool_step0_run (m : MCPAgent) (tc : ToolCall)
    (msgs : list MessageContent) (w : World) :
  tool_step0 m tc msgs w
  = match ExecuteTool m (tool_name tc) (tool_arguments tc) w with
    | (w1, t1, Normal (_, Some err)) =>
        (w1, EvPrint ("Suggested to use tool " +++ tool_name tc +++ LF) :: t1,
         Panicked (PanicErr err))
    | (w1, t1, Normal (toolRes, None)) =>
        (w1, EvPrint ("Suggested to use tool " +++ tool_name tc +++ LF) :: t1,
         Normal (msgs ++ [ai_message tc; tool_message tc toolRes]))
    | (w1, t1, Panicked p) =>
        (w1, EvPrint ("Suggested to use tool " +++ tool_name tc +++ LF) :: t1,
         Panicked p)
    end.
Proof.
  unfold tool_step0, bind, emit, panic, ret.
  destruct (ExecuteTool m (tool_name tc) (tool_arguments tc) w)
    as [[w1 t1] [[toolRes [err|]]|p]]; cbn [app];
    rewrite ?app_nil_r, <- ?app_assoc; reflexivity.
Qed.

Lemma filter_print_cons (text : string) (t : list event) :
  filter (fun e => negb (is_print e)) (EvPrint text :: t)
  = filter (fun e => negb (is_print e)) t.
Proof. reflexivity. Qed.

Lemma filter_generate_cons (msgs : list MessageContent) (tools : list llms_Tool)
    (streaming : bool) (res : error + ContentResponse) (t : list event) :
  filter (fun e => negb (is_print e)) (EvGenerate msgs tools streaming res :: t)
  = EvGenerate msgs tools streaming res :: filter (fun e => negb (is_print e)) t.
Proof. reflexivity. Qed.

Lemma bind_run {A B : Type} (m : M A) (k : A -> M B) (w : World) :
  bind m k w
  = match m w with
    | (w1, t1, Normal a) =>
        (world_of (k a w1), t1 ++ trace_of (k a w1), outcome_of (k a w1))
    | (w1, t1, Panicked p) => (w1, t1, Panicked p)
    end.
Proof.
  unfold bind. destruct (m w) as [[w1 t1] [a|p]]; [|reflexivity].
  destruct (k a w1) as [[w2 t2] o]. reflexivity.
Qed.

(** The loop of server.go does what the loop of agent/agent.go does, the
    printing apart, and builds the text of the progress markers. *)
Lemma tool_loop_vs_loop0 (m : MCPAgent) (flag : bool) (tcs : list ToolCall) :
  forall (msgs : list MessageContent) (response : string) (w : World),
    world_of (tool_loop m flag tcs msgs response w)
    = world_of (tool_loop0 m tcs msgs w)
    /\ trace_of (tool_loop m flag tcs msgs response w)
       = filter (fun e => negb (is_print e)) (trace_of (tool_loop0 m tcs msgs w))
    /\ match outcome_of (tool_loop m flag tcs msgs response w),
             outcome_of (tool_loop0 m tcs msgs w) with
       | Normal (msgs1, response'), Normal msgs2 =>
           msgs1 = msgs2
           /\ response'
              = response
                  +++ (if flag
                       then concat_all
                              (progress_fragments tcs
                                 (tool_results (trace_of (tool_loop0 m tcs msgs w))))
                       else EmptyString)
       | Panicked p1, Panicked p2 => p1 = p2
       | _, _ => False
       end.
Proof.
  induction tcs as [|tc tcs IH]; intros msgs response w.
  - cbn. repeat split. destruct flag; cbn; rewrite append_nil_r; reflexivity.
  - cbn [tool_loop tool_loop0]. rewrite !bind_run, tool_step_run, tool_step0_run.
    pose proof (ExecuteTool_prints_nothing m (tool_name tc) (tool_arguments tc) w)
      as Hnp.
    pose proof (ExecuteTool_effects m (tool_name tc) (tool_arguments tc) w)
      as (_ & _ & _ & _ & Hout).
    destruct (ExecuteTool m (tool_name tc) (tool_arguments tc) w)
      as [[w1 t1] [[toolRes [err|]]|p]];
      cbn [trace_of outcome_of world_of fst snd app] in *.
    + repeat split. rewrite filter_print_cons. symmetry. exact Hnp.
    + destruct Hout as (_ & _ & Hres).
      destruct (IH (msgs ++ [ai_message tc; tool_message tc toolRes])
                  (if flag
                   then (response +++ tool_usage_marker (tool_name tc))
                          +++ (LF +++ "[tool_response] " +++ tool_name tc +++ ": "
                                 +++ shown toolRes +++ "]" +++ LF +++ LF)
                   else response) w1) as (Hw & Ht & Ho).
      split; [exact Hw|]. split.
      * rewrite filter_print_cons, filter_app, Hnp, Ht. reflexivity.
      * destruct (outcome_of (tool_loop m flag tcs
                                (msgs ++ [ai_message tc; tool_message tc toolRes])
                                (if flag
                                 then (response +++ tool_usage_marker (tool_name tc))
                                        +++ (LF +++ "[tool_response] " +++ tool_name tc
                                               +++ ": " +++ shown toolRes +++ "]"
                                               +++ LF +++ LF)
                                 else response) w1)) as [[msgs1 response']|p1];
          destruct (outcome_of (tool_loop0 m tcs
                                  (msgs ++ [ai_message tc; tool_message tc toolRes])
                                  w1)) as [msgs2|p2]; try exact Ho.
        destruct Ho as [Hm Hr]. split; [exact Hm|]. rewrite Hr.
        destruct flag; [|reflexivity].
        cbn [tool_results]. rewrite tool_results_app, Hres.
        cbn [app progress_fragments concat_all].
        rewrite !append_assoc. reflexivity.
    + repeat split. rewrite filter_print_cons. symmetry. exact Hnp.
Qed.

Lemma tool_results_prints (t : list event) :
  tool_results (filter (fun e => negb (is_print e)) t) = tool_results t.
Proof.
  induction t as [|e t IH]; [reflexivity|].
  destruct e as [| |? ? [? [?|]]| | | |]; cbn; rewrite ?IH; reflexivity.
Qed.

Lemma requested_prints (t : list event) :
  requested (filter (fun e => negb (is_print e)) t) = requested t.
Proof.
  induction t as [|e t IH]; [reflexivity|].
  destruct e; cbn; rewrite ?IH; reflexivity.
Qed.

(** The turn of server.go against the turn of agent/agent.go. *)
Lemma GenerateContent_vs_0 (m : MCPAgent) (prompt : string) (flag : bool)
    (w : World) :
  world_of (GenerateContent m prompt flag w) = world_of (GenerateContent0 m prompt w)
  /\ trace_of (GenerateContent m prompt flag w)
     = filter (fun e => negb (is_print e)) (trace_of (GenerateContent0 m prompt w))
  /\ match outcome_of (GenerateContent m prompt flag w),
           outcome_of (GenerateContent0 m prompt w) with
     | Normal text, Normal content =>
         text
         = (if flag
            then concat_all
                   (progress_fragments
                      (requested (trace_of (GenerateContent0 m prompt w)))
                      (tool_results (trace_of (GenerateContent0 m prompt w))))
            else EmptyString) +++ content
     | Panicked p1, Panicked p2 => p1 = p2
     | _, _ => False
     end.
Proof.
  unfold GenerateContent, GenerateContent0.
  destruct (LLM_GenerateContent_blocking_run (LLMModel m) [human_message prompt]
              (ExtractToolsFromAgent m) w) as (w1 & res & Hllm).
  rewrite !bind_run, Hllm.
  destruct res as [err|resp]; [repeat split|].
  destruct (Choices resp) as [|choice0 rest] eqn:Hch; [repeat split|].
  cbn [index0]. rewrite !bind_lift_normal.
  destruct (0 <? Z.of_nat (length (ToolCalls choice0))) eqn:Hn.
  - rewrite !bind_run.
    destruct (tool_loop_vs_loop0 m flag (ToolCalls choice0) [human_message prompt]
                EmptyString w1) as (Hw & Ht & Ho).
    destruct (tool_loop m flag (ToolCalls choice0) [human_message prompt]
                EmptyString w1) as [[w2 t2] [[msgs1 response']|p1]];
      destruct (tool_loop0 m (ToolCalls choice0) [human_message prompt] w1)
        as [[w2' t2'] [msgs2|p2]];
      cbn [world_of trace_of outcome_of fst snd] in *; try contradiction.
    + destruct Ho as [-> Hr]. subst w2'.
      destruct (LLM_GenerateContent_blocking_run (LLMModel m) msgs2
                  (ExtractToolsFromAgent m) w2) as (w3 & res2 & Hllm2).
      rewrite !bind_run, Hllm2. cbn [world_of trace_of outcome_of fst snd].
      destruct res2 as [err2|resp2].
      * cbn [panic world_of trace_of outcome_of fst snd app filter is_print negb].
        repeat split. rewrite filter_app, <- Ht. reflexivity.
      * destruct (Choices resp2) as [|choice rest2];
          cbn [index0 lift bind ret world_of trace_of outcome_of fst snd app
                 filter is_print negb].
        -- repeat split. rewrite filter_app, <- Ht. reflexivity.
        -- split; [reflexivity|]. split.
           ++ rewrite filter_app, <- Ht. reflexivity.
           ++ rewrite Hr. cbn [requested]. rewrite Hch.
              cbn [tool_results]. rewrite tool_results_app. cbn [tool_results].
              rewrite app_nil_r. reflexivity.
    + subst. cbn [filter is_print negb]. repeat split.
  - rewrite !bind_lift_normal. cbn.
    split; [reflexivity|]. split; [reflexivity|].
    rewrite Hch.
    assert (Hnil : ToolCalls choice0 = []).
    { destruct (ToolCalls choice0); [reflexivity|].
      cbn [length] in Hn. apply Z.ltb_ge in Hn. lia. }
    rewrite Hnil. destruct flag; reflexivity.
Qed.

(** When the loop of agent/agent.go returns, every tool has a result. *)
Lemma tool_loop0_results (m : MCPAgent) (tcs : list ToolCall) :
  forall (msgs : list MessageContent) (w : World) (msgs' : list MessageContent),
    outcome_of (tool_loop0 m tcs msgs w) = Normal msgs' ->
    length (tool_results (trace_of (tool_loop0 m tcs msgs w))) = length tcs.
Proof.
  induction tcs as [|tc tcs IH]; intros msgs w msgs' H; [reflexivity|].
  cbn [tool_loop0] in *. rewrite bind_run, tool_step0_run in *.
  pose proof (ExecuteTool_effects m (tool_name tc) (tool_arguments tc) w)
    as (_ & _ & _ & _ & Hout).
  destruct (ExecuteTool m (tool_name tc) (tool_arguments tc) w)
    as [[w1 t1] [[toolRes [err|]]|p]];
    cbn [trace_of outcome_of world_of fst snd app] in *; try discriminate.
  destruct Hout as (_ & _ & Hres).
  cbn [tool_results]. rewrite tool_results_app, Hres. cbn [app length].
  f_equal. eapply IH. exact H.
Qed.

(** A turn that returns has ended with an LLM call that returned a
    response, and returns the content of the first choice of that
    response; every tool that the first response asked for has a
    result. *)
Lemma GenerateContent0_content (m : MCPAgent) (prompt : string) (w : World)
    (content : string) :
  outcome_of (GenerateContent0 m prompt w) = Normal content ->
  exists pre msgs resp choice rest,
    trace_of (GenerateContent0 m prompt w)
    = pre ++ [EvGenerate msgs (ExtractToolsFromAgent m) false (inr resp)]
    /\ Choices resp = choice :: rest
    /\ content = Choice_Content choice
    /\ length (tool_results (trace_of (GenerateContent0 m prompt w)))
       = length (requested (trace_of (GenerateContent0 m prompt w))).
Proof.
  unfold GenerateContent0.
  destruct (LLM_GenerateContent_blocking_run (LLMModel m) [human_message prompt]
              (ExtractToolsFromAgent m) w) as (w1 & res & Hllm).
  rewrite !bind_run, Hllm.
  destruct res as [err|resp]; [discriminate|].
  destruct (Choices resp) as [|choice0 rest] eqn:Hch; [discriminate|].
  cbn [index0]. rewrite !bind_lift_normal.
  destruct (0 <? Z.of_nat (length (ToolCalls choice0))) eqn:Hn.
  - rewrite !bind_run.
    pose proof (tool_loop0_results m (ToolCalls choice0) [human_message prompt] w1)
      as Hlen.
    destruct (tool_loop0 m (ToolCalls choice0) [human_message prompt] w1)
      as [[w2 t2] [msgs2|p2]]; [|discriminate].
    specialize (Hlen msgs2 eq_refl). cbn [trace_of fst snd] in Hlen.
    destruct (LLM_GenerateContent_blocking_run (LLMModel m) msgs2
                (ExtractToolsFromAgent m) w2) as (w3 & res2 & Hllm2).
    rewrite !bind_run, Hllm2.
    destruct res2 as [err2|resp2]; [discriminate|].
    destruct (Choices resp2) as [|choice rest2] eqn:Hch2; [discriminate|].
    cbn [index0 lift bind ret world_of trace_of outcome_of fst snd app].
    intros H. inversion H; subst.
    exists (EvGenerate [human_message prompt] (ExtractToolsFromAgent m) false
              (inr resp) :: t2), msgs2, resp2, choice, rest2.
    split; [reflexivity|]. split; [exact Hch2|]. split; [reflexivity|].
    cbn [requested tool_results]. rewrite Hch, tool_results_app.
    cbn [tool_results]. rewrite app_nil_r. exact Hlen.
  - rewrite !bind_lift_normal.
    cbn [index0 lift bind ret world_of trace_of outcome_of fst snd app].
    intros H. inversion H; subst.
    exists [], [human_message prompt], resp, choice0, rest.
    split; [reflexivity|]. split; [exact Hch|]. split; [reflexivity|].
    cbn [requested tool_results]. rewrite Hch.
    destruct (ToolCalls choice0); [reflexivity|].
    cbn [length] in Hn. apply Z.ltb_ge in Hn. lia.
Qed.

End Blocking_turn.

(** X5.  The two variants of the blocking turn: for every agent, prompt
    and state of the world, GenerateContent of agent/agent.go and
    GenerateContent of server.go called without the flag leave the same
    world, end in the same way (the same text returned, or the same
    panic), and do the same things in the same order, the lines that the
    former prints on the standard output apart. *)
Theorem X5_variants_agree {env : Env} (m : MCPAgent) (prompt : string) (w : World) :
  world_of (GenerateContent0 m prompt w) = world_of (GenerateContent m prompt false w)
  /\ outcome_of (GenerateContent0 m prompt w)
     = outcome_of (GenerateContent m prompt false w)
  /\ filter (fun e => negb (is_print e)) (trace_of (GenerateContent0 m prompt w))
     = trace_of (GenerateContent m prompt false w).
Proof.
  destruct (GenerateContent_vs_0 m prompt false w) as (Hw & Ht & Ho).
  split; [symmetry; exact Hw|]. split; [|symmetry; exact Ht].
  destruct (outcome_of (GenerateContent m prompt false w)) as [text|p1];
    destruct (outcome_of (GenerateContent0 m prompt w)) as [content|p2];
    try contradiction.
  - rewrite Ho. reflexivity.
  - rewrite Ho. reflexivity.
Qed.

(** X6.  The text that the blocking turn returns: whenever GenerateContent
    of server.go returns, the last thing it did is an LLM call that
    returned a response with a choice, every tool call of the first
    response has a result, and the text returned is, with the flag, the
    usage marker and the response marker of every tool call of the first
    response, in order, each response marker showing the result of its
    tool cut to 1000 bytes, followed by the content of the first choice
    of that last response; without the flag it is that content alone. *)
Theorem X6_text_of_the_turn {env : Env} (m : MCPAgent) (prompt : string)
    (addNotFinalResponses : bool) (w : World) (text : string) :
  outcome_of (GenerateContent m prompt addNotFinalResponses w) = Normal text ->
  exists pre msgs resp choice rest,
    trace_of (GenerateContent m prompt addNotFinalResponses w)
    = pre ++ [EvGenerate msgs (ExtractToolsFromAgent m) false (inr resp)]
    /\ Choices resp = choice :: rest
    /\ length (tool_results (trace_of (GenerateContent m prompt
                                         addNotFinalResponses w)))
       = length (requested (trace_of (GenerateContent m prompt
                                        addNotFinalResponses w)))
    /\ text
       = (if addNotFinalResponses
          then concat_all
                 (progress_fragments
                    (requested (trace_of (GenerateContent m prompt
                                            addNotFinalResponses w)))
                    (tool_results (trace_of (GenerateContent m prompt
                                               addNotFinalResponses w))))
          else EmptyString) +++ Choice_Content choice.
Proof.
  intros H.
  destruct (GenerateContent_vs_0 m prompt addNotFinalResponses w) as (_ & Ht & Ho).
  rewrite H in Ho.
  destruct (outcome_of (GenerateContent0 m prompt w)) as [content|p2] eqn:H0;
    [|contradiction].
  destruct (GenerateContent0_content m prompt w content H0)
    as (pre & msgs & resp & choice & rest & Ht0 & Hch & Hc & Hlen).
  exists (filter (fun e => negb (is_print e)) pre), msgs, resp, choice, rest.
  rewrite Ht, requested_prints, tool_results_prints.
  split; [rewrite Ht0, filter_app; reflexivity|].
  split; [exact Hch|]. split; [exact Hlen|].
  rewrite Ho, Hc. reflexivity.
Qed.

Lemma X6_witness :
  exists pre msgs resp choice rest,
    trace_of (GenerateContent (calc_agent calc_script) calc_prompt true 0%nat)
    = pre ++ [EvGenerate msgs (ExtractToolsFromAgent (calc_agent calc_script))
                false (inr resp)]
    /\ Choices resp = choice :: rest
    /\ length (tool_results (trace_of (GenerateContent (calc_agent calc_script)
                                         calc_prompt true 0%nat)))
       = length (requested (trace_of (GenerateContent (calc_agent calc_script)
                                        calc_prompt true 0%nat)))
    /\ LF +++ "[tool_usage] calc__add" +++ LF
         +++ LF +++ "[tool_response] calc__add: 4]" +++ LF +++ LF
         +++ "The answer is 4."
       = concat_all
           (progress_fragments
              (requested (trace_of (GenerateContent (calc_agent calc_script)
                                      calc_prompt true 0%nat)))
              (tool_results (trace_of (GenerateContent (calc_agent calc_script)
                                         calc_prompt true 0%nat))))
           +++ Choice_Content choice.
Proof.
  apply (X6_text_of_the_turn (calc_agent calc_script) calc_prompt true 0%nat
           (LF +++ "[tool_usage] calc__add" +++ LF
              +++ LF +++ "[tool_response] calc__add: 4]" +++ LF +++ LF
              +++ "The answer is 4.")).
  reflexivity.
Defined.

(** X7.  A response without choices, blocking mode: whenever the first
    LLM call returns, without error, a response that holds no choice,
    GenerateContent (both variants) panics with the run-time error of an
    index out of range, reading the first choice; the LLM call is all it
    has done. *)
Theorem X7_no_choices_panics {env : Env} (m : MCPAgent) (prompt : string)
    (addNotFinalResponses : bool) (w w1 : World) (chunks : list string)
    (resp : ContentResponse) :
  llm_GenerateContent w (LLMModel m) [human_message prompt]
    (ExtractToolsFromAgent m) false = (w1, chunks, inr resp) ->
  Choices resp = [] ->
  GenerateContent m prompt addNotFinalResponses w
  = (w1,
     [EvGenerate [human_message prompt] (ExtractToolsFromAgent m) false (inr resp)],
     Panicked (PanicRuntime IndexOutOfRange))
  /\ GenerateContent0 m prompt w
     = (w1,
        [EvGenerate [human_message prompt] (ExtractToolsFromAgent m) false (inr resp)],
        Panicked (PanicRuntime IndexOutOfRange)).
Proof.
  intros H Hch.
  pose proof (LLM_GenerateContent_blocking _ _ _ _ _ _ _ H) as Hllm.
  unfold GenerateContent, GenerateContent0.
  rewrite !(bind_normal _ _ _ _ _ _ Hllm), Hch.
  split; reflexivity.
Qed.

Lemma X7_witness :
  GenerateContent (calc_agent no_choices_script) calc_prompt true 0%nat
  = (1%nat,
     [EvGenerate [human_message calc_prompt]
        (ExtractToolsFromAgent (calc_agent no_choices_script)) false
        (inr {| Choices := [] |})],
     Panicked (PanicRuntime IndexOutOfRange))
  /\ GenerateContent0 (calc_agent no_choices_script) calc_prompt 0%nat
     = (1%nat,
        [EvGenerate [human_message calc_prompt]
           (ExtractToolsFromAgent (calc_agent no_choices_script)) false
           (inr {| Choices := [] |})],
        Panicked (PanicRuntime IndexOutOfRange)).
Proof.
  apply (X7_no_choices_panics (calc_agent no_choices_script) calc_prompt true
           0%nat 1%nat ["Hel"; "lo"] {| Choices := [] |});
    reflexivity.
Defined.

(** ** The streaming turn *)
Section Streaming_turn.

Context {env : Env}.

Lemma generate_count_app (a b : list event) :
  generate_count (a ++ b) = (generate_count a + generate_count b)%nat.
Proof. unfold generate_count. rewrite filter_app, length_app. reflexivity. Qed.

Lemma generate_count_sends (l : list string) : generate_count (map EvSend l) = 0%nat.
Proof. induction l as [|x l IH]; [reflexivity | exact IH]. Qed.

Lemma clean_sends (l : list string) : clean (map EvSend l).
Proof. induction l as [|x l IH]; constructor; [reflexivity | exact IH]. Qed.

Lemma sent_app (a b : list event) : sent (a ++ b) = sent a ++ sent b.
Proof.
  induction a as [|x a IH]; [reflexivity|].
  destruct x; cbn; rewrite ?IH; reflexivity.
Qed.

Lemma sent_sends (l : list string) : sent (map EvSend l) = l.
Proof. induction l as [|x l IH]; [reflexivity | cbn; rewrite IH; reflexivity]. Qed.

Lemma filter_sends (l : list string) :
  filter (fun e => negb (is_send e)) (map EvSend l) = [].
Proof. induction l as [|x l IH]; [reflexivity | exact IH]. Qed.

Lemma filter_flag_send (flag : bool) (fragment : string) :
  filter (fun e => negb (is_send e)) (if flag then [EvSend fragment] else []) = [].
Proof. destruct flag; reflexivity. Qed.

Lemma no_close_sends (l : list string) :
  Forall (fun e => is_close e = false) (map EvSend l).
Proof. induction l as [|x l IH]; constructor; [reflexivity | exact IH]. Qed.

(** A call of [ExecuteTool] sends nothing and closes nothing. *)
Lemma ExecuteTool_quiet (m : MCPAgent) (toolName args : string) (w : World) :
  filter (fun e => negb (is_send e)) (trace_of (ExecuteTool m toolName args w))
  = trace_of (ExecuteTool m toolName args w)
  /\ Forall (fun e => is_close e = false) (trace_of (ExecuteTool m toolName args w)).
Proof.
  destruct (ExecuteTool_shape m toolName args w)
    as [(w1 & pre & r & Hrun & Hpre)|Hrun]; rewrite Hrun;
    [|split; [reflexivity | constructor]].
  destruct Hpre as [->|(srv & req & res & ->)];
    (split; [reflexivity | repeat constructor]).
Qed.

(** One iteration of the loop of the goroutine, by the way the call of
    [ExecuteTool] ends. *)
Lemma streaming_tool_step_run (m : MCPAgent) (flag : bool) (tc : ToolCall)
    (msgs : list MessageContent) (w : World) :
  streaming_tool_step m flag tc msgs w
  = match ExecuteTool m (tool_name tc) (tool_arguments tc) w with
    | (w1, t1, Normal (_, Some err)) =>
        (w1,
         (if flag then [EvSend (tool_usage_marker (tool_name tc))] else [])
           ++ t1 ++ [EvSend ("Error executing tool: " +++ Error err)],
         Normal None)
    | (w1, t1, Normal (toolRes, None)) =>
        (w1,
         (if flag then [EvSend (tool_usage_marker (tool_name tc))] else [])
           ++ t1
           ++ (if flag
               then [EvSend (LF +++ "[tool_response] " +++ tool_name tc +++ ": "
                               +++ shown toolRes +++ "]" +++ LF +++ LF)]
               else []),
         Normal (Some (msgs ++ [ai_message tc; tool_message tc toolRes])))
    | (w1, t1, Panicked p) =>
        (w1, (if flag then [EvSend (tool_usage_marker (tool_name tc))] else []) ++ t1,
         Panicked p)
    end.
Proof.
  destruct (ExecuteTool m (tool_name tc) (tool_arguments tc) w)
    as [[w1 t1] [[toolRes [err|]]|p]] eqn:Hex.
  - unfold streaming_tool_step.
    destruct flag; rewrite !bind_run; cbn [emit ret]; rewrite ?bind_run, Hex;
      cbn [emit ret bind world_of trace_of outcome_of fst snd app];
      rewrite ?app_nil_r; reflexivity.
  - destruct (streaming_tool_step_returns m flag tc msgs w w1 t1 toolRes Hex)
      as (marker & Hm & ->).
    rewrite tool_response_marker_shown in Hm. inversion Hm. reflexivity.
  - unfold streaming_tool_step.
    destruct flag; rewrite !bind_run; cbn [emit ret]; rewrite ?bind_run, Hex;
      cbn [world_of trace_of outcome_of fst snd app]; reflexivity.
Qed.

(** How the loop of the goroutine ends. *)
Lemma streaming_tool_loop_ends (m : MCPAgent) (flag : bool) (tcs : list ToolCall) :
  forall (msgs : list MessageContent) (w : World),
    generate_count (trace_of (streaming_tool_loop m flag tcs msgs w)) = 0%nat
    /\ Forall (fun e => is_close e = false)
         (trace_of (streaming_tool_loop m flag tcs msgs w))
    /\ match outcome_of (streaming_tool_loop m flag tcs msgs w) with
       | Normal (Some _) => clean (trace_of (streaming_tool_loop m flag tcs msgs w))
       | Normal None =>
           exists c toolName args s err,
             trace_of (streaming_tool_loop m flag tcs msgs w)
             = c ++ [EvExecuteTool toolName args (s, Some err);
                     EvSend ("Error executing tool: " +++ Error err)]
             /\ clean c
       | Panicked p =>
           clean (trace_of (streaming_tool_loop m flag tcs msgs w))
           /\ p = PanicRuntime SliceBoundsOutOfRange
       end.
Proof.
  induction tcs as [|tc tcs IH]; intros msgs w.
  - cbn. repeat split; constructor.
  - cbn [streaming_tool_loop]. rewrite bind_run, streaming_tool_step_run.
    pose proof (ExecuteTool_effects m (tool_name tc) (tool_arguments tc) w)
      as (_ & Hg & _ & _ & Hout).
    pose proof (ExecuteTool_quiet m (tool_name tc) (tool_arguments tc) w)
      as (_ & Hnc).
    assert (Hflag : forall fragment,
               generate_count (if flag then [EvSend fragment] else []) = 0%nat
               /\ Forall (fun e => is_close e = false)
                    (if flag then [EvSend fragment] else [])
               /\ clean (if flag then [EvSend fragment] else [])).
    { intros fragment. destruct flag; repeat split; repeat constructor. }
    destruct (ExecuteTool m (tool_name tc) (tool_arguments tc) w)
      as [[w1 t1] [[toolRes [err|]]|p]];
      cbn [trace_of outcome_of world_of fst snd ret] in *.
    + destruct (Hflag (tool_usage_marker (tool_name tc))) as (Hg1 & Hc1 & Hl1).
      rewrite app_nil_r. split; [|split].
      * rewrite !generate_count_app, Hg1, Hg. reflexivity.
      * apply Forall_app. split; [exact Hc1|].
        apply Forall_app. split; [exact Hnc | repeat constructor].
      * destruct Hout as (pre & e & -> & Hpre & He).
        destruct e as [msgs0 tools0 st0 res0| |toolName args [s [err'|]]| | | |];
          try (cbn in He; discriminate).
        { exfalso. rewrite generate_count_app in Hg.
          unfold generate_count in Hg. cbn in Hg. lia. }
        cbn in He. inversion He; subst err'.
        exists ((if flag then [EvSend (tool_usage_marker (tool_name tc))] else [])
                  ++ pre), toolName, args, s, err.
        split; [rewrite <- !app_assoc; reflexivity|].
        apply clean_app; assumption.
    + destruct (Hflag (tool_usage_marker (tool_name tc))) as (Hg1 & Hc1 & Hl1).
      destruct (Hflag (LF +++ "[tool_response] " +++ tool_name tc +++ ": "
                         +++ shown toolRes +++ "]" +++ LF +++ LF))
        as (Hg2 & Hc2 & Hl2).
      destruct Hout as (Hclean & _ & _).
      destruct (IH (msgs ++ [ai_message tc; tool_message tc toolRes]) w1)
        as (Hg3 & Hc3 & Ho3).
      split; [|split].
      * rewrite !generate_count_app, Hg1, Hg, Hg2, Hg3. reflexivity.
      * repeat (apply Forall_app; split); assumption.
      * destruct (outcome_of (streaming_tool_loop m flag tcs
                                (msgs ++ [ai_message tc; tool_message tc toolRes]) w1))
          as [[msgs'|]|p].
        -- repeat (apply clean_app; try assumption).
        -- destruct Ho3 as (c & toolName & args & s & err & -> & Hc).
           exists (((if flag then [EvSend (tool_usage_marker (tool_name tc))] else [])
                      ++ t1
                      ++ (if flag
                          then [EvSend (LF +++ "[tool_response] " +++ tool_name tc
                                          +++ ": " +++ shown toolRes +++ "]"
                                          +++ LF +++ LF)]
                          else [])) ++ c), toolName, args, s, err.
           split; [rewrite <- !app_assoc; reflexivity|].
           repeat (apply clean_app; try assumption).
        -- destruct Ho3 as [Hc ->]. split; [|reflexivity].
           repeat (apply clean_app; try assumption).
    + destruct (Hflag (tool_usage_marker (tool_name tc))) as (Hg1 & Hc1 & Hl1).
      destruct Hout as [-> ->]. rewrite app_nil_r.
      split; [exact Hg1|]. split; [exact Hc1|]. split; [exact Hl1 | reflexivity].
Qed.

(** The flag changes what the loop sends, and nothing else. *)
Lemma streaming_tool_loop_flag (m : MCPAgent) (tcs : list ToolCall) :
  forall (msgs : list MessageContent) (w : World),
    world_of (streaming_tool_loop m true tcs msgs w)
    = world_of (streaming_tool_loop m false tcs msgs w)
    /\ outcome_of (streaming_tool_loop m true tcs msgs w)
       = outcome_of (streaming_tool_loop m false tcs msgs w)
    /\ filter (fun e => negb (is_send e))
         (trace_of (streaming_tool_loop m true tcs msgs w))
       = filter (fun e => negb (is_send e))
           (trace_of (streaming_tool_loop m false tcs msgs w)).
Proof.
  induction tcs as [|tc tcs IH]; intros msgs w; [repeat split|].
  cbn [streaming_tool_loop]. rewrite !bind_run, !streaming_tool_step_run.
  destruct (ExecuteTool m (tool_name tc) (tool_arguments tc) w)
    as [[w1 t1] [[toolRes [err|]]|p]];
    cbn [trace_of outcome_of world_of fst snd ret app].
  - repeat split.
  - destruct (IH (msgs ++ [ai_message tc; tool_message tc toolRes]) w1)
      as (Hw & Ho & Ht).
    split; [exact Hw|]. split; [exact Ho|].
    rewrite !app_nil_r, <- !app_assoc.
    change (filter (fun e => negb (is_send e))
              (EvSend (tool_usage_marker (tool_name tc))
                 :: (t1 ++ [EvSend (LF +++ "[tool_response] " +++ tool_name tc +++ ": "
                                      +++ shown toolRes +++ "]" +++ LF +++ LF)] ++
                     trace_of (streaming_tool_loop m true tcs
                                 (msgs ++ [ai_message tc; tool_message tc toolRes]) w1)))
            = filter (fun e => negb (is_send e))
                (t1 ++ trace_of (streaming_tool_loop m false tcs
                                   (msgs ++ [ai_message tc; tool_message tc toolRes])
                                   w1))).
    cbn [filter is_send negb]. rewrite !filter_app. cbn [filter is_send negb app].
    rewrite Ht. reflexivity.
  - repeat split.
Qed.

(** The loop when every tool returns: what is done, and what is sent. *)
Lemma streaming_tool_loop_execute_all (m : MCPAgent) (flag : bool)
    (tcs : list ToolCall) :
  forall (msgs : list MessageContent) (w w2 : World) (t : list event)
         (results : list string),
    execute_all m tcs w = Some (w2, t, results) ->
    world_of (streaming_tool_loop m flag tcs msgs w) = w2
    /\ outcome_of (streaming_tool_loop m flag tcs msgs w)
       = Normal (Some (msgs ++ pair_messages tcs results))
    /\ filter (fun e => negb (is_send e))
         (trace_of (streaming_tool_loop m flag tcs msgs w)) = t
    /\ sent (trace_of (streaming_tool_loop m flag tcs msgs w))
       = if flag then progress_fragments tcs results else [].
Proof.
  induction tcs as [|tc tcs IH]; intros msgs w w2 t results H.
  - inversion H. cbn. rewrite app_nil_r. repeat split. destruct flag; reflexivity.
  - cbn [execute_all] in H.
    cbn [streaming_tool_loop]. rewrite bind_run, streaming_tool_step_run.
    pose proof (ExecuteTool_quiet m (tool_name tc) (tool_arguments tc) w) as (Hq & _).
    pose proof (ExecuteTool_effects m (tool_name tc) (tool_arguments tc) w)
      as (_ & _ & Hs & _ & _).
    destruct (ExecuteTool m (tool_name tc) (tool_arguments tc) w)
      as [[w1 t1] [[toolRes [err|]]|p]]; try discriminate.
    destruct (execute_all m tcs w1) as [[[w3 t3] rs]|] eqn:Hrest; [|discriminate].
    inversion H; subst.
    destruct (IH (msgs ++ [ai_message tc; tool_message tc toolRes]) w1 w2 t3 rs Hrest)
      as (Hw & Ho & Ht & Hsent).
    cbn [trace_of outcome_of world_of fst snd] in *.
    split; [exact Hw|]. split.
    + rewrite Ho, <- app_assoc. reflexivity.
    + split.
      * rewrite !filter_app, !filter_flag_send, Hq, Ht.
        cbn [app]. rewrite app_nil_r. reflexivity.
      * rewrite !sent_app, Hs, Hsent. destruct flag; reflexivity.
Qed.


(** How the body of the goroutine ends: no error has been reported; or
    the report of the one error is the last fragment sent. *)
Lemma streaming_body_ends (m : MCPAgent) (prompt : string) (flag : bool)
    (w : World) :
  Forall (fun e => is_close e = false) (trace_of (streaming_body m prompt flag w))
  /\ ((clean (trace_of (streaming_body m prompt flag w))
       /\ (outcome_of (streaming_body m prompt flag w) = Normal tt
           \/ outcome_of (streaming_body m prompt flag w)
              = Panicked (PanicRuntime SliceBoundsOutOfRange)))
      \/ (exists c e err,
             trace_of (streaming_body m prompt flag w)
             = c ++ [e; EvSend (error_report c e err)]
             /\ clean c /\ event_error e = Some err
             /\ outcome_of (streaming_body m prompt flag w) = Normal tt)).
Proof.
  unfold streaming_body.
  destruct (llm_GenerateContent w (LLMModel m) [human_message prompt]
              (ExtractToolsFromAgent m) true) as [[w1 chunks] res] eqn:Hllm.
  rewrite bind_run, (LLM_GenerateContent_first _ _ _ _ _ _ _ Hllm).
  set (sends := map EvSend (filter (fun chunk => negb (suppressed chunk)) chunks)).
  assert (Hs : clean sends) by apply clean_sends.
  assert (Hsc : Forall (fun e => is_close e = false) sends) by apply no_close_sends.
  assert (Hsg : generate_count sends = 0%nat) by apply generate_count_sends.
  destruct res as [err|resp].
  - cbn [emit world_of trace_of outcome_of fst snd]. split.
    + repeat (apply Forall_app; split); try assumption; repeat constructor.
    + right. exists sends, (EvGenerate [human_message prompt]
                             (ExtractToolsFromAgent m) true (inl err)), err.
      split; [|repeat split; assumption].
      rewrite <- app_assoc. cbn [error_report app]. rewrite Hsg. reflexivity.
  - unfold has_tool_calls.
    destruct (Choices resp) as [|choice0 rest] eqn:Hch.
    + cbn [ret world_of trace_of outcome_of fst snd]. rewrite app_nil_r. split.
      * apply Forall_app. split; [exact Hsc | repeat constructor].
      * left. split; [|left; reflexivity].
        apply clean_app; [exact Hs | repeat constructor].
    + destruct (0 <? Z.of_nat (length (ToolCalls choice0))).
      * cbn [index0]. rewrite bind_lift_normal, bind_run.
        destruct (streaming_tool_loop_ends m flag (ToolCalls choice0)
                    [human_message prompt] w1) as (Hg & Hnc & Ho).
        destruct (streaming_tool_loop m flag (ToolCalls choice0)
                    [human_message prompt] w1) as [[w2 t2] [[msgs'|]|p]];
          cbn [ret world_of trace_of outcome_of fst snd] in *.
        -- destruct (llm_GenerateContent w2 (LLMModel m) msgs'
                       (ExtractToolsFromAgent m) true) as [[w3 chunks2] res2] eqn:Hllm2.
           rewrite bind_run, (LLM_GenerateContent_final _ _ _ _ _ _ _ Hllm2).
           destruct res2 as [err2|resp2];
             cbn [emit ret world_of trace_of outcome_of fst snd].
           ++ split.
              ** repeat (apply Forall_app; split); try assumption;
                   try apply no_close_sends; repeat constructor.
              ** right.
                 exists ((sends ++ [EvGenerate [human_message prompt]
                                      (ExtractToolsFromAgent m) true (inr resp)])
                           ++ t2 ++ map EvSend chunks2),
                   (EvGenerate msgs' (ExtractToolsFromAgent m) true (inl err2)), err2.
                 split.
                 --- cbn [error_report].
                     rewrite !generate_count_app, Hsg, Hg, generate_count_sends.
                     cbn. rewrite <- !app_assoc. reflexivity.
                 --- repeat split.
                     repeat (apply clean_app; try assumption);
                       try apply clean_sends; repeat constructor.
           ++ rewrite app_nil_r. split.
              ** repeat (apply Forall_app; split); try assumption;
                   try apply no_close_sends; repeat constructor.
              ** left. split; [|left; reflexivity].
                 repeat (apply clean_app; try assumption);
                   try apply clean_sends; repeat constructor.
        -- rewrite app_nil_r. split.
           ++ repeat (apply Forall_app; split); try assumption; repeat constructor.
           ++ right. destruct Ho as (c & toolName & args & s & err & -> & Hc).
              exists ((sends ++ [EvGenerate [human_message prompt]
                                   (ExtractToolsFromAgent m) true (inr resp)]) ++ c),
                (EvExecuteTool toolName args (s, Some err)), err.
              split; [rewrite <- !app_assoc; reflexivity|].
              repeat split.
              repeat (apply clean_app; try assumption); repeat constructor.
        -- destruct Ho as [Hc ->]. split.
           ++ repeat (apply Forall_app; split); try assumption; repeat constructor.
           ++ left. split; [|right; reflexivity].
              repeat (apply clean_app; try assumption); repeat constructor.
      * cbn [ret world_of trace_of outcome_of fst snd]. rewrite app_nil_r. split.
        -- apply Forall_app. split; [exact Hsc | repeat constructor].
        -- left. split; [|left; reflexivity].
           apply clean_app; [exact Hs | repeat constructor].
Qed.

Lemma deferred_close_run {A : Type} (body : M A) (w : World) :
  deferred_close body w
  = (world_of (body w), trace_of (body w) ++ [EvClose], outcome_of (body w)).
Proof. unfold deferred_close. destruct (body w) as [[w1 t] o]. reflexivity. Qed.

End Streaming_turn.

(** X8.  The channel of the streaming turn: in every run of the goroutine
    of GenerateContentAsStreaming, whether it returns, stops on an error
    or panics, the channel is closed once, and closing it is the last
    thing that happens: nothing is sent on a closed channel. *)
Theorem X8_channel_closed_last {env : Env} (m : MCPAgent) (prompt : string)
    (addNotFinalResponses : bool) (w : World) :
  exists t,
    trace_of (GenerateContentAsStreaming m prompt addNotFinalResponses w)
    = t ++ [EvClose]
    /\ Forall (fun e => is_close e = false) t.
Proof.
  unfold GenerateContentAsStreaming. rewrite deferred_close_run.
  exists (trace_of (streaming_body m prompt addNotFinalResponses w)).
  split; [reflexivity|]. apply streaming_body_ends.
Qed.


(** A tool fails in streaming mode: the second tool is not executed, no
    final LLM call is made, the report is the last fragment. *)
Example X9_failing_tool_example :
  sent (trace_of (GenerateContentAsStreaming (calc_agent bad_arguments_script)
                    calc_prompt false 0%nat))
  = ["Error executing tool: invalid JSON arguments: invalid JSON text"]
  /\ executed (trace_of (GenerateContentAsStreaming (calc_agent bad_arguments_script)
                           calc_prompt false 0%nat))
     = [("calc__add", "a=2,b=2")]
  /\ generate_count (trace_of (GenerateContentAsStreaming
                                 (calc_agent bad_arguments_script)
                                 calc_prompt false 0%nat)) = 1%nat
  /\ outcome_of (GenerateContentAsStreaming (calc_agent bad_arguments_script)
                   calc_prompt false 0%nat) = Normal tt.
Proof. repeat split; vm_compute; reflexivity. Qed.

(** X10.  A response without tool calls, streaming mode: whenever the
    first LLM call returns, without error, a response that holds no
    choice, or whose first choice holds no tool call, the goroutine of
    GenerateContentAsStreaming sends the fragments of that call that the
    classifier lets through, in order, closes the channel and returns: it
    makes no other call, and it does not panic where the blocking turn
    does. *)
Theorem X10_streaming_without_tool_calls {env : Env} (m : MCPAgent)
    (prompt : string) (addNotFinalResponses : bool) (w w1 : World)
    (chunks : list string) (resp : ContentResponse) :
  llm_GenerateContent w (LLMModel m) [human_message prompt]
    (ExtractToolsFromAgent m) true = (w1, chunks, inr resp) ->
  has_tool_calls resp = false ->
  GenerateContentAsStreaming m prompt addNotFinalResponses w
  = (w1,
     map EvSend (filter (fun chunk => negb (suppressed chunk)) chunks)
       ++ [EvGenerate [human_message prompt] (ExtractToolsFromAgent m) true
             (inr resp);
           EvClose],
     Normal tt).
Proof.
  intros H Hno.
  unfold GenerateContentAsStreaming. rewrite deferred_close_run.
  unfold streaming_body.
  rewrite bind_run, (LLM_GenerateContent_first _ _ _ _ _ _ _ H), Hno.
  cbn [ret world_of trace_of outcome_of fst snd].
  rewrite app_nil_r, <- app_assoc. reflexivity.
Qed.

Lemma X10_witness :
  GenerateContentAsStreaming (calc_agent no_choices_script) calc_prompt true 0%nat
  = (1%nat,
     map EvSend (filter (fun chunk =>
                           negb (@suppressed (scripted no_choices_script) chunk))
                   ["Hel"; "lo"])
       ++ [EvGenerate [human_message calc_prompt]
             (ExtractToolsFromAgent (calc_agent no_choices_script)) true
             (inr {| Choices := [] |});
           EvClose],
     Normal tt).
Proof.
  apply (X10_streaming_without_tool_calls (calc_agent no_choices_script)
           calc_prompt true 0%nat 1%nat ["Hel"; "lo"] {| Choices := [] |});
    reflexivity.
Defined.

(** X11.  A round of tools in streaming mode: whenever the first LLM call
    returns a response whose first choice holds tool calls, and every tool
    returns without error, the goroutine of GenerateContentAsStreaming
    does, sends apart, exactly this: the first LLM call, the tool calls
    in order, and one more LLM call, on the prompt followed by the
    request and result messages of the tools; it sends, in order, the
    fragments of the first call that the classifier lets through, with
    the flag the usage marker and the response marker of every tool, all
    the fragments of the final call without classifying them, and the
    report of the error of the final call if it failed; then it closes
    the channel and returns. *)
Theorem X11_streaming_tool_round {env : Env} (m : MCPAgent) (prompt : string)
    (addNotFinalResponses : bool) (w w1 w2 w3 : World)
    (chunks chunks2 : list string) (resp : ContentResponse)
    (choice0 : ContentChoice) (rest : list ContentChoice) (t : list event)
    (results : list string) (res2 : error + ContentResponse) :
  llm_GenerateContent w (LLMModel m) [human_message prompt]
    (ExtractToolsFromAgent m) true = (w1, chunks, inr resp) ->
  Choices resp = choice0 :: rest ->
  ToolCalls choice0 <> [] ->
  execute_all m (ToolCalls choice0) w1 = Some (w2, t, results) ->
  llm_GenerateContent w2 (LLMModel m)
    ([human_message prompt] ++ pair_messages (ToolCalls choice0) results)
    (ExtractToolsFromAgent m) true = (w3, chunks2, res2) ->
  world_of (GenerateContentAsStreaming m prompt addNotFinalResponses w) = w3
  /\ outcome_of (GenerateContentAsStreaming m prompt addNotFinalResponses w)
     = Normal tt
  /\ filter (fun e => negb (is_send e))
       (trace_of (GenerateContentAsStreaming m prompt addNotFinalResponses w))
     = [EvGenerate [human_message prompt] (ExtractToolsFromAgent m) true (inr resp)]
         ++ t
         ++ [EvGenerate
               ([human_message prompt] ++ pair_messages (ToolCalls choice0) results)
               (ExtractToolsFromAgent m) true res2;
             EvClose]
  /\ sent (trace_of (GenerateContentAsStreaming m prompt addNotFinalResponses w))
     = filter (fun chunk => negb (suppressed chunk)) chunks
         ++ (if addNotFinalResponses
             then progress_fragments (ToolCalls choice0) results
             else [])
         ++ chunks2
         ++ match res2 with
            | inl err => ["Error generating final content: " +++ Error err]
            | inr _ => []
            end.
Proof.
  intros H Hch Hcalls Hex H2.
  destruct (streaming_tool_loop_execute_all m addNotFinalResponses
              (ToolCalls choice0) [human_message prompt] w1 w2 t results Hex)
    as (Hw & Ho & Ht & Hs).
  unfold GenerateContentAsStreaming. rewrite deferred_close_run.
  unfold streaming_body.
  rewrite bind_run, (LLM_GenerateContent_first _ _ _ _ _ _ _ H).
  assert (Hhas : has_tool_calls resp = true).
  { unfold has_tool_calls. rewrite Hch.
    destruct (ToolCalls choice0); [contradiction Hcalls; reflexivity | reflexivity]. }
  rewrite Hhas, Hch. cbn [index0]. rewrite bind_lift_normal, bind_run.
  destruct (streaming_tool_loop m addNotFinalResponses (ToolCalls choice0)
              [human_message prompt] w1) as [[w2' t2] o2].
  cbn [world_of trace_of outcome_of fst snd] in Hw, Ho, Ht, Hs. subst w2' o2.
  rewrite bind_run, (LLM_GenerateContent_final _ _ _ _ _ _ _ H2).
  destruct res2 as [err2|resp2];
    cbn [emit ret world_of trace_of outcome_of fst snd];
    (split; [reflexivity|]); (split; [reflexivity|]); split.
  - rewrite !filter_app, !filter_sends, Ht. cbn.
    rewrite <- ?app_assoc, ?app_nil_r. reflexivity.
  - rewrite !sent_app, !sent_sends, Hs. cbn.
    rewrite <- ?app_assoc, ?app_nil_r. reflexivity.
  - rewrite !filter_app, !filter_sends, Ht. cbn.
    rewrite <- ?app_assoc, ?app_nil_r. reflexivity.
  - rewrite !sent_app, !sent_sends, Hs. cbn.
    rewrite <- ?app_assoc, ?app_nil_r. reflexivity.
Qed.

Lemma X11_witness :
  world_of (GenerateContentAsStreaming (calc_agent calc_script) calc_prompt true
              0%nat) = 2%nat
  /\ outcome_of (GenerateContentAsStreaming (calc_agent calc_script) calc_prompt
                   true 0%nat) = Normal tt
  /\ filter (fun e => negb (is_send e))
       (trace_of (GenerateContentAsStreaming (calc_agent calc_script) calc_prompt
                    true 0%nat))
     = [EvGenerate [human_message calc_prompt]
          (ExtractToolsFromAgent (calc_agent calc_script)) true
          (inr (response EmptyString
                  [call "call_1" "calc__add" (Json.text "{'a':2,'b':2}")]))]
         ++ trace_of (ExecuteTool (calc_agent calc_script) "calc__add"
                        (Json.text "{'a':2,'b':2}") 1%nat)
         ++ [EvGenerate
               ([human_message calc_prompt]
                  ++ pair_messages
                       [call "call_1" "calc__add" (Json.text "{'a':2,'b':2}")] ["4"])
               (ExtractToolsFromAgent (calc_agent calc_script)) true
               (inr (response "The answer is 4." []));
             EvClose]
  /\ sent (trace_of (GenerateContentAsStreaming (calc_agent calc_script) calc_prompt
                       true 0%nat))
     = filter (fun chunk => negb (@suppressed (scripted calc_script) chunk)) []
         ++ progress_fragments
              [call "call_1" "calc__add" (Json.text "{'a':2,'b':2}")] ["4"]
         ++ ["The answer "; "is 4."]
         ++ [].
Proof.
  apply (X11_streaming_tool_round (calc_agent calc_script) calc_prompt true
           0%nat 1%nat 1%nat 2%nat [] ["The answer "; "is 4."]
           (response EmptyString
              [call "call_1" "calc__add" (Json.text "{'a':2,'b':2}")])
           {| Choice_Content := EmptyString;
              ToolCalls := [call "call_1" "calc__add" (Json.text "{'a':2,'b':2}")] |}
           []
           (trace_of (ExecuteTool (calc_agent calc_script) "calc__add"
                        (Json.text "{'a':2,'b':2}") 1%nat))
           ["4"]
           (inr (response "The answer is 4." [])));
    try reflexivity.
  discriminate.
Defined.

(** X12.  The flag addNotFinalResponses changes the text, and nothing
    else.  Blocking mode: with and without the flag, GenerateContent
    leaves the same world and does the same things in the same order; it
    returns in both cases or panics in both cases, with the same panic;
    the text returned with the flag ends with the text returned without
    it.  Streaming mode: with and without the flag, the goroutine of
    GenerateContentAsStreaming leaves the same world, ends in the same
    way, and does the same things in the same order, sends apart. *)
Theorem X12_flag_changes_the_text_only {env : Env} (m : MCPAgent)
    (prompt : string) (w : World) :
  (world_of (GenerateContent m prompt true w)
   = world_of (GenerateContent m prompt false w)
   /\ trace_of (GenerateContent m prompt true w)
      = trace_of (GenerateContent m prompt false w)
   /\ match outcome_of (GenerateContent m prompt true w),
            outcome_of (GenerateContent m prompt false w) with
      | Normal text1, Normal text2 => exists progress, text1 = progress +++ text2
      | Panicked p1, Panicked p2 => p1 = p2
      | _, _ => False
      end)
  /\ (world_of (GenerateContentAsStreaming m prompt true w)
      = world_of (GenerateContentAsStreaming m prompt false w)
      /\ outcome_of (GenerateContentAsStreaming m prompt true w)
         = outcome_of (GenerateContentAsStreaming m prompt false w)
      /\ filter (fun e => negb (is_send e))
           (trace_of (GenerateContentAsStreaming m prompt true w))
         = filter (fun e => negb (is_send e))
             (trace_of (GenerateContentAsStreaming m prompt false w))).
Proof.
  split.
  - destruct (GenerateContent_vs_0 m prompt true w) as (Hw1 & Ht1 & Ho1).
    destruct (GenerateContent_vs_0 m prompt false w) as (Hw2 & Ht2 & Ho2).
    split; [congruence|]. split; [congruence|].
    destruct (outcome_of (GenerateContent m prompt true w)) as [text1|p1];
      destruct (outcome_of (GenerateContent m prompt false w)) as [text2|p2];
      destruct (outcome_of (GenerateContent0 m prompt w)) as [content|p0];
      try contradiction.
    + eexists. rewrite Ho1, Ho2. reflexivity.
    + congruence.
  - unfold GenerateContentAsStreaming. rewrite !deferred_close_run.
    cbn [world_of trace_of outcome_of fst snd]. rewrite !filter_app.
    unfold streaming_body.
    destruct (llm_GenerateContent w (LLMModel m) [human_message prompt]
                (ExtractToolsFromAgent m) true) as [[w1 chunks] res] eqn:Hllm.
    rewrite !bind_run, !(LLM_GenerateContent_first _ _ _ _ _ _ _ Hllm).
    destruct res as [err|resp]; [repeat split|].
    destruct (has_tool_calls resp) eqn:Hhas; [|repeat split].
    unfold has_tool_calls in Hhas.
    destruct (Choices resp) as [|choice0 rest]; [discriminate|].
    cbn [index0]. rewrite !bind_lift_normal, !bind_run.
    destruct (streaming_tool_loop_flag m (ToolCalls choice0) [human_message prompt]
                w1) as (Hw & Ho & Ht).
    destruct (streaming_tool_loop m true (ToolCalls choice0)
                [human_message prompt] w1) as [[w2 t2] o2].
    destruct (streaming_tool_loop m false (ToolCalls choice0)
                [human_message prompt] w1) as [[w2' t2'] o2'].
    cbn [world_of trace_of outcome_of fst snd] in Hw, Ho, Ht. subst w2' o2'.
    destruct o2 as [[msgs'|]|p];
      cbn [world_of trace_of outcome_of fst snd ret];
      [|rewrite !filter_app, Ht; repeat split..].
    destruct (llm_GenerateContent w2 (LLMModel m) msgs' (ExtractToolsFromAgent m)
                true) as [[w3 chunks2] res2] eqn:Hllm2.
    rewrite !bind_run, !(LLM_GenerateContent_final _ _ _ _ _ _ _ Hllm2).
    destruct res2 as [err2|resp2];
      cbn [emit ret world_of trace_of outcome_of fst snd];
      rewrite !filter_app, Ht; repeat split.
Qed.

(** ** Building an agent *)
Section Building.

Context {env : Env} {senv : SetupEnv env}.

Lemma setup_bind_run {A B : Type} (m : Init A) (k : A -> Init B) (w : World) :
  setup_bind m k w
  = (world_of (k (outcome_of (m w)) (world_of (m w))),
     trace_of (m w) ++ trace_of (k (outcome_of (m w)) (world_of (m w))),
     outcome_of (k (outcome_of (m w)) (world_of (m w)))).
Proof.
  unfold setup_bind. destruct (m w) as [[w1 t1] a].
  cbn [world_of trace_of outcome_of fst snd].
  destruct (k a w1) as [[w2 t2] b]. reflexivity.
Qed.

Lemma map_get_In {V : Type} (m : list (string * V)) (key : string) (v : V) :
  map_get m key = Some v -> In (key, v) m.
Proof.
  induction m as [|[k x] m IH]; [discriminate|].
  cbn [map_get]. destruct (String.eqb k key) eqn:E.
  - intros H. inversion H; subst. apply String.eqb_eq in E. subst. left. reflexivity.
  - intros H. right. apply IH. exact H.
Qed.

Lemma In_map_set {V : Type} (m : list (string * V)) (key : string) (value : V)
    (k : string) (v : V) :
  In (k, v) (map_set m key value) -> (k = key /\ v = value) \/ In (k, v) m.
Proof.
  induction m as [|[k0 x] m IH]; cbn [map_set].
  - intros [H|[]]. inversion H. left. split; reflexivity.
  - destruct (String.eqb k0 key) eqn:E.
    + intros [H|H].
      * inversion H; subst. apply String.eqb_eq in E. left. split; [exact E | reflexivity].
      * right. right. exact H.
    + intros [H|H].
      * right. left. exact H.
      * destruct (IH H) as [Hl|Hr]; [left; exact Hl | right; right; exact Hr].
Qed.

Lemma map_get_set_same {V : Type} (m : list (string * V)) (key : string) (value : V) :
  map_get (map_set m key value) key = Some value.
Proof.
  induction m as [|[k x] m IH]; cbn [map_set map_get].
  - rewrite String.eqb_refl. reflexivity.
  - destruct (String.eqb k key) eqn:E; cbn [map_get]; rewrite E; [reflexivity | exact IH].
Qed.

Lemma map_get_set_other {V : Type} (m : list (string * V)) (key k : string)
    (value : V) :
  key <> k -> map_get (map_set m key value) k = map_get m k.
Proof.
  intros Hne. induction m as [|[k0 x] m IH]; cbn [map_set map_get].
  - apply String.eqb_neq in Hne. rewrite Hne. reflexivity.
  - destruct (String.eqb k0 key) eqn:E; cbn [map_get].
    + apply String.eqb_eq in E. subst k0.
      apply String.eqb_neq in Hne. rewrite Hne. reflexivity.
    + destruct (String.eqb k0 k); [reflexivity | exact IH].
Qed.

Lemma server_named_found (servers : list MCPServer) (name : string)
    (mcpServer : MCPServer) :
  server_named servers name = Some mcpServer ->
  In mcpServer servers /\ Name mcpServer = name.
Proof.
  unfold server_named. intros H. destruct (find_some _ _ H) as [Hin Hn].
  split; [exact Hin | apply String.eqb_eq; exact Hn].
Qed.

Lemma slices_Find_server (servers : list MCPServer) (name : string) :
  slices_Find servers (fun s => String.eqb (Name s) name)
  = match server_named servers name with
    | Some mcpServer => inr mcpServer
    | None => inl ErrNotFound
    end.
Proof. reflexivity. Qed.

(** One iteration: the servers, the calls of ListTools, the fields that
    stay. *)
Lemma NewMCPAgent_step_servers (servers : list MCPServer) (ag : MCPAgent)
    (srv : MCPAgentServer) (w : World) :
  mcpServers (outcome_of (NewMCPAgent_step servers ag srv w))
  = mcpServers ag ++ found_servers servers [srv]
  /\ listed (trace_of (NewMCPAgent_step servers ag srv w))
     = found_servers servers [srv]
  /\ MCPAgent_Name (outcome_of (NewMCPAgent_step servers ag srv w))
     = MCPAgent_Name ag
  /\ MCPServerNames (outcome_of (NewMCPAgent_step servers ag srv w))
     = MCPServerNames ag
  /\ Provider (outcome_of (NewMCPAgent_step servers ag srv w)) = Provider ag
  /\ LLMModel (outcome_of (NewMCPAgent_step servers ag srv w)) = LLMModel ag.
Proof.
  unfold NewMCPAgent_step, found_servers. rewrite slices_Find_server.
  cbn [flat_map]. rewrite app_nil_r.
  destruct (server_named servers (MCPAgentServer_Name srv)) as [mcpServer|].
  - rewrite setup_bind_run. unfold Client_ListTools.
    destruct (client_ListTools w (Client mcpServer)) as [w1 [[Tools|] [err|]]];
      cbn [world_of trace_of outcome_of fst snd];
      try (repeat split; reflexivity).
    rewrite setup_bind_run.
    destruct (map_get (MCPServerTools (append_server ag mcpServer))
                (MCPAgentServer_Name srv));
      repeat split; reflexivity.
  - cbn. rewrite app_nil_r. repeat split; reflexivity.
Qed.

Lemma listed_app (a b : list setup_event) : listed (a ++ b) = listed a ++ listed b.
Proof.
  induction a as [|x a IH]; [reflexivity|].
  destruct x; cbn; rewrite ?IH; reflexivity.
Qed.

Lemma found_servers_cons (servers : list MCPServer) (srv : MCPAgentServer)
    (rest : list MCPAgentServer) :
  found_servers servers (srv :: rest)
  = found_servers servers [srv] ++ found_servers servers rest.
Proof. unfold found_servers. cbn [flat_map]. rewrite app_nil_r. reflexivity. Qed.

Lemma NewMCPAgent_loop_servers (servers : list MCPServer)
    (rest : list MCPAgentServer) :
  forall (ag : MCPAgent) (w : World),
    mcpServers (outcome_of (NewMCPAgent_loop servers ag rest w))
    = mcpServers ag ++ found_servers servers rest
    /\ listed (trace_of (NewMCPAgent_loop servers ag rest w))
       = found_servers servers rest
    /\ MCPAgent_Name (outcome_of (NewMCPAgent_loop servers ag rest w))
       = MCPAgent_Name ag
    /\ MCPServerNames (outcome_of (NewMCPAgent_loop servers ag rest w))
       = MCPServerNames ag
    /\ Provider (outcome_of (NewMCPAgent_loop servers ag rest w)) = Provider ag
    /\ LLMModel (outcome_of (NewMCPAgent_loop servers ag rest w)) = LLMModel ag.
Proof.
  induction rest as [|srv rest IH]; intros ag w.
  - cbn. rewrite app_nil_r. repeat split; reflexivity.
  - cbn [NewMCPAgent_loop]. rewrite setup_bind_run.
    cbn [world_of trace_of outcome_of fst snd].
    destruct (NewMCPAgent_step_servers servers ag srv w)
      as (Hs & Hl & Hn & Hns & Hp & Hm).
    destruct (IH (outcome_of (NewMCPAgent_step servers ag srv w))
                (world_of (NewMCPAgent_step servers ag srv w)))
      as (Hs' & Hl' & Hn' & Hns' & Hp' & Hm').
    rewrite found_servers_cons.
    split; [rewrite Hs', Hs, app_assoc; reflexivity|].
    split; [rewrite listed_app, Hl', Hl; reflexivity|].
    repeat split; congruence.
Qed.

Lemma NewMCPAgent_servers (name : string) (all : list MCPAgentServer)
    (servers : list MCPServer) (provider : string) (llmModel : Model) (w : World) :
  mcpServers (outcome_of (NewMCPAgent name all servers provider llmModel w))
  = found_servers servers all.
Proof.
  unfold NewMCPAgent.
  apply (NewMCPAgent_loop_servers servers all
           {| MCPAgent_Name := name; MCPServerNames := all;
              MCPServerTools := []; mcpServers := []; Provider := provider;
              LLMModel := llmModel |} w).
Qed.

(** Every server found for a name is the first server of that name. *)
Lemma found_servers_named (servers : list MCPServer)
    (all : list MCPAgentServer) (s : MCPServer) :
  In s (found_servers servers all) -> server_named servers (Name s) = Some s.
Proof.
  unfold found_servers. intros H. apply in_flat_map in H.
  destruct H as (srv & _ & Hin).
  destruct (server_named servers (MCPAgentServer_Name srv)) as [mcpServer|] eqn:E;
    [|contradiction].
  destruct Hin as [<-|[]].
  destruct (server_named_found _ _ _ E) as [_ Hn]. rewrite Hn. exact E.
Qed.

Lemma found_servers_In (servers : list MCPServer) (all : list MCPAgentServer)
    (srv : MCPAgentServer) (mcpServer : MCPServer) :
  In srv all ->
  server_named servers (MCPAgentServer_Name srv) = Some mcpServer ->
  In mcpServer (found_servers servers all).
Proof.
  intros Hin E. unfold found_servers. apply in_flat_map.
  exists srv. split; [exact Hin|]. rewrite E. left. reflexivity.
Qed.

(** What [ExecuteTool] finds, among the servers found, for a name. *)
Lemma find_the_named (l : list MCPServer) (name : string) (s : MCPServer) :
  In s l -> Name s = name ->
  (forall x, In x l -> Name x = name -> x = s) ->
  find (fun srv => String.eqb (Name srv) name) l = Some s.
Proof.
  induction l as [|x l IH]; intros Hin Hn Huniq; [contradiction|].
  cbn [find]. destruct (String.eqb (Name x) name) eqn:E.
  - apply String.eqb_eq in E. f_equal. apply Huniq; [left; reflexivity | exact E].
  - destruct Hin as [->|Hin].
    + apply String.eqb_neq in E. contradiction.
    + apply IH; [exact Hin | exact Hn |].
      intros y Hy. apply Huniq. right. exact Hy.
Qed.

Lemma tools_listed_more (servers : list MCPServer) (all : list MCPAgentServer)
    (t t' : list setup_event) (ag : MCPAgent) :
  tools_listed servers all t ag -> tools_listed servers all (t ++ t') ag.
Proof.
  intros H key agTs agT H1 H2.
  destruct (H key agTs agT H1 H2) as (srv & mcpServer & Tools & Ha & Hb & Hc & Hd & He).
  exists srv, mcpServer, Tools. repeat split; try assumption; try apply He.
  apply in_or_app. left. exact Hd.
Qed.

Lemma NewMCPAgent_step_tools (servers : list MCPServer) (all : list MCPAgentServer)
    (t : list setup_event) (ag : MCPAgent) (srv : MCPAgentServer) (w : World) :
  In srv all -> tools_listed servers all t ag ->
  tools_listed servers all (t ++ trace_of (NewMCPAgent_step servers ag srv w))
    (outcome_of (NewMCPAgent_step servers ag srv w)).
Proof.
  intros Hin Hgood.
  unfold NewMCPAgent_step. rewrite slices_Find_server.
  destruct (server_named servers (MCPAgentServer_Name srv)) as [mcpServer|] eqn:Hnamed;
    [|apply tools_listed_more; exact Hgood].
  rewrite setup_bind_run. unfold Client_ListTools.
  destruct (client_ListTools w (Client mcpServer)) as [w1 [[Tools|] [err|]]];
    cbn [world_of trace_of outcome_of fst snd];
    try (apply tools_listed_more; exact Hgood).
  rewrite setup_bind_run. cbn [Printf setup_ret world_of trace_of outcome_of fst snd].
  intros key agTs agT H1 H2.
  cbn [set_tools MCPServerTools] in H1.
  apply In_map_set in H1. destruct H1 as [[-> ->]|H1].
  - (* the entry that this iteration sets *)
    apply in_app_or in H2. destruct H2 as [H2|H2].
    + (* a tool that the entry held before *)
      unfold get_tools in H2.
      destruct (map_get (MCPServerTools (append_server ag mcpServer))
                  (MCPAgentServer_Name srv)) as [old|] eqn:Hget.
      * rewrite Hget in H2. apply map_get_In in Hget.
        destruct (Hgood _ _ _ Hget H2)
          as (srv' & mcpServer' & Tools' & Ha & Hb & Hc & Hd & He).
        exists srv', mcpServer', Tools'.
        repeat split; try assumption; try apply He.
        apply in_or_app. left. exact Hd.
      * cbn [set_tools MCPServerTools] in H2.
        rewrite map_get_set_same in H2. contradiction.
    + apply filter_In in H2. destruct H2 as [H2 Hallowed].
      exists srv, mcpServer, Tools.
      repeat split; try assumption.
      apply in_or_app. right. left. reflexivity.
  - (* another entry *)
    assert (Hold : In (key, agTs) (MCPServerTools ag)).
    { destruct (map_get (MCPServerTools (append_server ag mcpServer))
                  (MCPAgentServer_Name srv)); [exact H1|].
      cbn [set_tools MCPServerTools append_server] in H1.
      apply In_map_set in H1. destruct H1 as [[_ ->]|H1]; [contradiction | exact H1]. }
    destruct (Hgood _ _ _ Hold H2)
      as (srv' & mcpServer' & Tools' & Ha & Hb & Hc & Hd & He).
    exists srv', mcpServer', Tools'.
    repeat split; try assumption; try apply He.
    apply in_or_app. left. exact Hd.
Qed.

Lemma NewMCPAgent_loop_tools (servers : list MCPServer) (all : list MCPAgentServer)
    (rest : list MCPAgentServer) :
  forall (t : list setup_event) (ag : MCPAgent) (w : World),
    incl rest all -> tools_listed servers all t ag ->
    tools_listed servers all (t ++ trace_of (NewMCPAgent_loop servers ag rest w))
      (outcome_of (NewMCPAgent_loop servers ag rest w)).
Proof.
  induction rest as [|srv rest IH]; intros t ag w Hincl Hgood.
  - cbn. rewrite app_nil_r. exact Hgood.
  - cbn [NewMCPAgent_loop]. rewrite setup_bind_run.
    cbn [world_of trace_of outcome_of fst snd]. rewrite app_assoc.
    apply IH.
    + intros x Hx. apply Hincl. right. exact Hx.
    + apply NewMCPAgent_step_tools; [apply Hincl; left; reflexivity | exact Hgood].
Qed.

End Building.

(** X13.  The servers of a new agent: for every call of NewMCPAgent, the
    servers of the agent are, in the order of the names it is given, the
    first server of each name; a name for which there is no server is
    skipped, without any error; ListTools is called once on each of
    these servers, in that order, and on no other; whether ListTools
    fails changes none of this.  The name, the list of names, the
    provider and the model of the agent are those given. *)
Theorem X13_servers_of_a_new_agent {env : Env} {senv : SetupEnv env}
    (name : string) (mcpServersForAgent : list MCPAgentServer)
    (servers : list MCPServer) (provider : string) (llmModel : Model)
    (w : World) :
  mcpServers (outcome_of (NewMCPAgent name mcpServersForAgent servers provider
                            llmModel w))
  = found_servers servers mcpServersForAgent
  /\ listed (trace_of (NewMCPAgent name mcpServersForAgent servers provider
                         llmModel w))
     = found_servers servers mcpServersForAgent
  /\ MCPAgent_Name (outcome_of (NewMCPAgent name mcpServersForAgent servers
                                  provider llmModel w)) = name
  /\ MCPServerNames (outcome_of (NewMCPAgent name mcpServersForAgent servers
                                   provider llmModel w)) = mcpServersForAgent
  /\ Provider (outcome_of (NewMCPAgent name mcpServersForAgent servers provider
                             llmModel w)) = provider
  /\ LLMModel (outcome_of (NewMCPAgent name mcpServersForAgent servers provider
                             llmModel w)) = llmModel.
Proof.
  unfold NewMCPAgent.
  apply (NewMCPAgent_loop_servers servers mcpServersForAgent
           {| MCPAgent_Name := name; MCPServerNames := mcpServersForAgent;
              MCPServerTools := []; mcpServers := []; Provider := provider;
              LLMModel := llmModel |} w).
Qed.

(** A name without a server, and a server that cannot list its tools. *)
Example X13_missing_server_example :
  map Name
    (mcpServers
       (outcome_of
          (@NewMCPAgent (scripted calc_script) (scripted_setup calc_script calc_setup)
             "my-agent"
             [{| MCPAgentServer_Name := "files"; AllowedTools := [] |};
              {| MCPAgentServer_Name := "calc"; AllowedTools := [] |};
              {| MCPAgentServer_Name := "mail"; AllowedTools := [] |}]
             [calc_server calc_script;
              @Build_MCPServer (scripted calc_script) "mail" "sse" []
                "http://localhost:8080" [] "mail-client"]
             "my-azure-provider" tt 0%nat)))
  = ["calc"; "mail"]
  /\ map fst
       (MCPServerTools
          (outcome_of
             (@NewMCPAgent (scripted calc_script)
                (scripted_setup calc_script calc_setup) "my-agent"
                [{| MCPAgentServer_Name := "files"; AllowedTools := [] |};
                 {| MCPAgentServer_Name := "calc"; AllowedTools := [] |};
                 {| MCPAgentServer_Name := "mail"; AllowedTools := [] |}]
                [calc_server calc_script;
                 @Build_MCPServer (scripted calc_script) "mail" "sse" []
                   "http://localhost:8080" [] "mail-client"]
                "my-azure-provider" tt 0%nat)))
     = ["calc"].
Proof. split; vm_compute; reflexivity. Qed.

(** X14.  The tools that a new agent offers to the LLM: every tool
    definition that ExtractToolsFromAgent gives for an agent built by
    NewMCPAgent is a function whose name is a name the agent was given,
    the separator, and the name of a tool that the first server of that
    name listed, without error, during the call of NewMCPAgent; the tool
    passes the filter of an entry of that name: the entry allows every
    tool (its list is empty) or names the tool.  The description and the
    two parameters are those of the tool listed. *)
Theorem X14_offered_tools_are_listed_and_allowed {env : Env}
    {senv : SetupEnv env} (name : string)
    (mcpServersForAgent : list MCPAgentServer) (servers : list MCPServer)
    (provider : string) (llmModel : Model) (w : World) :
  Forall
    (fun t : llms_Tool =>
       exists srv mcpServer Tools agT,
         In srv mcpServersForAgent
         /\ server_named servers (MCPAgentServer_Name srv) = Some mcpServer
         /\ In (EvListTools mcpServer (Some Tools, None))
              (trace_of (NewMCPAgent name mcpServersForAgent servers provider
                           llmModel w))
         /\ In agT Tools
         /\ (AllowedTools srv = [] \/ In (mcp_Tool_Name agT) (AllowedTools srv))
         /\ t = {| llms_Tool_Type := "function";
                   Function :=
                     {| FunctionDefinition_Name :=
                          MCPAgentServer_Name srv +++ "__" +++ mcp_Tool_Name agT;
                        FunctionDefinition_Description := mcp_Tool_Description agT;
                        Parameters :=
                          [("type", Json.JString (InputSchema_Type (InputSchema agT)));
                           ("properties", Properties (InputSchema agT))] |} |})
    (ExtractToolsFromAgent
       (outcome_of (NewMCPAgent name mcpServersForAgent servers provider
                      llmModel w))).
Proof.
  apply Forall_forall. intros t Ht.
  unfold ExtractToolsFromAgent in Ht. apply in_flat_map in Ht.
  destruct Ht as ([key agTs] & Hentry & Ht).
  apply in_map_iff in Ht. destruct Ht as (agT & <- & HagT).
  assert (Hgood : tools_listed servers mcpServersForAgent
                    ([] ++ trace_of (NewMCPAgent name mcpServersForAgent servers
                                       provider llmModel w))
                    (outcome_of (NewMCPAgent name mcpServersForAgent servers
                                   provider llmModel w))).
  { unfold NewMCPAgent. apply NewMCPAgent_loop_tools.
    - apply incl_refl.
    - intros k ts a Hin. contradiction Hin. }
  destruct (Hgood key agTs agT Hentry HagT)
    as (srv & mcpServer & Tools & Ha & Hb & Hc & Hd & He & Hf).
  exists srv, mcpServer, Tools, agT. subst key.
  repeat split; try assumption.
  unfold allowed_tool in Hf. apply orb_true_iff in Hf. destruct Hf as [Hf|Hf].
  - left. apply Z.eqb_eq in Hf. destruct (AllowedTools srv); [reflexivity|].
    cbn [length] in Hf. lia.
  - right. unfold slices_Contains in Hf. apply existsb_exists in Hf.
    destruct Hf as (item & Hin & Heq). apply String.eqb_eq in Heq. subst item.
    exact Hin.
Qed.

(** The agent that is allowed the tool add only offers that tool. *)
Example X14_add_only_example :
  map (fun t => FunctionDefinition_Name (Function t))
    (ExtractToolsFromAgent
       (outcome_of
          (@NewMCPAgent (scripted two_tools_script)
             (scripted_setup two_tools_script calc_setup) "my-agent" add_only
             [calc_server two_tools_script] "my-azure-provider" tt 0%nat)))
  = ["calc__add"].
Proof. vm_compute. reflexivity. Qed.

(** X15.  The list of allowed tools is not consulted when a tool is
    executed: for an agent built by NewMCPAgent, for every name the agent
    was given for which there is a server (a name that neither contains
    the separator nor ends in an underscore), and for every local tool
    name whatever, allowed or not, listed by the server or not,
    ExecuteTool on that name, the separator and the local name calls the
    first server of that name, once, with the local name and the
    validated arguments. *)
Theorem X15_allowed_tools_not_consulted_by_ExecuteTool {env : Env}
    {senv : SetupEnv env} (name : string)
    (mcpServersForAgent : list MCPAgentServer) (servers : list MCPServer)
    (provider : string) (llmModel : Model) (w : World)
    (srv : MCPAgentServer) (mcpServer : MCPServer) (T args : string)
    (arguments : option string) (w' : World) :
  In srv mcpServersForAgent ->
  server_named servers (MCPAgentServer_Name srv) = Some mcpServer ->
  strings_Index (MCPAgentServer_Name srv) "__" = -1 ->
  strings_HasSuffix (MCPAgentServer_Name srv) "_" = false ->
  validate_arguments args = inr arguments ->
  provider_calls
    (trace_of (ExecuteTool
                 (outcome_of (NewMCPAgent name mcpServersForAgent servers provider
                                llmModel w))
                 (MCPAgentServer_Name srv +++ "__" +++ T) args w'))
  = [(mcpServer,
      {| Method := "tools/call"; Params_Name := T;
         Params_Arguments := arguments |})].
Proof.
  intros Hin Hnamed Hidx Hsuf Hv.
  pose proof (ExecuteTool_provider_calls
                (outcome_of (NewMCPAgent name mcpServersForAgent servers provider
                               llmModel w))
                (MCPAgentServer_Name srv +++ "__" +++ T) args arguments w' Hv) as Hp.
  rewrite (split_composed_name _ T Hidx Hsuf) in Hp.
  rewrite (NewMCPAgent_servers name mcpServersForAgent servers provider llmModel w)
    in Hp.
  assert (Hfind : slices_Find (found_servers servers mcpServersForAgent)
                    (fun s => String.eqb (Name s) (MCPAgentServer_Name srv))
                  = inr mcpServer).
  { unfold slices_Find.
    rewrite (find_the_named _ (MCPAgentServer_Name srv) mcpServer).
    - reflexivity.
    - eapply found_servers_In; eassumption.
    - apply (server_named_found _ _ _ Hnamed).
    - intros x Hx Hn. apply found_servers_named in Hx.
      rewrite Hn, Hnamed in Hx. inversion Hx. reflexivity. }
  rewrite Hfind in Hp. exact Hp.
Qed.

Lemma X15_witness :
  provider_calls
    (trace_of (ExecuteTool
                 (outcome_of
                    (@NewMCPAgent (scripted two_tools_script)
                       (scripted_setup two_tools_script calc_setup) "my-agent"
                       add_only [calc_server two_tools_script]
                       "my-azure-provider" tt 0%nat))
                 ("calc" +++ "__" +++ "mul") "{}" 0%nat))
  = [(calc_server two_tools_script,
      {| Method := "tools/call"; Params_Name := "mul";
         Params_Arguments := None |})].
Proof.
  apply (@X15_allowed_tools_not_consulted_by_ExecuteTool
           (scripted two_tools_script)
           (scripted_setup two_tools_script calc_setup) "my-agent" add_only
           [calc_server two_tools_script] "my-azure-provider" tt 0%nat
           {| MCPAgentServer_Name := "calc"; AllowedTools := ["add"] |}
           (calc_server two_tools_script) "mul" "{}" None 0%nat);
    try reflexivity.
  left. reflexivity.
Defined.

(** ** Building a server *)
Section Servers.

Context {env : Env} {senv : SetupEnv env}.

Lemma index_nat_colon (k v : string) :
  index_nat k ":" = None ->
  index_nat (k +++ ":" +++ v) ":" = Some (String.length k).
Proof.
  induction k as [|c k IH]; intros H.
  - reflexivity.
  - cbn [index_nat] in H. cbn [String.append index_nat].
    destruct (strings_HasPrefix (String c k) ":") eqn:Hp; [discriminate|].
    destruct (index_nat k ":") eqn:Hk; [discriminate|].
    specialize (IH eq_refl). cbn [String.append] in IH.
    cbn [strings_HasPrefix] in Hp |- *. rewrite Hp, IH. reflexivity.
Qed.

(** A header is split at its first colon. *)
Lemma strings_SplitN_2_colon (k v : string) :
  strings_Index k ":" = -1 -> strings_SplitN_2 (k +++ ":" +++ v) ":" = [k; v].
Proof.
  intros H. apply strings_Index_absent in H. unfold strings_SplitN_2.
  rewrite (index_nat_colon k v H), substring_0_append.
  f_equal. f_equal.
  rewrite length_append. cbn [String.length String.append].
  replace (String.length k + S (String.length v) - (String.length k + 1))%nat
    with (String.length v) by lia.
  replace (String.length k + 1)%nat with (String.length (k +++ ":"))
    by (rewrite length_append; reflexivity).
  change (String ":" v) with (":" +++ v).
  rewrite <- (append_assoc k ":" v). apply substring_skip_append.
Qed.

Lemma add_header_other (headers : list (string * string)) (header key : string) :
  header_key header <> Some key ->
  map_get (add_header headers header) key = map_get headers key.
Proof.
  unfold add_header, header_key.
  destruct (strings_SplitN_2 header ":") as [|part0 [|part1 [|part2 rest]]];
    try reflexivity.
  intros Hne. apply map_get_set_other. intros Heq. apply Hne. rewrite Heq. reflexivity.
Qed.

Lemma fold_add_header_others (rest : list string) :
  forall (headers : list (string * string)) (key : string),
    Forall (fun header => header_key header <> Some key) rest ->
    map_get (fold_left add_header rest headers) key = map_get headers key.
Proof.
  induction rest as [|header rest IH]; intros headers key H; [reflexivity|].
  inversion H as [|x l Hx Hl]; subst. cbn [fold_left].
  rewrite (IH _ _ Hl). apply add_header_other. exact Hx.
Qed.

Lemma stdio_command_parts (Command : list string) :
  stdio_command Command = (nth 0 Command EmptyString, skipn 1 Command).
Proof.
  unfold stdio_command. destruct Command as [|command [|arg rest]]; try reflexivity.
  cbn [length nth skipn].
  replace (0 <? Z.of_nat (S (S (length rest)))) with true
    by (symmetry; apply Z.ltb_lt; lia).
  replace (1 <? Z.of_nat (S (S (length rest)))) with true
    by (symmetry; apply Z.ltb_lt; lia).
  reflexivity.
Qed.

Lemma GetTransportType_sse (s : MCPServer) :
  String.eqb (Type_ s) "sse" = true -> GetTransportType s = "sse".
Proof.
  intros H. unfold GetTransportType. rewrite H.
  apply String.eqb_eq in H. rewrite H. reflexivity.
Qed.

Lemma GetTransportType_other (s : MCPServer) :
  String.eqb (Type_ s) "sse" = false -> GetTransportType s = "stdio".
Proof.
  intros H. unfold GetTransportType. rewrite H.
  destruct (String.eqb (Type_ s) "local" || String.eqb (Type_ s) "stdio");
    reflexivity.
Qed.

(** What [createMCPClient] does first, and what it returns. *)
Lemma createMCPClient_run (m : MCPServer) (w : World) :
  exists res rest,
    trace_of (createMCPClient m w)
    = (if String.eqb (Type_ m) "sse"
       then EvNewSSEMCPClient (URL m) (sse_options (Headers m)) res
       else EvNewStdioMCPClient (nth 0 (Command m) EmptyString) []
              (skipn 1 (Command m)) res)
        :: rest
    /\ initialized (trace_of (createMCPClient m w)) = []
    /\ forall cli, outcome_of (createMCPClient m w) = inr cli -> res = inr cli.
Proof.
  unfold createMCPClient.
  destruct (String.eqb (Type_ m) "sse") eqn:E.
  - rewrite (GetTransportType_sse m E). cbv zeta.
    change (String.eqb "sse" "stdio") with false.
    change (String.eqb "sse" "sse") with true. cbv iota.
    rewrite setup_bind_run. unfold New_SSEMCPClient.
    destruct (NewSSEMCPClient w (URL m) (sse_options (Headers m))) as [w1 [err|cli]];
      cbn [world_of trace_of outcome_of fst snd setup_ret app].
    + eexists _, []. repeat split. intros cli H. discriminate.
    + rewrite setup_bind_run. unfold Client_Start.
      destruct (client_Start w1 cli) as [w2 [err|]];
        cbn [world_of trace_of outcome_of fst snd setup_ret app];
        eexists _, _; repeat split; intros cli' H; [discriminate | exact H].
  - rewrite (GetTransportType_other m E). cbv zeta.
    change (String.eqb "stdio" "stdio") with true. cbv iota.
    rewrite stdio_command_parts, setup_bind_run. unfold New_StdioMCPClient.
    destruct (NewStdioMCPClient w (nth 0 (Command m) EmptyString) []
                (skipn 1 (Command m))) as [w1 [err|cli]];
      cbn [world_of trace_of outcome_of fst snd setup_ret app].
    + eexists _, []. repeat split. intros cli H. discriminate.
    + rewrite setup_bind_run.
      cbn [Sleep world_of trace_of outcome_of fst snd setup_ret app].
      eexists _, _. repeat split. intros cli' H. exact H.
Qed.

End Servers.

(** X16.  The transport of a server: GetTransportType gives sse for the
    type sse and stdio for every other type, known or not; so for every
    server createMCPClient begins by calling a constructor, never ending
    on an unsupported transport type: for the type sse the SSE
    constructor, on the URL of the server; for every other type the
    stdio constructor, with no environment, the first element of Command
    as the command, the empty string when Command is empty, and the other
    elements as arguments.  The client it returns, when it returns one,
    is the one this constructor gave. *)
Theorem X16_transport_of_a_server {env : Env} {senv : SetupEnv env}
    (m : MCPServer) (w : World) :
  GetTransportType m = (if String.eqb (Type_ m) "sse" then "sse" else "stdio")
  /\ exists res rest,
       trace_of (createMCPClient m w)
       = (if String.eqb (Type_ m) "sse"
          then EvNewSSEMCPClient (URL m) (sse_options (Headers m)) res
          else EvNewStdioMCPClient (nth 0 (Command m) EmptyString) []
                 (skipn 1 (Command m)) res)
           :: rest
       /\ forall cli, outcome_of (createMCPClient m w) = inr cli -> res = inr cli.
Proof.
  split.
  - destruct (String.eqb (Type_ m) "sse") eqn:E;
      [apply GetTransportType_sse | apply GetTransportType_other]; exact E.
  - destruct (createMCPClient_run m w) as (res & rest & Ht & _ & Hc).
    exists res, rest. split; assumption.
Qed.

(** A server of an unknown type, with no command. *)
Example X16_unknown_type_example :
  trace_of
    (@createMCPClient (scripted calc_script) (scripted_setup calc_script calc_setup)
       (@Build_MCPServer (scripted calc_script) "web" "http" []
          "http://localhost:8080" [] EmptyString) 0%nat)
  = [@EvNewStdioMCPClient (scripted calc_script) EmptyString [] [] (inr "-client");
     @EvSleep (scripted calc_script) 100000000].
Proof. reflexivity. Qed.

(** X17.  The headers of the SSE client: a header is split at its first
    colon, so that the value may hold colons; for a header K:V in which K
    holds no colon, when no header after it in the list sets the same
    key, the map of headers handed to the SSE constructor holds, under K
    with the white space around it removed, V with the white space around
    it removed, whatever the headers before it; and the option
    WithHeaders is passed with that map. *)
Theorem X17_headers_of_the_SSE_client {env : Env} {senv : SetupEnv env}
    (before rest : list string) (k v : string) :
  strings_Index k ":" = -1 ->
  Forall (fun header => header_key header <> Some (strings_TrimSpace k)) rest ->
  map_get (fold_left add_header (before ++ (k +++ ":" +++ v) :: rest) [])
    (strings_TrimSpace k)
  = Some (strings_TrimSpace v)
  /\ sse_options (before ++ (k +++ ":" +++ v) :: rest)
     = [WithHeaders
          (fold_left add_header (before ++ (k +++ ":" +++ v) :: rest) [])].
Proof.
  intros Hk Hrest.
  assert (Hget : map_get (fold_left add_header (before ++ (k +++ ":" +++ v) :: rest) [])
                   (strings_TrimSpace k) = Some (strings_TrimSpace v)).
  { rewrite fold_left_app. cbn [fold_left].
    rewrite (fold_add_header_others rest _ _ Hrest).
    unfold add_header. rewrite (strings_SplitN_2_colon k v Hk).
    apply map_get_set_same. }
  split; [exact Hget|].
  unfold sse_options.
  replace (0 <? Z.of_nat (length (before ++ (k +++ ":" +++ v) :: rest))) with true
    by (symmetry; apply Z.ltb_lt; rewrite length_app; cbn [length]; lia).
  destruct (fold_left add_header (before ++ (k +++ ":" +++ v) :: rest) [])
    as [|entry headers]; [discriminate|].
  reflexivity.
Qed.

Lemma X17_witness :
  map_get
    (fold_left
       (@add_header (scripted calc_script) (scripted_setup calc_script calc_setup))
       (["no colon here"; "Authorization: none"]
          ++ ("Authorization " +++ ":" +++ " Bearer a:b ") :: ["X-Env:prod"]) [])
    (trim_space "Authorization ")
  = Some (trim_space " Bearer a:b ")
  /\ @sse_options (scripted calc_script) (scripted_setup calc_script calc_setup)
       (["no colon here"; "Authorization: none"]
          ++ ("Authorization " +++ ":" +++ " Bearer a:b ") :: ["X-Env:prod"])
     = [WithHeaders
          (fold_left
             (@add_header (scripted calc_script)
                (scripted_setup calc_script calc_setup))
             (["no colon here"; "Authorization: none"]
                ++ ("Authorization " +++ ":" +++ " Bearer a:b ") :: ["X-Env:prod"])
             [])].
Proof.
  apply (@X17_headers_of_the_SSE_client (scripted calc_script)
           (scripted_setup calc_script calc_setup)
           ["no colon here"; "Authorization: none"] ["X-Env:prod"]
           "Authorization " " Bearer a:b ").
  - reflexivity.
  - constructor; [|constructor]. vm_compute. discriminate.
Defined.

(** The map of these headers. *)
Example X17_headers_example :
  @sse_options (scripted calc_script) (scripted_setup calc_script calc_setup)
    ["no colon here"; "Authorization: none"; "Authorization : Bearer a:b ";
     "X-Env:prod"]
  = [WithHeaders [("Authorization", "Bearer a:b"); ("X-Env", "prod")]]
  /\ @sse_options (scripted calc_script) (scripted_setup calc_script calc_setup)
       ["no colon here"; "nor here"]
     = [].
Proof. split; vm_compute; reflexivity. Qed.

(** X18.  A new server is an initialized server: whenever NewMCPServer
    returns a server, the server has the name, the type, the command,
    the URL and the headers given, its client is the one that the
    constructor gave, and Initialize has been called on that client,
    once, with the latest protocol version and the client information
    mcp-agents-go 1.0.0, and has returned no error.  Whenever it returns
    an error, either no client was initialized (the client could not be
    made, and the error is that of createMCPClient), or Initialize was
    called once and failed, and the error returned is a new error, failed
    to initialize MCP client and the text of the cause, that does not
    wrap the cause. *)
Theorem X18_a_new_server_is_initialized {env : Env} {senv : SetupEnv env}
    (name serverType : string) (command : list string) (url : string)
    (headers : list string) (w : World) :
  match outcome_of (NewMCPServer name serverType command url headers w) with
  | inr s =>
      Name s = name /\ Type_ s = serverType /\ Command s = command
      /\ URL s = url /\ Headers s = headers
      /\ Exists (constructed (Client s))
           (trace_of (NewMCPServer name serverType command url headers w))
      /\ initialized (trace_of (NewMCPServer name serverType command url headers w))
         = [(Client s, init_request, None)]
  | inl err =>
      (initialized (trace_of (NewMCPServer name serverType command url headers w))
       = []
       /\ outcome_of (createMCPClient
                        {| Name := name; Type_ := serverType; Command := command;
                           URL := url; Headers := headers;
                           Client := nil_MCPClient |} w) = inl err)
      \/ exists cli cause,
           Exists (constructed cli)
             (trace_of (NewMCPServer name serverType command url headers w))
           /\ initialized (trace_of (NewMCPServer name serverType command url
                                       headers w))
              = [(cli, init_request, Some cause)]
           /\ err = Err ("failed to initialize MCP client: " +++ Error cause)
  end.
Proof.
  unfold NewMCPServer. cbv zeta. rewrite setup_bind_run.
  destruct (createMCPClient_run
              {| Name := name; Type_ := serverType; Command := command;
                 URL := url; Headers := headers; Client := nil_MCPClient |} w)
    as (res & rest & Ht & Hi & Hc).
  destruct (createMCPClient
              {| Name := name; Type_ := serverType; Command := command;
                 URL := url; Headers := headers; Client := nil_MCPClient |} w)
    as [[w1 t1] [err|cli]]; cbn [world_of trace_of outcome_of fst snd] in *.
  - cbn [setup_ret world_of trace_of outcome_of fst snd].
    rewrite app_nil_r. left. split; [exact Hi | reflexivity].
  - specialize (Hc cli eq_refl). subst res.
    assert (Hcons : Exists (constructed cli) t1).
    { rewrite Ht. apply Exists_cons_hd.
      cbn [Type_ URL Headers Command].
      destruct (String.eqb serverType "sse"); reflexivity. }
    rewrite setup_bind_run. unfold Client_Initialize.
    cbn [Client Name Type_ Command URL Headers].
    fold init_request.
    destruct (client_Initialize w1 cli init_request) as [w2 [cause|]];
      cbn [world_of trace_of outcome_of fst snd].
    + rewrite setup_bind_run.
      cbn [Printf setup_ret world_of trace_of outcome_of fst snd].
      right. exists cli, cause. split; [|split].
      * apply Exists_app. left. exact Hcons.
      * assert (Happ : forall a b, initialized (a ++ b) = initialized a ++ initialized b).
        { induction a as [|x a IHa]; intros b; [reflexivity|].
          destruct x; cbn; rewrite ?IHa; reflexivity. }
        rewrite Happ, Hi. reflexivity.
      * reflexivity.
    + cbn [setup_ret world_of trace_of outcome_of fst snd Name Type_ Command URL
             Headers Client].
      repeat split.
      * apply Exists_app. left. exact Hcons.
      * assert (Happ : forall a b, initialized (a ++ b) = initialized a ++ initialized b).
        { induction a as [|x a IHa]; intros b; [reflexivity|].
          destruct x; cbn; rewrite ?IHa; reflexivity. }
        rewrite Happ, Hi. reflexivity.
Qed.

(** The client cannot be initialized. *)
Example X18_failing_initialize_example :
  outcome_of
    (@NewMCPServer (scripted calc_script)
       (scripted_setup calc_script failing_init_setup)
       "calc" "stdio" ["calc-server"; "--port"; "0"] EmptyString [] 0%nat)
  = inl (Err "failed to initialize MCP client: connection refused")
  /\ outcome_of
       (@NewMCPServer (scripted calc_script) (scripted_setup calc_script calc_setup)
          "calc" "stdio" ["calc-server"] EmptyString [] 0%nat)
     = inr (@Build_MCPServer (scripted calc_script) "calc" "stdio" ["calc-server"]
              EmptyString [] "calc-server-client").
Proof. split; reflexivity. Qed.

(** ** Only the tools asked for are executed *)
Section Requested_tools.

Context {env : Env}.

Lemma executed_app (a b : list event) : executed (a ++ b) = executed a ++ executed b.
Proof.
  induction a as [|x a IH]; [reflexivity|].
  destruct x; cbn; rewrite ?IH; reflexivity.
Qed.

Lemma executed_sends (l : list string) : executed (map EvSend l) = [].
Proof. induction l as [|x l IH]; [reflexivity | exact IH]. Qed.

Lemma executed_prints (t : list event) :
  executed (filter (fun e => negb (is_print e)) t) = executed t.
Proof.
  induction t as [|e t IH]; [reflexivity|].
  destruct e; cbn; rewrite ?IH; reflexivity.
Qed.

(** A call of [ExecuteTool] that returns is recorded once; one that
    panics is not recorded. *)
Lemma ExecuteTool_executed (m : MCPAgent) (toolName args : string) (w : World) :
  executed (trace_of (ExecuteTool m toolName args w))
  = match outcome_of (ExecuteTool m toolName args w) with
    | Normal _ => [(toolName, args)]
    | Panicked _ => []
    end.
Proof.
  destruct (ExecuteTool_shape m toolName args w)
    as [(w1 & pre & r & Hrun & Hpre)|Hrun]; rewrite Hrun; [|reflexivity].
  destruct Hpre as [->|(srv & req & res & ->)]; reflexivity.
Qed.

Lemma tool_loop0_executed (m : MCPAgent) (tcs : list ToolCall) :
  forall (msgs : list MessageContent) (w : World),
  exists rest,
    map (fun tc => (tool_name tc, tool_arguments tc)) tcs
    = executed (trace_of (tool_loop0 m tcs msgs w)) ++ rest.
Proof.
  induction tcs as [|tc tcs IH]; intros msgs w.
  - exists []. reflexivity.
  - cbn [tool_loop0]. rewrite bind_run, tool_step0_run.
    pose proof (ExecuteTool_executed m (tool_name tc) (tool_arguments tc) w) as He.
    destruct (ExecuteTool m (tool_name tc) (tool_arguments tc) w)
      as [[w1 t1] [[toolRes [err|]]|p]];
      cbn [trace_of outcome_of world_of fst snd app executed map] in *.
    + rewrite He. eexists. reflexivity.
    + destruct (IH (msgs ++ [ai_message tc; tool_message tc toolRes]) w1)
        as [rest Hrest].
      exists rest. rewrite executed_app, He, Hrest. reflexivity.
    + rewrite He. eexists. reflexivity.
Qed.

Lemma streaming_tool_loop_executed (m : MCPAgent) (flag : bool)
    (tcs : list ToolCall) :
  forall (msgs : list MessageContent) (w : World),
  exists rest,
    map (fun tc => (tool_name tc, tool_arguments tc)) tcs
    = executed (trace_of (streaming_tool_loop m flag tcs msgs w)) ++ rest.
Proof.
  induction tcs as [|tc tcs IH]; intros msgs w.
  - exists []. reflexivity.
  - cbn [streaming_tool_loop]. rewrite bind_run, streaming_tool_step_run.
    pose proof (ExecuteTool_executed m (tool_name tc) (tool_arguments tc) w) as He.
    assert (Hflag : forall fragment,
               executed (if flag then [EvSend fragment] else []) = []).
    { intros fragment. destruct flag; reflexivity. }
    destruct (ExecuteTool m (tool_name tc) (tool_arguments tc) w)
      as [[w1 t1] [[toolRes [err|]]|p]];
      cbn [trace_of outcome_of world_of fst snd ret map] in *.
    + rewrite !executed_app, Hflag, He. cbn. eexists. reflexivity.
    + destruct (IH (msgs ++ [ai_message tc; tool_message tc toolRes]) w1)
        as [rest Hrest].
      exists rest. rewrite !executed_app, !Hflag, He, Hrest. reflexivity.
    + rewrite !executed_app, Hflag, He. cbn. eexists. reflexivity.
Qed.

Lemma GenerateContent0_executed (m : MCPAgent) (prompt : string) (w : World) :
  exists rest,
    map (fun tc => (tool_name tc, tool_arguments tc))
      (requested (trace_of (GenerateContent0 m prompt w)))
    = executed (trace_of (GenerateContent0 m prompt w)) ++ rest.
Proof.
  unfold GenerateContent0.
  destruct (LLM_GenerateContent_blocking_run (LLMModel m) [human_message prompt]
              (ExtractToolsFromAgent m) w) as (w1 & res & Hllm).
  rewrite !bind_run, Hllm.
  destruct res as [err|resp]; [exists []; reflexivity|].
  destruct (Choices resp) as [|choice0 rest0] eqn:Hch.
  { cbn. rewrite Hch. exists []. reflexivity. }
  cbn [index0]. rewrite !bind_lift_normal.
  cbn [world_of trace_of outcome_of fst snd app requested executed].
  rewrite Hch.
  destruct (0 <? Z.of_nat (length (ToolCalls choice0))).
  - rewrite !bind_run.
    destruct (tool_loop0_executed m (ToolCalls choice0) [human_message prompt] w1)
      as [rest Hrest].
    destruct (tool_loop0 m (ToolCalls choice0) [human_message prompt] w1)
      as [[w2 t2] [msgs2|p2]]; cbn [world_of trace_of outcome_of fst snd] in *.
    + destruct (LLM_GenerateContent_blocking_run (LLMModel m) msgs2
                  (ExtractToolsFromAgent m) w2) as (w3 & res2 & Hllm2).
      rewrite !bind_run, Hllm2. cbn [world_of trace_of outcome_of fst snd].
      exists rest. rewrite !executed_app, Hrest.
      destruct res2 as [err2|resp2]; [|destruct (Choices resp2)];
        cbn; rewrite ?app_nil_r; reflexivity.
    + exists rest. exact Hrest.
  - rewrite !bind_lift_normal. cbn. eexists. reflexivity.
Qed.

End Requested_tools.

(** X19.  Only the tools asked for are executed: in every turn, blocking
    (both variants) or streaming, however it ends, the calls of ExecuteTool
    that returned are, name and arguments, the first of the tool calls of
    the first LLM response, in the order of the response: no tool that
    was not asked for is executed, none is executed twice or out of its
    turn, and the arguments are passed as the LLM gave them. *)
Theorem X19_only_requested_tools_are_executed {env : Env} (m : MCPAgent)
    (prompt : string) (addNotFinalResponses : bool) (w : World) :
  (exists rest,
      map (fun tc => (tool_name tc, tool_arguments tc))
        (requested (trace_of (GenerateContent m prompt addNotFinalResponses w)))
      = executed (trace_of (GenerateContent m prompt addNotFinalResponses w))
          ++ rest)
  /\ (exists rest,
         map (fun tc => (tool_name tc, tool_arguments tc))
           (requested (trace_of (GenerateContent0 m prompt w)))
         = executed (trace_of (GenerateContent0 m prompt w)) ++ rest)
  /\ (exists rest,
         map (fun tc => (tool_name tc, tool_arguments tc))
           (requested (trace_of (GenerateContentAsStreaming m prompt
                                   addNotFinalResponses w)))
         = executed (trace_of (GenerateContentAsStreaming m prompt
                                 addNotFinalResponses w)) ++ rest).
Proof.
  split; [|split].
  - destruct (GenerateContent_vs_0 m prompt addNotFinalResponses w) as (_ & Ht & _).
    rewrite Ht, requested_prints, executed_prints.
    apply GenerateContent0_executed.
  - apply GenerateContent0_executed.
  - unfold GenerateContentAsStreaming. rewrite deferred_close_run.
    cbn [trace_of fst snd]. unfold streaming_body.
    destruct (llm_GenerateContent w (LLMModel m) [human_message prompt]
                (ExtractToolsFromAgent m) true) as [[w1 chunks] res] eqn:Hllm.
    rewrite bind_run, (LLM_GenerateContent_first _ _ _ _ _ _ _ Hllm).
    cbn [world_of trace_of outcome_of fst snd].
    rewrite <- !app_assoc, requested_sends, !executed_app, executed_sends.
    cbn [app requested executed].
    destruct res as [err|resp]; [exists []; reflexivity|].
    unfold has_tool_calls.
    destruct (Choices resp) as [|choice0 rest0]; [exists []; reflexivity|].
    destruct (0 <? Z.of_nat (length (ToolCalls choice0))).
    + cbn [index0]. rewrite bind_lift_normal, bind_run.
      destruct (streaming_tool_loop_executed m addNotFinalResponses
                  (ToolCalls choice0) [human_message prompt] w1) as [rest Hrest].
      destruct (streaming_tool_loop m addNotFinalResponses (ToolCalls choice0)
                  [human_message prompt] w1) as [[w2 t2] [[msgs'|]|p]];
        cbn [ret world_of trace_of outcome_of fst snd] in *.
      * destruct (llm_GenerateContent w2 (LLMModel m) msgs'
                    (ExtractToolsFromAgent m) true) as [[w3 chunks2] res2] eqn:Hllm2.
        rewrite bind_run, (LLM_GenerateContent_final _ _ _ _ _ _ _ Hllm2).
        cbn [world_of trace_of outcome_of fst snd].
        exists rest. rewrite !executed_app, Hrest, executed_sends.
        destruct res2 as [err2|resp2]; cbn; rewrite ?app_nil_r; reflexivity.
      * exists rest. rewrite ?app_nil_r. exact Hrest.
      * exists rest. rewrite ?app_nil_r. exact Hrest.
    + cbn. eexists. reflexivity.
Qed.

(** ** The configuration *)
Section Configuration.

Context {env : Env} {senv : SetupEnv env}.

Lemma opened_app (a b : list setup_event) : opened (a ++ b) = opened a ++ opened b.
Proof.
  induction a as [|x a IH]; [reflexivity|].
  destruct x; cbn; rewrite ?IH; reflexivity.
Qed.

Lemma map_get_set (V : Type) (m : list (string * V)) (key k : string) (value : V) :
  map_get (map_set m key value) k
  = if String.eqb key k then Some value else map_get m k.
Proof.
  destruct (String.eqb key k) eqn:E.
  - apply String.eqb_eq in E. subst k. apply map_get_set_same.
  - apply map_get_set_other. apply String.eqb_neq. exact E.
Qed.

(** One iteration of the loop of [initLLMProviders]. *)
Lemma initLLMProviders_step_run (acc : list (string * Model))
    (provider : LLMProvider) (w : World) :
  initLLMProviders_step acc provider w
  = if is_AZURE provider then
      match openai_New w (options_of provider) with
      | (w1, inl err) =>
          (w1,
           [EvOpenAINew (options_of provider) (inl err);
            EvPrintf ("Error creating LLM model for provider "
                        +++ LLMProvider_Name provider +++ ": " +++ Error err)],
           inl err)
      | (w1, inr llmModel) =>
          (w1,
           [EvOpenAINew (options_of provider) (inr llmModel);
            EvPrintf ("LLM model for provider "
                        +++ fmt_q (LLMProvider_Name provider)
                        +++ " created successfully" +++ LF)],
           inr (map_set acc (LLMProvider_Name provider) llmModel))
      end
    else (w, [], inr acc).
Proof.
  unfold initLLMProviders_step, is_AZURE, options_of.
  destruct (String.eqb (LLMProvider_Type provider) "AZURE"); [|reflexivity].
  rewrite setup_bind_run. unfold OpenAI_New.
  destruct (openai_New w _) as [w1 [err|llmModel]]; reflexivity.
Qed.

(** The loop of [initLLMProviders], from the map [acc]. *)
Lemma initLLMProviders_loop_run (providers : list LLMProvider) :
  forall (acc : list (string * Model)) (w : World),
    match outcome_of (initLLMProviders_loop providers acc w) with
    | inr models =>
        map fst (opened (trace_of (initLLMProviders_loop providers acc w)))
        = map options_of (filter is_AZURE providers)
        /\ (forall name,
              (exists llmModel, map_get models name = Some llmModel)
              <-> ((exists llmModel, map_get acc name = Some llmModel)
                   \/ exists provider,
                        In provider providers /\ is_AZURE provider = true
                        /\ LLMProvider_Name provider = name))
        /\ (forall name llmModel,
              map_get models name = Some llmModel ->
              map_get acc name = Some llmModel
              \/ exists provider,
                   In provider providers /\ is_AZURE provider = true
                   /\ LLMProvider_Name provider = name
                   /\ In (options_of provider, inr llmModel)
                        (opened (trace_of (initLLMProviders_loop providers acc w))))
    | inl err =>
        exists before provider rest calls,
          providers = before ++ provider :: rest
          /\ is_AZURE provider = true
          /\ opened (trace_of (initLLMProviders_loop providers acc w))
             = calls ++ [(options_of provider, inl err)]
          /\ map fst (opened (trace_of (initLLMProviders_loop providers acc w)))
             = map options_of (filter is_AZURE (before ++ [provider]))
    end.
Proof.
  induction providers as [|provider providers IH]; intros acc w.
  - cbn. split; [reflexivity|]. split.
    + intros name. split; [intros H; left; exact H|].
      intros [H|(p & [] & _)]. exact H.
    + intros name llmModel H. left. exact H.
  - cbn [initLLMProviders_loop]. rewrite setup_bind_run, initLLMProviders_step_run.
    cbn [filter]. destruct (is_AZURE provider) eqn:Haz.
    + destruct (openai_New w (options_of provider)) as [w1 [err|llmModel]];
        cbn [world_of trace_of outcome_of fst snd setup_ret].
      * exists [], provider, providers, []. cbn [app opened map filter].
        rewrite Haz. repeat split.
      * specialize (IH (map_set acc (LLMProvider_Name provider) llmModel) w1).
        destruct (outcome_of (initLLMProviders_loop providers
                                (map_set acc (LLMProvider_Name provider) llmModel) w1))
          as [err|models].
        -- destruct IH as (before & p & rest & calls & -> & Hp & Hlast & Hmap).
           exists (provider :: before), p, rest,
             ((options_of provider, inr llmModel) :: calls).
           split; [reflexivity|]. split; [exact Hp|].
           cbn [app opened map filter]. rewrite Haz. cbn [map]. split.
           ++ rewrite Hlast. reflexivity.
           ++ rewrite Hmap. reflexivity.
        -- destruct IH as (Hmap & Hkeys & Hvals).
           cbn [app opened map]. split; [rewrite Hmap; reflexivity|]. split.
           ++ intros name. rewrite (Hkeys name), map_get_set. split.
              ** intros [[m Hm]|(p & Hin & Hp & Hn)].
                 --- destruct (String.eqb (LLMProvider_Name provider) name) eqn:E.
                     +++ right. exists provider. apply String.eqb_eq in E.
                         repeat split; [left; reflexivity | exact Haz | exact E].
                     +++ left. exists m. exact Hm.
                 --- right. exists p. repeat split; [right; exact Hin | exact Hp | exact Hn].
              ** intros [[m Hm]|(p & [<-|Hin] & Hp & Hn)].
                 --- left. destruct (String.eqb (LLMProvider_Name provider) name);
                       eexists; [reflexivity | exact Hm].
                 --- left. apply String.eqb_eq in Hn. rewrite Hn. eexists. reflexivity.
                 --- right. exists p. repeat split; assumption.
           ++ intros name m Hm. destruct (Hvals name m Hm) as [Hacc|(p & Hin & Hp & Hn & Ho)].
              ** rewrite map_get_set in Hacc.
                 destruct (String.eqb (LLMProvider_Name provider) name) eqn:E.
                 --- right. exists provider. apply String.eqb_eq in E.
                     inversion Hacc; subst.
                     repeat split; [left; reflexivity | exact Haz | left; reflexivity].
                 --- left. exact Hacc.
              ** right. exists p.
                 repeat split; [right; exact Hin | exact Hp | exact Hn | right; exact Ho].
    + cbn [world_of trace_of outcome_of fst snd app].
      specialize (IH acc w).
      destruct (outcome_of (initLLMProviders_loop providers acc w)) as [err|models].
      * destruct IH as (before & p & rest & calls & -> & Hp & Hlast & Hmap).
        exists (provider :: before), p, rest, calls.
        split; [reflexivity|]. split; [exact Hp|]. split; [exact Hlast|].
        cbn [app filter]. rewrite Haz. exact Hmap.
      * destruct IH as (Hmap & Hkeys & Hvals).
        split; [exact Hmap|]. split.
        -- intros name. rewrite (Hkeys name). split.
           ++ intros [H|(p & Hin & Hp & Hn)]; [left; exact H|].
              right. exists p. repeat split; [right; exact Hin | exact Hp | exact Hn].
           ++ intros [H|(p & [<-|Hin] & Hp & Hn)]; [left; exact H | congruence|].
              right. exists p. repeat split; assumption.
        -- intros name m Hm. destruct (Hvals name m Hm) as [Hacc|(p & Hin & Hp & Hn & Ho)];
             [left; exact Hacc|].
           right. exists p. repeat split; [right; exact Hin | exact Hp | exact Hn | exact Ho].
Qed.

(** [initAgents] returns no error. *)
Lemma initAgents_no_error (SysConfig : SystemConfig) (agents : list config_MCPAgent)
    (w : World) :
  snd (outcome_of (initAgents SysConfig agents w)) = None.
Proof. unfold initAgents. rewrite setup_bind_run. reflexivity. Qed.

(** The servers that [initAgents] hands to [NewMCPAgent]. *)
Lemma find_servers_run (SysConfig : SystemConfig) (ag : config_MCPAgent)
    (entries : list MCPAgentServer) (w : World) :
  world_of (slices_Map_effects entries (find_server SysConfig ag) w) = w
  /\ Forall (fun s =>
               s = zero_MCPServer
               \/ exists srv,
                    In srv entries
                    /\ map_get (Servers SysConfig) (MCPAgentServer_Name srv) = Some s)
       (outcome_of (slices_Map_effects entries (find_server SysConfig ag) w)).
Proof.
  induction entries as [|srv entries IH]; [split; [reflexivity | constructor]|].
  cbn [slices_Map_effects]. rewrite !setup_bind_run.
  assert (Hf : world_of (find_server SysConfig ag srv w) = w
               /\ (outcome_of (find_server SysConfig ag srv w) = zero_MCPServer
                   \/ map_get (Servers SysConfig) (MCPAgentServer_Name srv)
                      = Some (outcome_of (find_server SysConfig ag srv w)))).
  { unfold find_server.
    destruct (map_get (Servers SysConfig) (MCPAgentServer_Name srv)) as [s|].
    - split; [reflexivity | right; reflexivity].
    - rewrite setup_bind_run. split; [reflexivity | left; reflexivity]. }
  destruct Hf as [Hw Ho]. rewrite Hw. destruct IH as [IHw IHo].
  cbn [setup_ret world_of trace_of outcome_of fst snd]. split; [exact IHw|].
  constructor.
  - destruct Ho as [Ho|Ho]; [left; exact Ho|].
    right. exists srv. split; [left; reflexivity | exact Ho].
  - eapply Forall_impl; [|exact IHo]. intros s [Hs|(srv' & Hin & Hs)];
      [left; exact Hs|].
    right. exists srv'. split; [right; exact Hin | exact Hs].
Qed.

Lemma copy_of_entries (entries : list MCPAgentServer) :
  map (fun srv => {| MCPAgentServer_Name := MCPAgentServer_Name srv;
                     AllowedTools := AllowedTools srv |}) entries
  = entries.
Proof.
  induction entries as [|[name tools] entries IH]; [reflexivity|].
  cbn [map MCPAgentServer_Name AllowedTools]. rewrite IH. reflexivity.
Qed.

Lemma found_servers_incl (servers : list MCPServer) (all : list MCPAgentServer)
    (s : MCPServer) :
  In s (found_servers servers all) -> In s servers.
Proof.
  intros H. apply found_servers_named in H.
  apply (server_named_found _ _ _ H).
Qed.

Lemma initAgents_step_run (SysConfig : SystemConfig)
    (acc : list (string * MCPAgent)) (ag : config_MCPAgent) (w : World) :
  exists mcpAgent,
    outcome_of (initAgents_step SysConfig acc ag w)
    = map_set acc (config_MCPAgent_Name ag) mcpAgent
    /\ agent_of SysConfig ag mcpAgent.
Proof.
  unfold initAgents_step. cbv zeta. rewrite !setup_bind_run.
  cbn [Printf setup_ret world_of trace_of outcome_of fst snd].
  eexists. split; [reflexivity|].
  rewrite copy_of_entries.
  destruct (NewMCPAgent_loop_servers
              (filter (fun srv => negb (String.eqb (Name srv) EmptyString))
                 (outcome_of (slices_Map_effects (MCPAgentServers ag)
                                (find_server SysConfig ag) w)))
              (MCPAgentServers ag)
              {| MCPAgent_Name := config_MCPAgent_Name ag;
                 MCPServerNames := MCPAgentServers ag;
                 MCPServerTools := []; mcpServers := [];
                 Provider := config_MCPAgent_Provider ag;
                 LLMModel := model_of SysConfig (config_MCPAgent_Provider ag) |}
              (world_of (slices_Map_effects (MCPAgentServers ag)
                           (find_server SysConfig ag) w)))
    as (Hs & _ & Hn & Hns & Hp & Hm).
  unfold NewMCPAgent, agent_of.
  split; [exact Hn|]. split; [exact Hns|]. split; [exact Hp|]. split; [exact Hm|].
  rewrite Hs. cbn [mcpServers app].
  apply Forall_forall. intros s Hin.
  apply found_servers_incl in Hin. apply filter_In in Hin. destruct Hin as [Hin Hne].
  destruct (find_servers_run SysConfig ag (MCPAgentServers ag) w) as [_ Hall].
  rewrite Forall_forall in Hall. specialize (Hall s Hin).
  apply negb_true_iff, String.eqb_neq in Hne. split; [exact Hne|].
  destruct Hall as [->|H]; [contradiction Hne; reflexivity | exact H].
Qed.

Lemma initAgents_loop_run (SysConfig : SystemConfig) (agents : list config_MCPAgent) :
  forall (acc : list (string * MCPAgent)) (w : World),
    (forall name,
        (exists mcpAgent,
            map_get (outcome_of (initAgents_loop SysConfig agents acc w)) name
            = Some mcpAgent)
        <-> ((exists mcpAgent, map_get acc name = Some mcpAgent)
             \/ exists ag, In ag agents /\ config_MCPAgent_Name ag = name))
    /\ (forall name mcpAgent,
          map_get (outcome_of (initAgents_loop SysConfig agents acc w)) name
          = Some mcpAgent ->
          map_get acc name = Some mcpAgent
          \/ exists ag,
               In ag agents /\ config_MCPAgent_Name ag = name
               /\ agent_of SysConfig ag mcpAgent).
Proof.
  induction agents as [|ag agents IH]; intros acc w.
  - cbn. split.
    + intros name. split; [intros H; left; exact H|].
      intros [H|(a & [] & _)]. exact H.
    + intros name mcpAgent H. left. exact H.
  - cbn [initAgents_loop]. rewrite setup_bind_run.
    cbn [world_of trace_of outcome_of fst snd].
    destruct (initAgents_step_run SysConfig acc ag w) as (mcpAgent0 & Hstep & Hag).
    rewrite Hstep.
    destruct (IH (map_set acc (config_MCPAgent_Name ag) mcpAgent0)
                (world_of (initAgents_step SysConfig acc ag w))) as [Hkeys Hvals].
    split.
    + intros name. rewrite (Hkeys name), map_get_set. split.
      * intros [[m Hm]|(a & Hin & Hn)].
        -- destruct (String.eqb (config_MCPAgent_Name ag) name) eqn:E.
           ++ right. exists ag. apply String.eqb_eq in E.
              split; [left; reflexivity | exact E].
           ++ left. exists m. exact Hm.
        -- right. exists a. split; [right; exact Hin | exact Hn].
      * intros [[m Hm]|(a & [<-|Hin] & Hn)].
        -- left. destruct (String.eqb (config_MCPAgent_Name ag) name);
             eexists; [reflexivity | exact Hm].
        -- left. apply String.eqb_eq in Hn. rewrite Hn. eexists. reflexivity.
        -- right. exists a. split; assumption.
    + intros name mcpAgent Hm.
      destruct (Hvals name mcpAgent Hm) as [Hacc|(a & Hin & Hn & Ha)].
      * rewrite map_get_set in Hacc.
        destruct (String.eqb (config_MCPAgent_Name ag) name) eqn:E.
        -- right. exists ag. apply String.eqb_eq in E. inversion Hacc; subst.
           split; [left; reflexivity|]. split; [reflexivity | exact Hag].
        -- left. exact Hacc.
      * right. exists a. split; [right; exact Hin|]. split; assumption.
Qed.

End Configuration.

(** X20.  The providers of initLLMProviders: a model is made for the
    providers of type AZURE, and for no other; a provider of another type
    is passed over without an error.  When initLLMProviders returns a
    map, openai.New has been called once for each provider of type AZURE,
    in order, with the token, the base URL, the model, the Azure API type
    and the version of the provider; the keys of the map are the names of
    the providers of type AZURE, and the model under a key is one that
    openai.New returned for a provider of that name.  When it returns an
    error, the error is that of the last call of openai.New, made for a
    provider of type AZURE, and the providers after that one have not
    been looked at. *)
Theorem X20_models_for_AZURE_providers_only {env : Env} {senv : SetupEnv env}
    (providers : list LLMProvider) (w : World) :
  match outcome_of (initLLMProviders providers w) with
  | inr models =>
      map fst (opened (trace_of (initLLMProviders providers w)))
      = map options_of (filter is_AZURE providers)
      /\ (forall name,
            (exists llmModel, map_get models name = Some llmModel)
            <-> exists provider,
                  In provider providers
                  /\ LLMProvider_Type provider = "AZURE"
                  /\ LLMProvider_Name provider = name)
      /\ (forall name llmModel,
            map_get models name = Some llmModel ->
            exists provider,
              In provider providers
              /\ LLMProvider_Type provider = "AZURE"
              /\ LLMProvider_Name provider = name
              /\ In (options_of provider, inr llmModel)
                   (opened (trace_of (initLLMProviders providers w))))
  | inl err =>
      exists before provider rest calls,
        providers = before ++ provider :: rest
        /\ LLMProvider_Type provider = "AZURE"
        /\ opened (trace_of (initLLMProviders providers w))
           = calls ++ [(options_of provider, inl err)]
        /\ map fst (opened (trace_of (initLLMProviders providers w)))
           = map options_of (filter is_AZURE (before ++ [provider]))
  end.
Proof.
  unfold initLLMProviders.
  pose proof (initLLMProviders_loop_run providers [] w) as H.
  destruct (outcome_of (initLLMProviders_loop providers [] w)) as [err|models].
  - destruct H as (before & p & rest & calls & Hp & Haz & Hlast & Hmap).
    exists before, p, rest, calls.
    split; [exact Hp|]. split; [apply String.eqb_eq; exact Haz|].
    split; assumption.
  - destruct H as (Hmap & Hkeys & Hvals). split; [exact Hmap|]. split.
    + intros name. rewrite (Hkeys name). split.
      * intros [[m Hm]|(p & Hin & Haz & Hn)]; [discriminate|].
        exists p. split; [exact Hin|]. split; [apply String.eqb_eq; exact Haz | exact Hn].
      * intros (p & Hin & Haz & Hn). right. exists p.
        split; [exact Hin|]. split; [apply String.eqb_eq; exact Haz | exact Hn].
    + intros name m Hm.
      destruct (Hvals name m Hm) as [Hacc|(p & Hin & Haz & Hn & Ho)]; [discriminate|].
      exists p. split; [exact Hin|].
      split; [apply String.eqb_eq; exact Haz|]. split; assumption.
Qed.

(** A provider of another type gets no model, and no error. *)
Example X20_other_type_example :
  map fst
    (match outcome_of
             (@initLLMProviders (scripted calc_script)
                (scripted_setup calc_script calc_setup)
                [{| LLMProvider_Name := "my-openai-provider";
                    LLMProvider_Type := "OPENAI"; Token := "token";
                    BaseURL := EmptyString; LLMProvider_Model := "gpt-4o-mini";
                    Version := EmptyString |};
                 azure_provider] 0%nat) with
     | inr models => models
     | inl _ => []
     end)
  = ["my-azure-provider"].
Proof. vm_compute. reflexivity. Qed.

(** X21.  Setup is not atomic, and the agents are built last: whenever
    Setup returns an error, the servers and the agents of SysConfig are
    those of before the call, and either initLLMProviders returned the
    error and the models of SysConfig are those of before, or
    initLLMProviders returned models, which have replaced the models of
    SysConfig already, and initMCPServers returned the error; no error
    comes from initAgents.  Whenever Setup returns no error, the models,
    the servers and the agents of SysConfig are those that the three
    functions returned, called in this order, the agents being built on
    the new models and servers. *)
Theorem X21_Setup_is_not_atomic {env : Env} {senv : SetupEnv env}
    (providers : list LLMProvider) (servers : list config_MCPServer)
    (agents : list config_MCPAgent) (SysConfig : SystemConfig) (w : World) :
  match outcome_of (Setup providers servers agents SysConfig w) with
  | (SysConfig', Some err) =>
      Servers SysConfig' = Servers SysConfig
      /\ Agents SysConfig' = Agents SysConfig
      /\ ((outcome_of (initLLMProviders providers w) = inl err
           /\ LLMModels SysConfig' = LLMModels SysConfig)
          \/ (outcome_of (initLLMProviders providers w)
              = inr (LLMModels SysConfig')
              /\ outcome_of (initMCPServers servers
                               (world_of (initLLMProviders providers w)))
                 = inl err))
  | (SysConfig', None) =>
      outcome_of (initLLMProviders providers w) = inr (LLMModels SysConfig')
      /\ outcome_of (initMCPServers servers
                       (world_of (initLLMProviders providers w)))
         = inr (Servers SysConfig')
      /\ Agents SysConfig'
         = fst (outcome_of
                  (initAgents
                     {| LLMModels := LLMModels SysConfig';
                        Servers := Servers SysConfig';
                        Agents := Agents SysConfig |}
                     agents
                     (world_of (initMCPServers servers
                                  (world_of (initLLMProviders providers w))))))
  end.
Proof.
  unfold Setup. rewrite setup_bind_run.
  destruct (outcome_of (initLLMProviders providers w)) as [err|models] eqn:H1.
  - cbn. repeat split. left. split; reflexivity.
  - cbv zeta. rewrite setup_bind_run.
    destruct (outcome_of (initMCPServers servers
                            (world_of (initLLMProviders providers w))))
      as [err|serversMap] eqn:H2.
    + cbn. repeat split. right. split; reflexivity.
    + rewrite setup_bind_run.
      cbn [LLMModels Servers Agents].
      pose proof (initAgents_no_error
                    {| LLMModels := models; Servers := serversMap;
                       Agents := Agents SysConfig |} agents
                    (world_of (initMCPServers servers
                                 (world_of (initLLMProviders providers w)))))
        as Hnone.
      destruct (outcome_of
                  (initAgents
                     {| LLMModels := models; Servers := serversMap;
                        Agents := Agents SysConfig |} agents
                     (world_of (initMCPServers servers
                                  (world_of (initLLMProviders providers w))))))
        as [mapAgents [err|]] eqn:H3; [discriminate|].
      cbn. rewrite H3. repeat split.
Qed.

(** A server that cannot be initialized: the models are replaced, the
    servers and the agents are not. *)
Example X21_failing_server_example :
  match outcome_of
          (@Setup (scripted calc_script)
             (scripted_setup calc_script failing_init_setup)
             [azure_provider] [calc_config] [my_agent]
             (empty_config calc_script) 0%nat) with
  | (SysConfig', err) =>
      (map fst (LLMModels SysConfig'), map fst (Servers SysConfig'),
       map fst (Agents SysConfig'), err)
  end
  = (["my-azure-provider"], [], [],
     Some (Err "failed to initialize MCP client: connection refused")).
Proof. vm_compute. reflexivity. Qed.

(** The configuration of the README. *)
Example X21_README_example :
  match outcome_of
          (@Setup (scripted calc_script) (scripted_setup calc_script calc_setup)
             [azure_provider] [calc_config] [my_agent]
             (empty_config calc_script) 0%nat) with
  | (SysConfig', err) =>
      (map fst (LLMModels SysConfig'), map fst (Servers SysConfig'),
       map (fun entry =>
              (fst entry,
               map (fun t => FunctionDefinition_Name (Function t))
                 (ExtractToolsFromAgent (snd entry))))
         (Agents SysConfig'),
       err)
  end
  = (["my-azure-provider"], ["calc"],
     [("my-agent", ["calc__add"; "calc__mul"])], None).
Proof. vm_compute. reflexivity. Qed.

(** X22.  The agents of initAgents: initAgents returns no error, whatever
    the descriptions; the keys of the map it returns are the names of the
    descriptions; the agent under a key was built from a description of
    that name: its name, its list of names and its provider are those of
    the description; its model is the model that SysConfig.LLMModels
    holds for the provider and the nil model when it holds none, without
    an error; each of its servers has a name that is not empty and is
    held by SysConfig.Servers under a name of the description, a name
    that SysConfig.Servers does not hold giving no server and no
    error. *)
Theorem X22_agents_of_initAgents {env : Env} {senv : SetupEnv env}
    (SysConfig : SystemConfig) (agents : list config_MCPAgent) (w : World) :
  snd (outcome_of (initAgents SysConfig agents w)) = None
  /\ (forall name,
        (exists mcpAgent,
            map_get (fst (outcome_of (initAgents SysConfig agents w))) name
            = Some mcpAgent)
        <-> exists ag, In ag agents /\ config_MCPAgent_Name ag = name)
  /\ (forall name mcpAgent,
        map_get (fst (outcome_of (initAgents SysConfig agents w))) name
        = Some mcpAgent ->
        exists ag,
          In ag agents /\ config_MCPAgent_Name ag = name
          /\ MCPAgent_Name mcpAgent = name
          /\ MCPServerNames mcpAgent = MCPAgentServers ag
          /\ Provider mcpAgent = config_MCPAgent_Provider ag
          /\ LLMModel mcpAgent
             = match map_get (LLMModels SysConfig) (config_MCPAgent_Provider ag) with
               | Some llmModel => llmModel
               | None => nil_Model
               end
          /\ Forall (fun s =>
                       Name s <> EmptyString
                       /\ exists srv,
                            In srv (MCPAgentServers ag)
                            /\ map_get (Servers SysConfig) (MCPAgentServer_Name srv)
                               = Some s)
               (mcpServers mcpAgent)).
Proof.
  split; [apply initAgents_no_error|].
  unfold initAgents. rewrite setup_bind_run.
  cbn [setup_ret world_of trace_of outcome_of fst snd].
  destruct (initAgents_loop_run SysConfig agents [] w) as [Hkeys Hvals].
  split.
  - intros name. rewrite (Hkeys name). split.
    + intros [[m Hm]|H]; [discriminate | exact H].
    + intros H. right. exact H.
  - intros name mcpAgent Hm.
    destruct (Hvals name mcpAgent Hm) as [Hacc|(ag & Hin & Hn & Ha)]; [discriminate|].
    exists ag. destruct Ha as (H1 & H2 & H3 & H4 & H5).
    split; [exact Hin|]. split; [exact Hn|]. split; [congruence|].
    split; [exact H2|]. split; [exact H3|]. split; [exact H4 | exact H5].
Qed.

(** An agent whose server and provider are not configured is built all
    the same, with no server and the nil model. *)
Example X22_nothing_configured_example :
  match outcome_of
          (@initAgents (scripted calc_script) (scripted_setup calc_script calc_setup)
             (empty_config calc_script) [my_agent] 0%nat) with
  | (mapAgents, err) =>
      (map (fun entry => (fst entry, map Name (mcpServers (snd entry)))) mapAgents,
       err)
  end
  = ([("my-agent", [])], None).
Proof. vm_compute. reflexivity. Qed.
